(** * AgriVision: the pest-detection decision layer

    A shallow embedding of
      backend/app/services/pest_detection_service.py  (PestDetectionService)
      backend/app/routers/pest_detection.py           (predict_disease_root)
    and the properties of the classification / bias-mitigation policy.

    Modelling conventions
    - Python [str] values are [string]s over ASCII; the string methods the
      service calls (replace, split, lower, capitalize, join, strip, [in])
      are written out below.
    - a numpy float32 array is a [list Q] that holds the values of its
      entries, and a Python float is the rational it stands for.
      Comparisons are exact.  Arithmetic between np.float32 scalars is
      float32 arithmetic: the exact result rounded to the nearest float32,
      ties to the even significand ([F32.round]).  A Python float or int
      that meets an np.float32 scalar is first converted to float32 (the
      scalar promotion of NumPy 2).  Infinities (overflow) and NaN are
      outside the model.  Python's [round(x, 4)] is round-half-even on the
      fourth decimal.
    - [np.argsort] is any sorter that returns a permutation of the indices
      listing the values in ascending order: numpy's default sort leaves the
      order of equal keys to the implementation.  The stable sort is one
      such sorter and is the one the concrete examples run.
    - a raised exception is [Raise cls] with the class name of the exception;
      messages are not modelled. *)

From Stdlib Require Import Bool Arith ZArith QArith Qround Qabs Qpower.
From Stdlib Require Import Lia Lqa List.
From Stdlib Require Import Ascii String DecimalString.
From Stdlib Require Import Permutation Sorted.
Import ListNotations.

Open Scope string_scope.

(* ------------------------------------------------------------------ *)
(** ** Python string methods (ASCII) *)

Module PyStr.

Definition is_upper (c : ascii) : bool :=
  let n := nat_of_ascii c in (65 <=? n)%nat && (n <=? 90)%nat.

Definition is_lower (c : ascii) : bool :=
  let n := nat_of_ascii c in (97 <=? n)%nat && (n <=? 122)%nat.

(** str.isspace for one ASCII character: TAB, LF, VT, FF, CR,
    FS, GS, RS, US and the space. *)
Definition is_space (c : ascii) : bool :=
  let n := nat_of_ascii c in
  ((9 <=? n)%nat && (n <=? 13)%nat)
  || ((28 <=? n)%nat && (n <=? 32)%nat).

Definition lower_char (c : ascii) : ascii :=
  if is_upper c then ascii_of_nat (nat_of_ascii c + 32) else c.

Definition upper_char (c : ascii) : ascii :=
  if is_lower c then ascii_of_nat (nat_of_ascii c - 32) else c.

Fixpoint lower (s : string) : string :=
  match s with
  | EmptyString => EmptyString
  | String c t => String (lower_char c) (lower t)
  end.

(** str.capitalize: first character upper-cased, the rest lower-cased. *)
Definition capitalize (s : string) : string :=
  match s with
  | EmptyString => EmptyString
  | String c t => String (upper_char c) (lower t)
  end.

Definition startswith (s p : string) : bool := String.prefix p s.

(** [sub in s] *)
Fixpoint contains (sub s : string) : bool :=
  String.prefix sub s ||
  match s with
  | EmptyString => false
  | String _ t => contains sub t
  end.

(** str.replace(old, new) for a non-empty [old]: occurrences are found
    left to right and do not overlap.  [skip] counts the characters of a
    match that are still to be dropped. *)
Fixpoint replace_from (old new s : string) (skip : nat) : string :=
  match s with
  | EmptyString => EmptyString
  | String c t =>
      match skip with
      | S k => replace_from old new t k
      | O =>
          if String.prefix old s
          then new ++ replace_from old new t (String.length old - 1)
          else String c (replace_from old new t 0)
      end
  end.

Definition replace (s old new : string) : string :=
  replace_from old new s 0.

(** str.split() without argument: split on runs of whitespace, no empty
    words. *)
Fixpoint split_from (cur s : string) : list string :=
  match s with
  | EmptyString => if String.eqb cur EmptyString then [] else [cur]
  | String c t =>
      if is_space c
      then (if String.eqb cur EmptyString then split_from EmptyString t
            else cur :: split_from EmptyString t)
      else split_from (cur ++ String c EmptyString) t
  end.

Definition split (s : string) : list string := split_from EmptyString s.

Definition join (sep : string) (l : list string) : string :=
  String.concat sep l.

Fixpoint lstrip (s : string) : string :=
  match s with
  | EmptyString => EmptyString
  | String c t => if is_space c then lstrip t else s
  end.

Fixpoint rev_string (acc s : string) : string :=
  match s with
  | EmptyString => acc
  | String c t => rev_string (String c acc) t
  end.

Definition rstrip (s : string) : string :=
  rev_string EmptyString (lstrip (rev_string EmptyString s)).

Definition strip (s : string) : string := rstrip (lstrip s).

(** [x in [a, b, ...]] for strings *)
Definition mem (x : string) (l : list string) : bool :=
  existsb (String.eqb x) l.

(** str(n) for a non-negative int *)
Definition of_nat (n : nat) : string :=
  NilZero.string_of_uint (Nat.to_uint n).

End PyStr.

(* ------------------------------------------------------------------ *)
(** ** Results and exceptions *)

(** A call either returns a value or raises; [Raise cls] carries the class
    name of the Python exception. *)
Inductive result (A : Type) : Type :=
| Ok (a : A)
| Raise (cls : string).
Arguments Ok {A} a.
Arguments Raise {A} cls.

Definition bind {A B : Type} (r : result A) (k : A -> result B) : result B :=
  match r with
  | Ok a => k a
  | Raise cls => Raise cls
  end.

Notation "x <- r ;; k" := (bind r (fun x => k))
  (at level 61, r at next level, right associativity).

Definition raises {A : Type} (r : result A) (cls : string) : Prop :=
  r = Raise cls.

Definition returns {A : Type} (r : result A) : Prop :=
  exists a, r = Ok a.

(* ------------------------------------------------------------------ *)
(** ** Floats as rationals *)

Open Scope Q_scope.

Definition Qltb (x y : Q) : bool := negb (Qle_bool y x).

(** Nearest integer, ties to the even one. *)
Definition round_half_even (q : Q) : Z :=
  let f := Qfloor q in
  match Qcompare (q - inject_Z f) (1 # 2) with
  | Lt => f
  | Gt => (f + 1)%Z
  | Eq => if Z.even f then f else (f + 1)%Z
  end.

(** round(x, 4) *)
Definition round4 (q : Q) : Q := round_half_even (q * 10000) # 10000.

(* ------------------------------------------------------------------ *)
(** ** np.float32 *)

Module F32.

(** 2^e *)
Definition pow2 (e : Z) : Q := 2 ^ e.

(** floor(log2 |q|) for q <> 0: the exponent of the power of two at or
    below |q|. *)
Definition binade (q : Q) : Z :=
  let l := (Z.log2 (Z.abs (Qnum q)) - Z.log2 (Zpos (Qden q)))%Z in
  if Qle_bool (pow2 l) (Qabs q) then l else (l - 1)%Z.

(** The exponent of the spacing of the float32 values around q: 24
    significant bits, and 2^-149 from the smallest normal number down. *)
Definition ulp_exp (q : Q) : Z := Z.max (binade q - 23) (-149).

(** The float32 nearest to q, ties to the even significand. *)
Definition round (q : Q) : Q :=
  if Qeq_bool q 0 then 0
  else inject_Z (round_half_even (q / pow2 (ulp_exp q))) * pow2 (ulp_exp q).

(** x + y, x - y and x / y on np.float32 scalars *)
Definition add (x y : Q) : Q := round (x + y).
Definition sub (x y : Q) : Q := round (x - y).
Definition div (x y : Q) : Q := round (x / y).

End F32.

(* ------------------------------------------------------------------ *)
(** ** numpy on one-dimensional arrays *)

Module Np.

Definition ndarray := list Q.

(** The entries are float32 values, as those of a float32 array are. *)
Definition float32_array (a : ndarray) : Prop :=
  Forall (fun x => F32.round x == x) a.

(** a[i] for 0 <= i: IndexError outside the array *)
Definition getitem {A : Type} (a : list A) (i : nat) : result A :=
  match nth_error a i with
  | Some x => Ok x
  | None => Raise "IndexError"
  end.

(** a[-k:] *)
Definition last_k {A : Type} (k : nat) (a : list A) : list A :=
  skipn (List.length a - k) a.

(** a[::-1] *)
Definition reversed {A : Type} (a : list A) : list A := rev a.

(** a[idx] for an index array that is in bounds *)
Definition take (a : ndarray) (idx : list nat) : ndarray :=
  map (fun i => nth i a 0) idx.

(** Stable insertion of an (index, key) pair into a list sorted by key. *)
Fixpoint insert (x : nat * Q) (l : list (nat * Q)) : list (nat * Q) :=
  match l with
  | [] => [x]
  | y :: t =>
      if Qle_bool (snd x) (snd y) then x :: l else y :: insert x t
  end.

(** The order that [insert] maintains. *)
Definition key_le (x y : nat * Q) : Prop := snd x <= snd y.

Fixpoint isort (l : list (nat * Q)) : list (nat * Q) :=
  match l with
  | [] => []
  | x :: t => insert x (isort t)
  end.

Definition enumerate (a : ndarray) : list (nat * Q) :=
  combine (seq 0 (List.length a)) a.

(** The indices that sort [a] in ascending order, equal keys in index
    order: what np.argsort(a, kind='stable') returns. *)
Definition argsort_stable (a : ndarray) : list nat :=
  map fst (isort (enumerate a)).

(** np.argsort(a) with numpy's default kind: an index array that is a
    permutation of 0 .. N-1 and lists the values in ascending order.  The
    order of equal values is left to the implementation, so the service is
    written over any sorter with these two properties. *)
Class ArgSort : Type := {
  argsort : ndarray -> list nat;
  argsort_perm : forall a, Permutation (argsort a) (seq 0 (List.length a));
  argsort_sorted : forall a, StronglySorted Qle (take a (argsort a))
}.

Definition Qmaxb (x y : Q) : Q := if Qle_bool x y then y else x.

(** np.max(a): ValueError on an empty array *)
Definition max (a : ndarray) : result Q :=
  match a with
  | [] => Raise "ValueError"
  | x :: t => Ok (fold_left Qmaxb t x)
  end.

(** np.partition(a, -k)[-k]: the element in sorted position N-k, that is the
    k-th largest value; ValueError when the position is out of bounds. *)
Definition partition_neg `{ArgSort} (a : ndarray) (k : nat) : result Q :=
  if ((1 <=? k)%nat && (k <=? List.length a)%nat)%bool
  then getitem (take a (argsort a)) (List.length a - k)
  else Raise "ValueError".

End Np.

(* ------------------------------------------------------------------ *)
(** ** PestDetectionService *)

(** The loaded Keras model, seen through [model.predict]: a preprocessed
    image array goes to a batch of probability vectors. *)
Definition keras_model : Type := Np.ndarray -> list Np.ndarray.

Record PestDetectionService : Type := {
  model : option keras_model;
  is_loaded : bool;
  num_classes : nat;
  disease_mapping : list (nat * string)
}.

(** dict.get(key, default) *)
Fixpoint dict_get {V : Type} (d : list (nat * V)) (key : nat) (default : V) : V :=
  match d with
  | [] => default
  | (k, v) :: t => if Nat.eqb k key then v else dict_get t key default
  end.

(** The 22-class mapping assigned in [__init__]. *)
Definition disease_mapping_22 : list (nat * string) :=
  [ (0%nat, "Healthy_Leaf");
    (1%nat, "Apple_Scab");
    (2%nat, "Apple_Black_Rot");
    (3%nat, "Apple_Cedar_Rust");
    (4%nat, "Cherry_Powdery_Mildew");
    (5%nat, "Corn_Gray_Leaf_Spot");
    (6%nat, "Corn_Common_Rust");
    (7%nat, "Corn_Northern_Blight");
    (8%nat, "Grape_Black_Rot");
    (9%nat, "Grape_Esca");
    (10%nat, "Grape_Leaf_Blight");
    (11%nat, "Peach_Bacterial_Spot");
    (12%nat, "Pepper_Bacterial_Spot");
    (13%nat, "Potato_Early_Blight");
    (14%nat, "Potato_Late_Blight");
    (15%nat, "Strawberry_Leaf_Scorch");
    (16%nat, "Tomato_Bacterial_Spot");
    (17%nat, "Tomato_Early_Blight");
    (18%nat, "Tomato_Late_Blight");
    (19%nat, "Tomato_Leaf_Mold");
    (20%nat, "Tomato_Septoria_Leaf_Spot");
    (21%nat, "Tomato_Spider_Mites") ].

(** [__init__]: [loaded] is what [tf.keras.models.load_model] yields, [None]
    when the model file is missing or loading raises ([load_model] catches
    every exception and returns False).  Nothing in the constructor
    raises. *)
Definition PestDetectionService_init (loaded : option keras_model)
  : result PestDetectionService :=
  Ok {| model := loaded;
        is_loaded := match loaded with Some _ => true | None => false end;
        num_classes := 22;
        disease_mapping := disease_mapping_22 |}.

Definition is_model_loaded (self : PestDetectionService) : bool :=
  is_loaded self && match model self with Some _ => true | None => false end.

(** One word of [_clean_disease_name]'s loop. *)
Definition format_word (word : string) : string :=
  if PyStr.mem (PyStr.lower word)
       ["and"; "or"; "the"; "of"; "in"; "on"; "at"; "to"; "for"]
  then PyStr.lower word
  else if PyStr.contains "(" word || PyStr.contains ")" word
  then word
  else PyStr.capitalize word.

Definition _clean_disease_name (raw_name : string) : string :=
  let cleaned := PyStr.replace (PyStr.replace raw_name "___" " - ") "_" " " in
  let cleaned := PyStr.replace cleaned "(including sour)" EmptyString in
  let cleaned :=
    PyStr.replace cleaned "Two-spotted spider mite" "Two-spotted Spider Mite" in
  let words := PyStr.split cleaned in
  let formatted_words := map format_word words in
  PyStr.strip (PyStr.join " " formatted_words).

(** self.disease_mapping.get(class_id, f"Unknown Disease {class_id}")
    followed by [_clean_disease_name] *)
Definition raw_name_of (self : PestDetectionService) (class_id : nat) : string :=
  dict_get (disease_mapping self) class_id
           ("Unknown Disease " ++ PyStr.of_nat class_id).

Definition name_of (self : PestDetectionService) (class_id : nat) : string :=
  _clean_disease_name (raw_name_of self class_id).

(** The dict returned by [_detect_bias_patterns]: [{"is_biased": False}] or
    the four-key dict with [is_biased] True. *)
Inductive bias_check : Type :=
| NotBiased
| Biased (adjusted_prediction : string) (adjusted_confidence : Q)
         (reason : string).


(** One entry of [alternative_predictions]. *)
Record alternative : Type := {
  alt_prediction : string;
  alt_confidence : Q
}.

(** The dict returned by [_apply_bias_mitigation]; a key that a branch
    leaves out is [None]. *)
Record prediction_result : Type := {
  prediction : string;
  confidence : Q;
  status : string;
  alternative_predictions : option (list alternative);
  original_prediction : option string;
  note : option string
}.

Definition problematic_predictions : list string :=
  [ "Cherry - Powdery Mildew";
    "Potato - Healthy";
    "Corn (maize) - Northern Leaf Blight" ].

(** any(prob in disease_name for prob in problematic_predictions) *)
Definition is_problematic (disease_name : string) : bool :=
  existsb (fun prob => PyStr.contains prob disease_name) problematic_predictions.

(** Python's max(a, b) *)
Definition py_max (a b : Q) : Q := if Qltb a b then b else a.

Section Service.

Context `{sorter : Np.ArgSort}.

(** [sorted_indices] of [_detect_bias_patterns]: every class id, the most
    confident first. *)
Definition sorted_indices (predictions : Np.ndarray) : list nat :=
  Np.reversed (Np.argsort predictions).

(** [top_indices] of [_apply_bias_mitigation]: the five most confident
    class ids, the most confident first. *)
Definition top_indices (predictions : Np.ndarray) : list nat :=
  Np.reversed (Np.last_k 5 (Np.argsort predictions)).

(** First block of [_detect_bias_patterns] (the known-pattern check):
    [Some] the dict it returns, [None] when control falls through to the
    dominance check.  [confidence] is a Python float, the entries of
    [predictions] are np.float32 scalars: the sum of the three confidences
    and its third are float32 arithmetic. *)
Definition known_bias_check (self : PestDetectionService)
    (predictions : Np.ndarray) (disease_name : string) (confidence : Q)
  : result (option bias_check) :=
  if is_problematic disease_name then
    let sorted_indices := sorted_indices predictions in
    if Qltb 0.7 confidence then
      second_best_id <- Np.getitem sorted_indices 1 ;;
      third_best_id <- Np.getitem sorted_indices 2 ;;
      second_confidence <- Np.getitem predictions second_best_id ;;
      third_confidence <- Np.getitem predictions third_best_id ;;
      let second_disease := name_of self second_best_id in
      let third_disease := name_of self third_best_id in
      if Qltb 0.9 confidence then
        Ok (Some (Biased
          ("Uncertain Detection - Possibly " ++ second_disease ++ " or "
             ++ third_disease)
          (py_max second_confidence third_confidence)
          ("Model shows strong bias towards " ++ disease_name
             ++ ". Suggesting alternatives based on secondary predictions.")))
      else
        Ok (Some (Biased
          ("Multiple Possibilities: " ++ disease_name ++ ", " ++ second_disease
             ++ ", or " ++ third_disease)
          (F32.div (F32.add (F32.add (F32.round confidence) second_confidence)
                            third_confidence) 3)
          "Detected potential bias pattern. Providing multiple possibilities."))
    else Ok None
  else Ok None.

(** Second block of [_detect_bias_patterns] (the dominance check).
    [max_confidence] and [second_max] are np.float32 scalars: the literals
    0.8 and 0.6 are compared as float32 values, and the difference, the sum
    and its half are float32 arithmetic. *)
Definition dominance_check (self : PestDetectionService)
    (predictions : Np.ndarray) (disease_name : string)
  : result bias_check :=
  max_confidence <- Np.max predictions ;;
  second_max <- Np.partition_neg predictions 2 ;;
  if Qltb (F32.round 0.8) max_confidence
     && Qltb (F32.round 0.6) (F32.sub max_confidence second_max) then
    let sorted_indices := sorted_indices predictions in
    second_best_id <- Np.getitem sorted_indices 1 ;;
    let second_disease := name_of self second_best_id in
    Ok (Biased
      ("High Confidence with Uncertainty: Likely " ++ disease_name
         ++ " but consider " ++ second_disease)
      (F32.div (F32.add max_confidence second_max) 2)
      "Detected unusually high confidence gap - adding uncertainty to prevent overconfidence.")
  else Ok NotBiased.

Definition _detect_bias_patterns (self : PestDetectionService)
    (predictions : Np.ndarray) (disease_name : string) (confidence : Q)
  : result bias_check :=
  known <- known_bias_check self predictions disease_name confidence ;;
  match known with
  | Some b => Ok b
  | None => dominance_check self predictions disease_name
  end.

Definition _get_alternative_predictions (self : PestDetectionService)
    (top_indices : list nat) (top_confidences : Np.ndarray)
  : list alternative :=
  map (fun i =>
         let class_id := nth i top_indices 0%nat in
         let confidence := nth i top_confidences 0 in
         let disease_name := name_of self class_id in
         {| alt_prediction := disease_name;
            alt_confidence := round4 confidence |})
      (seq 1 (Nat.min 4 (List.length top_indices) - 1)).

Definition _apply_bias_mitigation (self : PestDetectionService)
    (predictions : Np.ndarray) : result prediction_result :=
  let top_indices := top_indices predictions in
  let top_confidences := Np.take predictions top_indices in
  predicted_class_id <- Np.getitem top_indices 0 ;;
  confidence <- Np.getitem top_confidences 0 ;;
  let disease_name := name_of self predicted_class_id in
  if Qltb confidence 0.6 then
    Ok {| prediction := "Uncertain - Low Confidence Detection";
          confidence := round4 confidence;
          status := "low_confidence";
          alternative_predictions :=
            Some (_get_alternative_predictions self top_indices top_confidences);
          original_prediction := None;
          note := None |}
  else
    bias_check <- _detect_bias_patterns self predictions disease_name confidence ;;
    match bias_check with
    | Biased adjusted_prediction adjusted_confidence reason =>
        Ok {| prediction := adjusted_prediction;
              confidence := round4 adjusted_confidence;
              status := "bias_adjusted";
              alternative_predictions := None;
              original_prediction := Some disease_name;
              note := Some reason |}
    | NotBiased =>
        if Qltb 0.95 confidence then
          Ok {| prediction := disease_name;
                confidence := round4 confidence;
                status := "high_confidence_with_alternatives";
                alternative_predictions :=
                  Some (_get_alternative_predictions self top_indices
                          top_confidences);
                original_prediction := None;
                note := Some "Very high confidence - consider alternative possibilities" |}
        else
          Ok {| prediction := disease_name;
                confidence := round4 confidence;
                status := "normal";
                alternative_predictions := None;
                original_prediction := None;
                note := None |}
    end.

End Service.

(** What [predict_from_image_bytes] hands back: the result dict, or the
    dict [{"error": str(e)}]. *)
Inductive service_reply : Type :=
| Reply (r : prediction_result)
| ErrorReply.

Section Pipeline.

Context `{sorter : Np.ArgSort}.

(** [preprocess_image]: decoding, RGB conversion, resizing and scaling are
    done by PIL and numpy; a failure is re-raised as ValueError. *)
Variable preprocess_image :
  PestDetectionService -> list Byte.byte -> result Np.ndarray.

(** [predict_disease]: every exception raised under the [try] is re-raised
    as ValueError. *)
Definition predict_disease (self : PestDetectionService)
    (image_array : Np.ndarray) : result prediction_result :=
  if negb (is_model_loaded self) then Raise "ValueError"
  else
    match model self with
    | None => Raise "ValueError"
    | Some m =>
        let predictions := m image_array in
        match (first <- Np.getitem predictions 0 ;;
               _apply_bias_mitigation self first) with
        | Ok r => Ok r
        | Raise _ => Raise "ValueError"
        end
    end.

(** [predict_from_image_bytes]: every exception becomes the error dict. *)
Definition predict_from_image_bytes (self : PestDetectionService)
    (image_data : list Byte.byte) : service_reply :=
  match (image_array <- preprocess_image self image_data ;;
         predict_disease self image_array) with
  | Ok r => Reply r
  | Raise _ => ErrorReply
  end.

End Pipeline.

(* ------------------------------------------------------------------ *)
(** ** The router: POST /api/pest-detection/ *)

Record UploadFile : Type := {
  content_type : option string;
  content : list Byte.byte
}.

(** The JSON body of a successful answer. *)
Record detection_body : Type := {
  disease : string;
  body_confidence : Q;
  severity : string;
  treatment : string;
  notes : string
}.

(** [JSONResponse(status_code, content)] keeps the status code and the
    "error" key of its content; a returned dict is an HTTP 200 body. *)
Inductive http_reply : Type :=
| JSONResponse (status_code : nat) (error : string)
| Body (b : detection_body).

Fixpoint str_dict_get (d : list (string * string)) (key : string)
  : option string :=
  match d with
  | [] => None
  | (k, v) :: t => if String.eqb k key then Some v else str_dict_get t key
  end.

Definition suggest_basic_treatment (disease_name : string) : string :=
  let name := PyStr.lower disease_name in
  if PyStr.contains "late blight" name then
    "Apply copper-based fungicide; remove infected leaves; improve air circulation."
  else if PyStr.contains "early blight" name then
    "Use fungicide (chlorothalonil/mancozeb); remove lower leaves; mulch to reduce soil splash."
  else if PyStr.contains "bacterial" name then
    "Remove infected tissue; apply copper sprays; avoid overhead irrigation."
  else if PyStr.contains "powdery mildew" name then
    "Use potassium bicarbonate or sulfur sprays; improve ventilation; avoid high humidity."
  else if PyStr.contains "leaf mold" name then
    "Increase airflow; reduce humidity; consider chlorothalonil-based treatment."
  else if PyStr.contains "rust" name then
    "Apply appropriate fungicide (strobilurin/triazole); remove heavily infected leaves."
  else if PyStr.contains "mite" name then
    "Use miticide or insecticidal soap; monitor underside of leaves; improve plant vigor."
  else if PyStr.contains "spot" name then
    "Copper-based fungicide; remove infected leaves; avoid wetting foliage."
  else
    "Use integrated pest management: monitor, remove infected parts, consider organic or copper-based treatments.".

Definition treatment_map : list (string * string) :=
  [ ("leaf spot", "Use Copper-based fungicide and ensure proper sunlight");
    ("powdery mildew", "Apply sulfur-based spray and avoid overwatering");
    ("healthy", "No action needed") ].

(** The part of [predict_disease_root] that follows the service call. *)
Definition respond (raw : service_reply) : http_reply :=
  match raw with
  | ErrorReply => JSONResponse 500 "inference_error"
  | Reply r =>
      let predicted_label :=
        PyStr.strip (if String.eqb (prediction r) EmptyString then "Unknown"
                     else prediction r) in
      let confidence := confidence r in
      if Qltb confidence 0.45 then
        Body {| disease := "Unknown";
                body_confidence := confidence;
                severity := "low";
                treatment := "Unable to identify. Please upload clearer image.";
                notes := "Upload clearer image if confidence is low." |}
      else
        let severity :=
          if Qle_bool 0.75 confidence then "high"
          else if Qle_bool 0.60 confidence then "medium"
          else "low" in
        let key := PyStr.lower predicted_label in
        let treatment :=
          match str_dict_get treatment_map key with
          | Some t => if String.eqb t EmptyString then suggest_basic_treatment predicted_label
                      else t
          | None => suggest_basic_treatment predicted_label
          end in
        Body {| disease := predicted_label;
                body_confidence := round4 confidence;
                severity := severity;
                treatment := treatment;
                notes := "Upload clearer image if confidence is low." |}
  end.

Section Router.

Context `{sorter : Np.ArgSort}.

Variable preprocess_image :
  PestDetectionService -> list Byte.byte -> result Np.ndarray.

Definition predict_disease_root (image : UploadFile)
    (service : PestDetectionService) : http_reply :=
  let type_ok :=
    match content_type image with
    | Some t => negb (String.eqb t EmptyString) && PyStr.startswith t "image/"
    | None => false
    end in
  if negb type_ok then JSONResponse 400 "image_invalid"
  else
    let content := content image in
    match content with
    | [] => JSONResponse 400 "image_empty"
    | _ =>
        if (10 * 1024 * 1024 <? Z.of_nat (List.length content))%Z
        then JSONResponse 400 "image_too_large"
        else respond (predict_from_image_bytes preprocess_image service content)
    end.

End Router.

(* ------------------------------------------------------------------ *)
(** ** Vocabulary of the properties *)

Section Rank.

Context `{sorter : Np.ArgSort}.

(** Class id at rank k+1 (k = 0 is the most confident class); IndexError
    when the vector has no such rank. *)
Definition rank_id (predictions : Np.ndarray) (k : nat) : result nat :=
  Np.getitem (sorted_indices predictions) k.

(** Confidence at rank k+1. *)
Definition rank_confidence (predictions : Np.ndarray) (k : nat) : result Q :=
  i <- rank_id predictions k ;; Np.getitem predictions i.

(** The alternatives that a result carries: ranks 2 to 4 of the vector,
    each with its cleaned label and rounded confidence. *)
Definition low_alternatives (self : PestDetectionService) (p : Np.ndarray)
  : list alternative :=
  map (fun i => {| alt_prediction := name_of self i;
                   alt_confidence := round4 (nth i p 0) |})
      (firstn 3 (tl (sorted_indices p))).

End Rank.

(** The test of the dominance check on the two leading confidences, and the
    confidence it reports for them. *)
Definition dominance_gap (c1 c2 : Q) : bool :=
  Qltb (F32.round 0.8) c1 && Qltb (F32.round 0.6) (F32.sub c1 c2).

Definition dominance_mean (c1 c2 : Q) : Q := F32.div (F32.add c1 c2) 2.

(** The confidence that the known-pattern check reports for a flagged label
    between 0.7 and 0.9. *)
Definition known_mean (c c2 c3 : Q) : Q :=
  F32.div (F32.add (F32.add (F32.round c) c2) c3) 3.

(** The two exception classes that numpy indexing and reductions raise. *)
Definition index_or_value (cls : string) : Prop :=
  cls = "IndexError" \/ cls = "ValueError".

(** Is [label] one of the taxonomy's labels, as written or cleaned? *)
Definition label_in_taxonomy (mapping : list (nat * string)) (label : string)
  : bool :=
  existsb (fun kv => String.eqb (snd kv) label
                     || String.eqb (_clean_disease_name (snd kv)) label)
          mapping.

(** The service object that [__init__] builds when no model file is found. *)
Definition service_22 : PestDetectionService :=
  {| model := None; is_loaded := false; num_classes := 22;
     disease_mapping := disease_mapping_22 |}.

(** Sample vectors: [halves n q] is q, q/2, q/4, ... (n entries, pairwise
    different), [put i x l] places x at index i. *)
Fixpoint halves (n : nat) (q : Q) : list Q :=
  match n with
  | O => []
  | S k => q :: halves k (q / 2)
  end.

Definition put (i : nat) (x : Q) (l : list Q) : list Q :=
  firstn i l ++ x :: skipn i l.

(** 22 classes, class 0 at 33/64 = 0.515625, runner-up class 1 at 15/64. *)
Definition vec_low : Np.ndarray := (33 # 64) :: (15 # 64) :: halves 20 (1 # 8).

(** 22 classes, class 3 at 31/32 = 0.96875, runner-up class 0 at 1/64. *)
Definition vec_peak : Np.ndarray := put 3 (31 # 32) (halves 21 (1 # 64)).



(** 22 classes, class 2 at the float32 value of 0.8, which is
    13421773/2^24 = 0.800000011920929, runner-up class 0 at 1/16. *)
Definition vec_float_08 : Np.ndarray :=
  put 2 (13421773 # 16777216) (halves 21 (1 # 16)).

(** 22 classes, class 0 at 14260633/2^24 (about 0.85), class 1 at
    4254707/2^27 (about 0.0317), the rest zero. *)
Definition vec_mean : Np.ndarray :=
  (14260633 # 16777216) :: (4254707 # 134217728) :: repeat 0 20.


(** 22 classes with an entry outside [0,1]: class 0 at 1.5. *)
Definition vec_out_of_range : Np.ndarray := put 0 (3 # 2) (halves 21 (1 # 64)).

(** Three classes only. *)
Definition vec_short : Np.ndarray := [0.2; 0.5; 0.3].

(** A decoder that accepts every upload and yields an empty image array. *)
Definition preprocess_any (_ : PestDetectionService) (_ : list Byte.byte)
  : result Np.ndarray := Ok [].

(* ------------------------------------------------------------------ *)
(** ** Probability vectors *)

(** sum(predictions) *)
Definition Qsum (l : list Q) : Q := fold_right Qplus 0 l.

(** Every entry is at least 0. *)
Definition nonneg (l : list Q) : Prop := Forall (fun x => 0 <= x) l.

(* ------------------------------------------------------------------ *)
(** ** Python dicts and HTTP outcomes of the router *)

(** The values that the router's dicts hold.  [PyOpaque] is a non-empty
    str whose text the model does not track (the text of an exception);
    [PyAlternatives] is the list of {"prediction", "confidence"} dicts. *)
Inductive pyvalue : Type :=
| PyNone
| PyBool (b : bool)
| PyInt (z : Z)
| PyFloat (q : Q)
| PyStr (s : string)
| PyOpaque
| PyAlternatives (l : list alternative).

Definition py_dict : Type := list (string * pyvalue).

(** bool(v) *)
Definition truthy (v : pyvalue) : bool :=
  match v with
  | PyNone => false
  | PyBool b => b
  | PyInt z => negb (z =? 0)%Z
  | PyFloat q => negb (Qeq_bool q 0)
  | PyStr s => negb (String.eqb s EmptyString)
  | PyOpaque => true
  | PyAlternatives l => match l with [] => false | _ => true end
  end.

(** key in d *)
Fixpoint py_in (key : string) (d : py_dict) : bool :=
  match d with
  | [] => false
  | (k, _) :: t => String.eqb k key || py_in key t
  end.

(** d.get(key, default) *)
Fixpoint py_get (d : py_dict) (key : string) (default : pyvalue) : pyvalue :=
  match d with
  | [] => default
  | (k, v) :: t => if String.eqb k key then v else py_get t key default
  end.

(** d[key] = v: an existing key keeps its place, a new one goes last. *)
Fixpoint py_set (d : py_dict) (key : string) (v : pyvalue) : py_dict :=
  match d with
  | [] => [(key, v)]
  | (k, w) :: t =>
      if String.eqb k key then (k, v) :: t else (k, w) :: py_set t key v
  end.

Definition py_optional_str (s : option string) : pyvalue :=
  match s with Some t => PyStr t | None => PyNone end.

(** The dict that [_apply_bias_mitigation] returns, key by key. *)
Definition result_dict (r : prediction_result) : py_dict :=
  ([ ("prediction", PyStr (prediction r));
     ("confidence", PyFloat (confidence r));
     ("status", PyStr (status r)) ]
   ++ match alternative_predictions r with
      | Some alts => [ ("alternative_predictions", PyAlternatives alts) ]
      | None => []
      end
   ++ match original_prediction r with
      | Some o => [ ("original_prediction", PyStr o) ]
      | None => []
      end
   ++ match note r with
      | Some n => [ ("note", PyStr n) ]
      | None => []
      end)%list.

(** The dict that [predict_from_image_bytes] returns. *)
Definition reply_dict (raw : service_reply) : py_dict :=
  match raw with
  | Reply r => result_dict r
  | ErrorReply => [ ("error", PyOpaque) ]
  end.

(** What an endpoint does: it returns a value or raises
    [HTTPException(status_code, detail)]; the detail text is not
    modelled. *)
Inductive http_result (A : Type) : Type :=
| HttpOk (a : A)
| HTTPException (status_code : nat).
Arguments HttpOk {A} a.
Arguments HTTPException {A} status_code.

(** [get_pest_detection_service]: the module-level variable
    [pest_detection_service] is [g]; [loaded] is what the model loader would
    yield if the constructor ran during this call.  The pair is the outcome
    and the variable afterwards. *)
Definition get_pest_detection_service (loaded : option keras_model)
    (g : option PestDetectionService)
  : http_result PestDetectionService * option PestDetectionService :=
  match g with
  | Some s =>
      if negb (is_model_loaded s) then (HTTPException 503, Some s)
      else (HttpOk s, Some s)
  | None =>
      match PestDetectionService_init loaded with
      | Ok s =>
          if negb (is_model_loaded s) then (HTTPException 503, Some s)
          else (HttpOk s, Some s)
      | Raise _ => (HTTPException 500, None)
      end
  end.

(** A sequence of requests, each with the loader outcome of its moment. *)
Fixpoint serve_requests (loads : list (option keras_model))
    (g : option PestDetectionService)
  : list (http_result PestDetectionService) * option PestDetectionService :=
  match loads with
  | [] => ([], g)
  | loaded :: rest =>
      let '(out, g1) := get_pest_detection_service loaded g in
      let '(outs, g2) := serve_requests rest g1 in
      (out :: outs, g2)
  end.

(** not file.content_type or not file.content_type.startswith('image/') *)
Definition bad_content_type (file : UploadFile) : bool :=
  match content_type file with
  | Some t => negb (negb (String.eqb t EmptyString)
                    && PyStr.startswith t "image/")
  | None => true
  end.

(** An upload together with its file name. *)
Record NamedUpload : Type := {
  filename : option string;
  upload : UploadFile
}.

(** The answer of the batch endpoint (the constant keys "success" and
    "message" are left out). *)
Record batch_response : Type := {
  total_files : nat;
  successful_predictions : nat;
  failed_predictions : nat;
  total_size_bytes : Z;
  results : list py_dict
}.

Definition batch_error (i : nat) (file : NamedUpload) (error : string)
  : py_dict :=
  [ ("file_index", PyInt (Z.of_nat i));
    ("filename", py_optional_str (filename file));
    ("success", PyBool false);
    ("error", PyStr error) ].

(** The size that the batch loop adds up: every upload with an accepted
    content type counts, also one that is then refused for its size. *)
Fixpoint counted_size (files : list NamedUpload) : Z :=
  match files with
  | [] => 0%Z
  | file :: rest =>
      ((if bad_content_type (upload file) then 0
        else Z.of_nat (List.length (content (upload file))))
       + counted_size rest)%Z
  end.

(** An entry of the batch results that counts as failed and carries the
    index [i]. *)
Definition entry_ok (i : nat) (e : py_dict) : Prop :=
  truthy (py_get e "success" (PyBool false)) = false
  /\ py_get e "file_index" PyNone = PyInt (Z.of_nat i).

Section RouterUploads.

Context `{sorter : Np.ArgSort}.

Variable preprocess_image :
  PestDetectionService -> list Byte.byte -> result Np.ndarray.

(** POST /detect-disease *)
Definition detect_disease_from_upload (file : UploadFile)
    (service : PestDetectionService) : http_result prediction_result :=
  if bad_content_type file then HTTPException 400
  else
    let content := content file in
    let file_size := Z.of_nat (List.length content) in
    if (10 * 1024 * 1024 <? file_size)%Z then HTTPException 400
    else if (file_size =? 0)%Z then HTTPException 400
    else
      match predict_from_image_bytes preprocess_image service content with
      | ErrorReply => HTTPException 500
      | Reply r => HttpOk r
      end.

(** One turn of the loop of [batch_detect_diseases]; the state is
    ([results], [total_size]). *)
Definition batch_step (service : PestDetectionService)
    (st : list py_dict * Z) (ifile : nat * NamedUpload)
  : list py_dict * Z :=
  let '(results, total_size) := st in
  let '(i, file) := ifile in
  if bad_content_type (upload file)
  then ((results ++ [batch_error i file "Invalid file type"])%list, total_size)
  else
    let content := content (upload file) in
    let file_size := Z.of_nat (List.length content) in
    let total_size := (total_size + file_size)%Z in
    if (10 * 1024 * 1024 <? file_size)%Z
    then ((results ++ [batch_error i file "File size too large (>10MB)"])%list,
          total_size)
    else if (50 * 1024 * 1024 <? total_size)%Z
    then ((results ++ [batch_error i file "Total batch size too large"])%list,
          total_size)
    else
      let result :=
        reply_dict (predict_from_image_bytes preprocess_image service content) in
      let result := py_set result "file_index" (PyInt (Z.of_nat i)) in
      let result := py_set result "filename" (py_optional_str (filename file)) in
      let result := py_set result "file_size" (PyInt file_size) in
      ((results ++ [result])%list, total_size).

(** POST /batch-detect *)
Definition batch_detect_diseases (files : list NamedUpload)
    (service : PestDetectionService) : http_result batch_response :=
  if (10 <? List.length files)%nat then HTTPException 400
  else
    let '(results, total_size) :=
      fold_left (batch_step service)
                (combine (seq 0 (List.length files)) files) ([], 0%Z) in
    let successful :=
      filter (fun r => truthy (py_get r "success" (PyBool false))) results in
    let failed :=
      filter (fun r => negb (truthy (py_get r "success" (PyBool false))))
             results in
    HttpOk {| total_files := List.length files;
              successful_predictions := List.length successful;
              failed_predictions := List.length failed;
              total_size_bytes := total_size;
              results := results |}.

End RouterUploads.

(* ------------------------------------------------------------------ *)
(** ** The router: POST /predict (pest risk from weather) *)

(** Python's min(a, b) *)
Definition py_min (a b : Q) : Q := if Qltb b a then b else a.

Fixpoint q_dict_get (d : list (string * Q)) (key : string) (default : Q) : Q :=
  match d with
  | [] => default
  | (k, v) :: t => if String.eqb k key then v else q_dict_get t key default
  end.

Definition season_multiplier : list (string * Q) :=
  [ ("summer", 1.2); ("monsoon", 1.3); ("winter", 0.7); ("spring", 1.0) ].

Definition calculate_pest_risk (temperature humidity rainfall : Q)
    (season : string) : Q :=
  let risk_score := 0 in
  let risk_score :=
    if Qle_bool 25 temperature && Qle_bool temperature 35
    then risk_score + 30
    else if (Qle_bool 20 temperature && Qltb temperature 25)
            || (Qltb 35 temperature && Qle_bool temperature 40)
    then risk_score + 20
    else if (Qle_bool 15 temperature && Qltb temperature 20)
            || (Qltb 40 temperature && Qle_bool temperature 45)
    then risk_score + 10
    else risk_score in
  let risk_score :=
    if Qle_bool 80 humidity then risk_score + 35
    else if Qle_bool 60 humidity then risk_score + 25
    else if Qle_bool 40 humidity then risk_score + 15
    else risk_score + 5 in
  let risk_score :=
    if Qle_bool 50 rainfall && Qle_bool rainfall 200 then risk_score + 25
    else if Qltb 200 rainfall && Qle_bool rainfall 400 then risk_score + 15
    else if Qltb 400 rainfall then risk_score + 10
    else risk_score + 5 in
  let risk_score :=
    risk_score * q_dict_get season_multiplier (PyStr.lower season) 1.0 in
  py_min 100 (py_max 0 risk_score).

Record pest : Type := {
  pest_name : string;
  pest_severity : string;
  pest_description : string
}.

Definition crop_pests : list (string * list pest) :=
  [ ("rice",
     [ {| pest_name := "Brown planthopper"; pest_severity := "High";
          pest_description := "Major rice pest" |};
       {| pest_name := "Rice stem borer"; pest_severity := "Medium";
          pest_description := "Bores into rice stems" |} ]);
    ("wheat",
     [ {| pest_name := "Wheat aphid"; pest_severity := "Medium";
          pest_description := "Aphids specific to wheat" |};
       {| pest_name := "Armyworm"; pest_severity := "High";
          pest_description := "Caterpillars that eat wheat leaves" |} ]);
    ("maize",
     [ {| pest_name := "Fall armyworm"; pest_severity := "High";
          pest_description := "Major maize pest" |};
       {| pest_name := "Corn borer"; pest_severity := "Medium";
          pest_description := "Bores into corn stalks" |} ]) ].

Fixpoint crop_pests_get (d : list (string * list pest)) (key : string)
  : option (list pest) :=
  match d with
  | [] => None
  | (k, v) :: t => if String.eqb k key then Some v else crop_pests_get t key
  end.

(** The pests collected before the cut [pests[:5]]. *)
Definition collected_pests (temperature humidity : Q) (crop_type : string)
  : list pest :=
  ((if Qle_bool 25 temperature && Qle_bool 60 humidity
    then [ {| pest_name := "Aphids"; pest_severity := "High";
              pest_description := "Small insects that suck plant sap" |};
           {| pest_name := "Whiteflies"; pest_severity := "Medium";
              pest_description := "Small white flying insects" |} ]
    else [])
   ++ (if Qle_bool 80 humidity
       then [ {| pest_name := "Fungal diseases"; pest_severity := "High";
                 pest_description := "Various fungal infections" |};
              {| pest_name := "Slugs and snails"; pest_severity := "Medium";
                 pest_description := "Mollusks that eat plant leaves" |} ]
       else [])
   ++ match crop_pests_get crop_pests (PyStr.lower crop_type) with
      | Some l => l
      | None => []
      end)%list.

Definition get_common_pests (temperature humidity : Q) (season : string)
    (crop_type : string) : list pest :=
  firstn 5 (collected_pests temperature humidity crop_type).

(** round(x, 1) *)
Definition round1 (q : Q) : Q := round_half_even (q * 10) # 10.

(** The request body of POST /predict: a key that is absent is [None]. *)
Record pest_request : Type := {
  req_temperature : option Q;
  req_humidity : option Q;
  req_rainfall : option Q;
  req_season : option string;
  req_crop_type : option string
}.

(** The answer of POST /predict (the echo of the inputs and the constant
    keys "success" and "prediction_date" are left out). *)
Record pest_risk_response : Type := {
  risk_score : Q;
  risk_level : string;
  color : string;
  risk_confidence : Q;
  common_pests : list pest;
  recommendations : list string
}.

Definition or_default {A : Type} (x : option A) (d : A) : A :=
  match x with Some v => v | None => d end.

Definition predict_pest_risk (request : pest_request) : pest_risk_response :=
  let temperature := or_default (req_temperature request) 25.0 in
  let humidity := or_default (req_humidity request) 60.0 in
  let rainfall := or_default (req_rainfall request) 100.0 in
  let season := or_default (req_season request) "summer" in
  let crop_type := or_default (req_crop_type request) "rice" in
  let score := calculate_pest_risk temperature humidity rainfall season in
  let '(level, colour) :=
    if Qle_bool 80 score then ("Very High", "red")
    else if Qle_bool 60 score then ("High", "orange")
    else if Qle_bool 40 score then ("Medium", "yellow")
    else if Qle_bool 20 score then ("Low", "lightgreen")
    else ("Very Low", "green") in
  {| risk_score := round1 score;
     risk_level := level;
     color := colour;
     risk_confidence :=
       py_min 95 (py_max 70 (100 - Qabs (score - 50) * 0.5));
     common_pests := get_common_pests temperature humidity season crop_type;
     recommendations := [] |}.

(** The three additive parts of the risk score and the season factor, as
    [calculate_pest_risk] computes them. *)
Definition temperature_points (temperature : Q) : Q :=
  if Qle_bool 25 temperature && Qle_bool temperature 35 then 30
  else if (Qle_bool 20 temperature && Qltb temperature 25)
          || (Qltb 35 temperature && Qle_bool temperature 40)
  then 20
  else if (Qle_bool 15 temperature && Qltb temperature 20)
          || (Qltb 40 temperature && Qle_bool temperature 45)
  then 10
  else 0.

Definition humidity_points (humidity : Q) : Q :=
  if Qle_bool 80 humidity then 35
  else if Qle_bool 60 humidity then 25
  else if Qle_bool 40 humidity then 15
  else 5.

Definition rainfall_points (rainfall : Q) : Q :=
  if Qle_bool 50 rainfall && Qle_bool rainfall 200 then 25
  else if Qltb 200 rainfall && Qle_bool rainfall 400 then 15
  else if Qltb 400 rainfall then 10
  else 5.

Definition season_factor (season : string) : Q :=
  q_dict_get season_multiplier (PyStr.lower season) 1.0.

(* ------------------------------------------------------------------ *)
(** ** Base64 uploads *)

(** str.split(sep) for a one-character separator: every separator ends a
    piece, empty pieces are kept. *)
Fixpoint str_split_from (sep : ascii) (cur s : string) : list string :=
  match s with
  | EmptyString => [cur]
  | String c t =>
      if Ascii.eqb c sep then cur :: str_split_from sep EmptyString t
      else str_split_from sep (cur ++ String c EmptyString) t
  end.

Definition str_split (s : string) (sep : ascii) : list string :=
  str_split_from sep EmptyString s.

(** Does the character occur in the string? *)
Fixpoint str_has (c : ascii) (s : string) : bool :=
  match s with
  | EmptyString => false
  | String a t => Ascii.eqb a c || str_has c t
  end.

Section Base64.

Context `{sorter : Np.ArgSort}.

Variable preprocess_image :
  PestDetectionService -> list Byte.byte -> result Np.ndarray.

(** [base64.b64decode]: the decoded bytes, or binascii.Error. *)
Variable b64decode : string -> result (list Byte.byte).

(** [preprocess_base64_image]: a data-URL header is cut off at the first
    comma; every exception is re-raised as ValueError. *)
Definition preprocess_base64_image (self : PestDetectionService)
    (base64_image : string) : result Np.ndarray :=
  match (payload <-
           (if PyStr.startswith base64_image "data:image"
            then Np.getitem (str_split base64_image ","%char) 1
            else Ok base64_image) ;;
         image_bytes <- b64decode payload ;;
         preprocess_image self image_bytes) with
  | Ok image_array => Ok image_array
  | Raise _ => Raise "ValueError"
  end.

(** [predict_from_base64]: every exception becomes the error dict. *)
Definition predict_from_base64 (self : PestDetectionService)
    (base64_image : string) : service_reply :=
  match (image_array <- preprocess_base64_image self base64_image ;;
         predict_disease self image_array) with
  | Ok r => Reply r
  | Raise _ => ErrorReply
  end.

(** POST /detect-disease-base64; [request] is the JSON body (a parsed body
    holds no [PyOpaque]). *)
Definition detect_disease_from_base64 (request : py_dict)
    (service : PestDetectionService) : http_result prediction_result :=
  if negb (py_in "base64_image" request) then HTTPException 400
  else
    match py_get request "base64_image" PyNone with
    | PyStr base64_image =>
        if String.eqb base64_image EmptyString then HTTPException 400
        else
          match predict_from_base64 service base64_image with
          | ErrorReply => HTTPException 500
          | Reply r => HttpOk r
          end
    | _ => HTTPException 400
    end.

End Base64.

(* ------------------------------------------------------------------ *)
(** ** Labels of class ids outside the mapping *)

Definition is_digit (c : ascii) : bool :=
  let n := nat_of_ascii c in (48 <=? n)%nat && (n <=? 57)%nat.

Fixpoint all_digits (s : string) : bool :=
  match s with
  | EmptyString => true
  | String c t => is_digit c && all_digits t
  end.

(** key not in d *)
Definition key_absent {V : Type} (d : list (nat * V)) (key : nat) : bool :=
  forallb (fun kv => negb (Nat.eqb (fst kv) key)) d.


(* ------------------------------------------------------------------ *)
(** ** The list of supported diseases *)

(** One dict of the list that [get_supported_diseases] returns. *)
Record supported_disease : Type := {
  disease_id : nat;
  disease_name : string;
  is_healthy : bool
}.

(** [get_supported_diseases]: one dict per item of [disease_mapping], in
    the order of the mapping, with the name as the mapping holds it. *)
Definition get_supported_diseases (self : PestDetectionService)
  : list supported_disease :=
  map (fun kv =>
         {| disease_id := fst kv;
            disease_name := snd kv;
            is_healthy := PyStr.contains "healthy" (PyStr.lower (snd kv)) |})
      (disease_mapping self).

(** The answer of GET /supported-diseases (the constant keys "success" and
    "message" are left out). *)
Record supported_response : Type := {
  total_diseases : nat;
  diseases : list supported_disease
}.

Definition supported_diseases_endpoint (service : PestDetectionService)
  : supported_response :=
  let diseases := get_supported_diseases service in
  {| total_diseases := List.length diseases; diseases := diseases |}.
(* ------------------------------------------------------------------ *)
(** * Properties *)

(** ** Comparison and rounding on the rationals *)

Lemma Qltb_lt (x y : Q) : Qltb x y = true <-> x < y.
Proof.
  unfold Qltb. rewrite negb_true_iff. split; intro H.
  - apply Qnot_le_lt. intro Hle. apply Qle_bool_iff in Hle. congruence.
  - destruct (Qle_bool y x) eqn:E; [|reflexivity].
    apply Qle_bool_iff in E. exfalso. exact (Qlt_not_le _ _ H E).
Qed.

Lemma Qltb_ge (x y : Q) : Qltb x y = false <-> y <= x.
Proof.
  unfold Qltb. rewrite negb_false_iff. apply Qle_bool_iff.
Qed.

Lemma Qltb_proper (x x' y y' : Q) :
  x == x' -> y == y' -> Qltb x y = Qltb x' y'.
Proof.
  intros Hx Hy.
  destruct (Qltb x' y') eqn:E.
  - apply Qltb_lt. apply Qltb_lt in E. rewrite Hx, Hy. exact E.
  - apply Qltb_ge. apply Qltb_ge in E. rewrite Hx, Hy. exact E.
Qed.

Lemma Qfloor_proper (x y : Q) : x == y -> Qfloor x = Qfloor y.
Proof. intro H. rewrite H. reflexivity. Qed.

Lemma round_half_even_proper (x y : Q) :
  x == y -> round_half_even x = round_half_even y.
Proof.
  intro H. unfold round_half_even.
  rewrite (Qfloor_proper _ _ H).
  assert (E : Qcompare (x - inject_Z (Qfloor y)) (1 # 2)
              = Qcompare (y - inject_Z (Qfloor y)) (1 # 2)).
  { apply Qcompare_comp; [rewrite H|]; reflexivity. }
  rewrite E. reflexivity.
Qed.

Lemma round4_proper (x y : Q) : x == y -> round4 x = round4 y.
Proof.
  intro H. unfold round4. f_equal.
  apply round_half_even_proper. rewrite H. reflexivity.
Qed.


(** ** Rounding to four decimals *)

Lemma round_half_even_cases (q : Q) :
  (round_half_even q = Qfloor q /\ q - inject_Z (Qfloor q) <= 1 # 2)
  \/ (round_half_even q = (Qfloor q + 1)%Z
      /\ 1 # 2 <= q - inject_Z (Qfloor q)).
Proof.
  unfold round_half_even.
  destruct (Qcompare_spec (q - inject_Z (Qfloor q)) (1 # 2)) as [E|E|E].
  - destruct (Z.even (Qfloor q)); [left|right]; split; try reflexivity;
      rewrite E; apply Qle_refl.
  - left. split; [reflexivity|]. apply Qlt_le_weak. exact E.
  - right. split; [reflexivity|]. apply Qlt_le_weak. exact E.
Qed.

(** The nearest integer is within one half. *)
Lemma round_half_even_near (q : Q) :
  q - (1 # 2) <= inject_Z (round_half_even q)
  /\ inject_Z (round_half_even q) <= q + (1 # 2).
Proof.
  pose proof (Qfloor_le q) as Hlo.
  pose proof (Qlt_floor q) as Hhi.
  rewrite inject_Z_plus in Hhi. change (inject_Z 1) with 1 in Hhi.
  destruct (round_half_even_cases q) as [[E H]|[E H]]; rewrite E; clear E;
    try (rewrite inject_Z_plus; change (inject_Z 1) with 1);
    revert Hlo Hhi H; generalize (inject_Z (Qfloor q)); intros f Hlo Hhi H;
    split; lra.
Qed.

Lemma round_half_even_inject (z : Z) : round_half_even (inject_Z z) = z.
Proof.
  unfold round_half_even. rewrite Qfloor_Z.
  assert (E : Qcompare (inject_Z z - inject_Z z) (1 # 2) = Lt).
  { apply Qlt_alt. unfold Qminus. rewrite Qplus_opp_r. reflexivity. }
  rewrite E. reflexivity.
Qed.

Lemma round_half_even_mono (x y : Q) :
  x <= y -> (round_half_even x <= round_half_even y)%Z.
Proof.
  intro Hxy.
  pose proof (Qfloor_resp_le x y Hxy) as Hf.
  destruct (Z.eq_dec (Qfloor x) (Qfloor y)) as [Heq|Hne].
  - unfold round_half_even. rewrite Heq.
    generalize (Z.even (Qfloor y)). intro ev.
    assert (Hf1 : (Qfloor y < Qfloor y + 1)%Z) by lia.
    revert Hf1. generalize (Qfloor y + 1)%Z. intros f1 Hf1.
    generalize (inject_Z (Qfloor y)). intro g.
    destruct (Qcompare_spec (x - g) (1 # 2)) as [Ex|Ex|Ex];
      destruct (Qcompare_spec (y - g) (1 # 2)) as [Ey|Ey|Ey];
      try (destruct ev); try lia; exfalso; lra.
  - destruct (round_half_even_cases x) as [[Ex _]|[Ex _]];
      destruct (round_half_even_cases y) as [[Ey _]|[Ey _]];
      rewrite Ex, Ey; lia.
Qed.

Lemma round4_mono (x y : Q) : x <= y -> round4 x <= round4 y.
Proof.
  intro H. unfold round4, Qle. simpl.
  apply Z.mul_le_mono_nonneg_r; [lia|].
  apply round_half_even_mono. lra.
Qed.

(** The reported confidence is within 0.00005 of the exact one. *)
Lemma round4_near (q : Q) :
  q - (1 # 20000) <= round4 q /\ round4 q <= q + (1 # 20000).
Proof.
  destruct (round_half_even_near (q * 10000)) as [Hlo Hhi].
  assert (E : round4 q == inject_Z (round_half_even (q * 10000)) / 10000).
  { unfold round4. rewrite Qmake_Qdiv. reflexivity. }
  rewrite E. revert Hlo Hhi.
  generalize (inject_Z (round_half_even (q * 10000))). intros z Hlo Hhi.
  split.
  - apply Qle_shift_div_l; [reflexivity|]. lra.
  - apply Qle_shift_div_r; [reflexivity|]. lra.
Qed.

(** Rounding twice is rounding once. *)
Lemma round4_fixed (z : Z) : round4 (z # 10000) = (z # 10000).
Proof.
  unfold round4. f_equal.
  transitivity (round_half_even (inject_Z z)).
  - apply round_half_even_proper. rewrite Qmake_Qdiv. field.
  - apply round_half_even_inject.
Qed.

Lemma round4_idempotent (q : Q) : round4 (round4 q) = round4 q.
Proof.
  unfold round4 at 2 3. apply round4_fixed.
Qed.

(* ------------------------------------------------------------------ *)
(** ** float32 rounding *)

Section Float32Facts.

Import F32.

Lemma f32_pow2_pos (e : Z) : 0 < pow2 e.
Proof. apply Qpower_0_lt. reflexivity. Qed.

Lemma f32_pow2_add (a b : Z) : pow2 (a + b) == pow2 a * pow2 b.
Proof. apply Qpower_plus. discriminate. Qed.

Lemma f32_pow2_lt (a b : Z) : (a < b)%Z -> pow2 a < pow2 b.
Proof. intro H. apply Qpower_lt_compat_l; [exact H|reflexivity]. Qed.

Lemma f32_pow2_le (a b : Z) : (a <= b)%Z -> pow2 a <= pow2 b.
Proof. intro H. apply Qpower_le_compat_l; [exact H|discriminate]. Qed.

Lemma f32_pow2_lt_inv (a b : Z) : pow2 a < pow2 b -> (a < b)%Z.
Proof. intro H. apply (Qpower_lt_compat_l_inv 2); [exact H|reflexivity]. Qed.

Lemma f32_pow2_inject (k : Z) : (0 <= k)%Z -> pow2 k == inject_Z (2 ^ k).
Proof. intro H. symmetry. apply (Zpower_Qpower 2 k H). Qed.

(** x = (x / 2^e) * 2^e *)
Lemma f32_scale_back (x : Q) (e : Z) : x / pow2 e * pow2 e == x.
Proof.
  pose proof (f32_pow2_pos e) as H. field. intro E. rewrite E in H.
  discriminate H.
Qed.

Lemma f32_binade_spec (q : Q) :
  ~ q == 0 -> pow2 (binade q) <= Qabs q /\ Qabs q < pow2 (binade q + 1).
Proof.
  intro Hq. destruct q as [n d].
  assert (Hn : n <> 0%Z).
  { intro E. apply Hq. subst n. reflexivity. }
  unfold binade. cbn [Qnum Qden Qabs].
  set (a := Z.abs n). assert (Ha : (0 < a)%Z) by (unfold a; lia).
  set (ln := Z.log2 a). set (ld := Z.log2 (Zpos d)).
  destruct (Z.log2_spec a Ha) as [Ha1 Ha2]. fold ln in Ha1, Ha2.
  destruct (Z.log2_spec (Zpos d) eq_refl) as [Hd1 Hd2]. fold ld in Hd1, Hd2.
  assert (Hln : (0 <= ln)%Z) by apply Z.log2_nonneg.
  assert (Hld : (0 <= ld)%Z) by apply Z.log2_nonneg.
  assert (Ead : a # d == inject_Z a / inject_Z (Zpos d)) by apply Qmake_Qdiv.
  assert (Hdpos : 0 < inject_Z (Zpos d)) by reflexivity.
  (* lower, strict *)
  assert (Hlow : pow2 (ln - ld - 1) < a # d).
  { rewrite Ead. apply Qlt_shift_div_l; [exact Hdpos|].
    apply Qlt_le_trans with (pow2 (ln - ld - 1) * pow2 (ld + 1)).
    - apply Qmult_lt_l; [apply f32_pow2_pos|].
      rewrite (f32_pow2_inject (ld + 1)) by lia.
      rewrite <- Zlt_Qlt. replace (Z.succ ld) with (ld + 1)%Z in Hd2 by lia.
      exact Hd2.
    - rewrite <- f32_pow2_add. replace (ln - ld - 1 + (ld + 1))%Z with ln by lia.
      rewrite (f32_pow2_inject ln) by lia. rewrite <- Zle_Qle. exact Ha1. }
  assert (Hup : a # d < pow2 (ln - ld + 1)).
  { rewrite Ead. apply Qlt_shift_div_r; [exact Hdpos|].
    apply Qlt_le_trans with (pow2 (ln - ld + 1) * pow2 ld).
    - rewrite <- f32_pow2_add. replace (ln - ld + 1 + ld)%Z with (ln + 1)%Z by lia.
      rewrite (f32_pow2_inject (ln + 1)) by lia.
      rewrite <- Zlt_Qlt. replace (Z.succ ln) with (ln + 1)%Z in Ha2 by lia.
      exact Ha2.
    - apply Qmult_le_l; [apply f32_pow2_pos|].
      rewrite (f32_pow2_inject ld) by lia. rewrite <- Zle_Qle. exact Hd1. }
  destruct (Qle_bool (pow2 (ln - ld)) (a # d)) eqn:E.
  - apply Qle_bool_iff in E. split; [exact E|exact Hup].
  - split.
    + apply Qlt_le_weak. exact Hlow.
    + replace (ln - ld - 1 + 1)%Z with (ln - ld)%Z by lia.
      apply Qnot_le_lt. intro H. apply Qle_bool_iff in H.
      rewrite H in E. discriminate E.
Qed.

Lemma f32_binade_unique (q : Q) (k : Z) :
  pow2 k <= Qabs q -> Qabs q < pow2 (k + 1) -> binade q = k.
Proof.
  intros H1 H2.
  assert (Hq : ~ q == 0).
  { intro E. rewrite E in H1. pose proof (f32_pow2_pos k) as Hp.
    change (Qabs 0) with 0 in H1. lra. }
  destruct (f32_binade_spec q Hq) as [B1 B2].
  assert (Ha : (k < binade q + 1)%Z).
  { apply f32_pow2_lt_inv. eapply Qle_lt_trans; eassumption. }
  assert (Hb : (binade q < k + 1)%Z).
  { apply f32_pow2_lt_inv. eapply Qle_lt_trans; eassumption. }
  lia.
Qed.

Lemma f32_binade_proper (x y : Q) : x == y -> ~ x == 0 -> binade x = binade y.
Proof.
  intros E Hx.
  destruct (f32_binade_spec x Hx) as [B1 B2].
  symmetry. apply f32_binade_unique; rewrite <- E; assumption.
Qed.

Lemma f32_round_proper (x y : Q) : x == y -> round x = round y.
Proof.
  intro E. unfold round.
  destruct (Qeq_bool x 0) eqn:Ex.
  - apply Qeq_bool_iff in Ex.
    assert (Ey : Qeq_bool y 0 = true).
    { apply Qeq_bool_iff. rewrite <- E. exact Ex. }
    rewrite Ey. reflexivity.
  - assert (Hx : ~ x == 0).
    { intro H. apply Qeq_bool_iff in H. rewrite H in Ex. discriminate Ex. }
    assert (Ey : Qeq_bool y 0 = false).
    { destruct (Qeq_bool y 0) eqn:Ey; [|reflexivity].
      apply Qeq_bool_iff in Ey. exfalso. apply Hx. rewrite E. exact Ey. }
    rewrite Ey. unfold ulp_exp. rewrite (f32_binade_proper x y E Hx).
    rewrite (round_half_even_proper
               (x / pow2 (Z.max (binade y - 23) (-149)))
               (y / pow2 (Z.max (binade y - 23) (-149)))).
    + reflexivity.
    + rewrite E. reflexivity.
Qed.


Lemma f32_pow2_sub (a e : Z) : pow2 a / pow2 e == pow2 (a - e).
Proof.
  pose proof (f32_pow2_pos e) as H.
  replace a with (a - e + e)%Z at 1 by lia. rewrite f32_pow2_add.
  field. intro E. rewrite E in H. discriminate H.
Qed.

Lemma f32_round_nonzero (q : Q) :
  ~ q == 0 ->
  round q = inject_Z (round_half_even (q / pow2 (ulp_exp q)))
            * pow2 (ulp_exp q).
Proof.
  intro H. unfold round.
  destruct (Qeq_bool q 0) eqn:E; [|reflexivity].
  apply Qeq_bool_iff in E. contradiction.
Qed.

Lemma f32_round_zero (q : Q) : q == 0 -> round q = 0.
Proof.
  intro H. unfold round. apply Qeq_bool_iff in H. rewrite H. reflexivity.
Qed.

(** Rounding stays below (above) a point of the grid it rounds on. *)
Lemma f32_round_upper (q : Q) (N : Z) :
  ~ q == 0 -> q <= inject_Z N * pow2 (ulp_exp q) ->
  round q <= inject_Z N * pow2 (ulp_exp q).
Proof.
  intros Hq H. rewrite (f32_round_nonzero q Hq).
  pose proof (f32_pow2_pos (ulp_exp q)) as Hp.
  apply Qmult_le_compat_r; [|apply Qlt_le_weak; exact Hp].
  rewrite <- Zle_Qle.
  assert (Hs : q / pow2 (ulp_exp q) <= inject_Z N)
    by (apply Qle_shift_div_r; [exact Hp|exact H]).
  apply round_half_even_mono in Hs.
  rewrite round_half_even_inject in Hs. exact Hs.
Qed.

Lemma f32_round_lower (q : Q) (N : Z) :
  ~ q == 0 -> inject_Z N * pow2 (ulp_exp q) <= q ->
  inject_Z N * pow2 (ulp_exp q) <= round q.
Proof.
  intros Hq H. rewrite (f32_round_nonzero q Hq).
  pose proof (f32_pow2_pos (ulp_exp q)) as Hp.
  apply Qmult_le_compat_r; [|apply Qlt_le_weak; exact Hp].
  rewrite <- Zle_Qle.
  assert (Hs : inject_Z N <= q / pow2 (ulp_exp q))
    by (apply Qle_shift_div_l; [exact Hp|exact H]).
  apply round_half_even_mono in Hs.
  rewrite round_half_even_inject in Hs. exact Hs.
Qed.

Lemma f32_round_nonneg (q : Q) : 0 <= q -> 0 <= round q.
Proof.
  intro H. destruct (Qeq_dec q 0) as [E|E].
  - rewrite (f32_round_zero q E). apply Qle_refl.
  - pose proof (f32_round_lower q 0 E) as L.
    rewrite Qmult_0_l in L. apply L. exact H.
Qed.

Lemma f32_round_nonpos (q : Q) : q <= 0 -> round q <= 0.
Proof.
  intro H. destruct (Qeq_dec q 0) as [E|E].
  - rewrite (f32_round_zero q E). apply Qle_refl.
  - pose proof (f32_round_upper q 0 E) as L.
    rewrite Qmult_0_l in L. apply L. exact H.
Qed.

Lemma f32_binade_mono (x y : Q) : 0 < x -> x <= y -> (binade x <= binade y)%Z.
Proof.
  intros Hx Hxy.
  assert (Hy : 0 < y) by (eapply Qlt_le_trans; eassumption).
  assert (Nx : ~ x == 0) by (intro E; rewrite E in Hx; discriminate Hx).
  assert (Ny : ~ y == 0) by (intro E; rewrite E in Hy; discriminate Hy).
  destruct (f32_binade_spec x Nx) as [X1 _].
  destruct (f32_binade_spec y Ny) as [_ Y2].
  rewrite Qabs_pos in X1 by (apply Qlt_le_weak; exact Hx).
  rewrite Qabs_pos in Y2 by (apply Qlt_le_weak; exact Hy).
  assert (H : (binade x < binade y + 1)%Z).
  { apply f32_pow2_lt_inv. eapply Qle_lt_trans; [exact X1|].
    eapply Qle_lt_trans; eassumption. }
  lia.
Qed.

(** Rounding is monotone on the positive numbers. *)
Lemma f32_round_mono_pos (x y : Q) : 0 < x -> x <= y -> round x <= round y.
Proof.
  intros Hx Hxy.
  assert (Hy : 0 < y) by (eapply Qlt_le_trans; eassumption).
  assert (Nx : ~ x == 0) by (intro E; rewrite E in Hx; discriminate Hx).
  assert (Ny : ~ y == 0) by (intro E; rewrite E in Hy; discriminate Hy).
  pose proof (f32_binade_mono x y Hx Hxy) as Hb.
  destruct (Z.eq_dec (ulp_exp x) (ulp_exp y)) as [He|He].
  - rewrite (f32_round_nonzero x Nx), (f32_round_nonzero y Ny), He.
    pose proof (f32_pow2_pos (ulp_exp y)) as Hp.
    apply Qmult_le_compat_r; [|apply Qlt_le_weak; exact Hp].
    rewrite <- Zle_Qle. apply round_half_even_mono.
    apply Qle_shift_div_l; [exact Hp|].
    rewrite f32_scale_back. exact Hxy.
  - assert (Hlt : (binade x < binade y)%Z /\ ulp_exp y = (binade y - 23)%Z
                  /\ (ulp_exp x <= binade y - 24)%Z).
    { unfold ulp_exp in *. lia. }
    destruct Hlt as [Hbb [Ey Ex]].
    destruct (f32_binade_spec x Nx) as [_ X2].
    destruct (f32_binade_spec y Ny) as [Y1 _].
    rewrite Qabs_pos in X2 by (apply Qlt_le_weak; exact Hx).
    rewrite Qabs_pos in Y1 by (apply Qlt_le_weak; exact Hy).
    apply Qle_trans with (pow2 (binade y)).
    + assert (EB : pow2 (binade y)
                   == inject_Z (2 ^ (binade y - ulp_exp x)) * pow2 (ulp_exp x)).
      { rewrite <- f32_pow2_inject by lia. rewrite <- f32_pow2_add.
        replace (binade y - ulp_exp x + ulp_exp x)%Z with (binade y) by lia.
        reflexivity. }
      rewrite EB. apply f32_round_upper; [exact Nx|]. rewrite <- EB.
      apply Qlt_le_weak. eapply Qlt_le_trans; [exact X2|].
      apply f32_pow2_le. lia.
    + assert (EB : pow2 (binade y)
                   == inject_Z (2 ^ 23) * pow2 (ulp_exp y)).
      { rewrite <- (f32_pow2_inject 23) by lia. rewrite <- f32_pow2_add.
        rewrite Ey. replace (23 + (binade y - 23))%Z with (binade y) by lia.
        reflexivity. }
      rewrite EB. apply f32_round_lower; [exact Ny|]. rewrite <- EB. exact Y1.
Qed.

(** A float32 value bounds the rounding of what it bounds. *)
Lemma f32_round_le_exact (T x : Q) :
  0 <= T -> round T == T -> x <= T -> round x <= T.
Proof.
  intros HT ET Hx.
  destruct (Qlt_le_dec 0 x) as [Hpos|Hneg].
  - rewrite <- ET. apply f32_round_mono_pos; assumption.
  - eapply Qle_trans; [apply f32_round_nonpos; exact Hneg|exact HT].
Qed.

Lemma f32_round_ge_exact (T x : Q) :
  0 < T -> round T == T -> T <= x -> T <= round x.
Proof.
  intros HT ET Hx. rewrite <- ET. apply f32_round_mono_pos; assumption.
Qed.

(** A multiple of the spacing is a float32 value. *)
Lemma f32_round_exact_int (x : Q) (N : Z) :
  ~ x == 0 -> x == inject_Z N * pow2 (ulp_exp x) -> round x == x.
Proof.
  intros Hx E. rewrite (f32_round_nonzero x Hx).
  assert (Es : x / pow2 (ulp_exp x) == inject_Z N).
  { pose proof (f32_pow2_pos (ulp_exp x)) as Hp.
    rewrite E at 1. field. intro Z0. rewrite Z0 in Hp. discriminate Hp. }
  rewrite (round_half_even_proper _ _ Es), round_half_even_inject.
  symmetry. exact E.
Qed.

(** Twice a float32 value is a float32 value (overflow aside). *)
Lemma f32_round_double (c : Q) : 0 < c -> round c == c -> round (2 * c) == 2 * c.
Proof.
  intros Hc Ec.
  assert (Nc : ~ c == 0) by (intro E; rewrite E in Hc; discriminate Hc).
  assert (H2 : 0 < 2 * c) by lra.
  assert (N2 : ~ 2 * c == 0) by (intro E; rewrite E in H2; discriminate H2).
  destruct (f32_binade_spec c Nc) as [B1 B2].
  rewrite Qabs_pos in B1, B2 by (apply Qlt_le_weak; exact Hc).
  assert (Eb : binade (2 * c) = (binade c + 1)%Z).
  { apply f32_binade_unique; rewrite Qabs_pos by (apply Qlt_le_weak; exact H2).
    - rewrite Z.add_comm, f32_pow2_add. change (pow2 1) with 2. lra.
    - replace (binade c + 1 + 1)%Z with (1 + (binade c + 1))%Z by lia.
      rewrite f32_pow2_add. change (pow2 1) with 2. lra. }
  rewrite (f32_round_nonzero c Nc) in Ec.
  set (n := round_half_even (c / pow2 (ulp_exp c))) in Ec.
  destruct (Z.eq_dec (ulp_exp (2 * c)) (ulp_exp c)) as [He|He].
  - apply (f32_round_exact_int _ (2 * n) N2).
    rewrite He, inject_Z_mult. change (inject_Z 2) with 2.
    rewrite <- Ec at 1. ring.
  - assert (He1 : ulp_exp (2 * c) = (1 + ulp_exp c)%Z).
    { unfold ulp_exp in *. rewrite Eb in *. lia. }
    apply (f32_round_exact_int _ n N2).
    rewrite He1, f32_pow2_add. change (pow2 1) with 2.
    rewrite <- Ec at 1. ring.
Qed.

(** The float32 values of [1/2, 1) are the multiples of 2^-24. *)
Lemma f32_round_grid_half (x : Q) :
  round x == x -> 1 # 2 <= x -> x < 1 ->
  exists n : Z, x == n # 16777216.
Proof.
  intros Ex H1 H2.
  assert (Hx : 0 < x) by lra.
  assert (Nx : ~ x == 0) by (intro E; rewrite E in Hx; discriminate Hx).
  assert (Eb : binade x = (-1)%Z).
  { apply f32_binade_unique; rewrite Qabs_pos by (apply Qlt_le_weak; exact Hx).
    - exact H1.
    - exact H2. }
  rewrite (f32_round_nonzero x Nx) in Ex.
  unfold ulp_exp in Ex. rewrite Eb in Ex.
  change (Z.max (-1 - 23) (-149)) with (-24)%Z in Ex.
  exists (round_half_even (x / pow2 (-24))).
  rewrite <- Ex at 1. rewrite Qmake_Qdiv.
  change (pow2 (-24)) with (/ 16777216). 
  unfold Qdiv. reflexivity.
Qed.

End Float32Facts.
(** ** The stable sorter is a sorter *)

Lemma insert_perm (x : nat * Q) (l : list (nat * Q)) :
  Permutation (Np.insert x l) (x :: l).
Proof.
  induction l as [|y t IH]; simpl.
  - apply Permutation_refl.
  - destruct (Qle_bool (snd x) (snd y)).
    + apply Permutation_refl.
    + apply perm_trans with (y :: x :: t).
      * apply perm_skip. exact IH.
      * apply perm_swap.
Qed.

Lemma isort_perm (l : list (nat * Q)) : Permutation (Np.isort l) l.
Proof.
  induction l as [|x t IH]; simpl.
  - apply perm_nil.
  - apply perm_trans with (x :: Np.isort t).
    + apply insert_perm.
    + apply perm_skip. exact IH.
Qed.

Lemma insert_sorted (x : nat * Q) (l : list (nat * Q)) :
  StronglySorted Np.key_le l -> StronglySorted Np.key_le (Np.insert x l).
Proof.
  induction 1 as [|y t Hs IH Hall]; simpl.
  - repeat constructor.
  - destruct (Qle_bool (snd x) (snd y)) eqn:E.
    + apply Qle_bool_iff in E.
      constructor; [constructor; assumption|].
      constructor; [exact E|].
      eapply Forall_impl; [|exact Hall].
      intros z Hz. unfold Np.key_le in *. eapply Qle_trans; eassumption.
    + constructor; [exact IH|].
      assert (Hyx : snd y <= snd x).
      { destruct (Qlt_le_dec (snd y) (snd x)) as [Hlt|Hle].
        - apply Qlt_le_weak. exact Hlt.
        - apply Qle_bool_iff in Hle. congruence. }
      eapply Permutation_Forall.
      * apply Permutation_sym. apply insert_perm.
      * constructor; assumption.
Qed.

Lemma isort_sorted (l : list (nat * Q)) : StronglySorted Np.key_le (Np.isort l).
Proof.
  induction l as [|x t IH]; simpl.
  - constructor.
  - apply insert_sorted. exact IH.
Qed.

Lemma enumerate_from_fst (a : Np.ndarray) (s : nat) :
  map fst (combine (seq s (List.length a)) a) = seq s (List.length a).
Proof.
  revert s. induction a as [|x t IH]; intro s; simpl.
  - reflexivity.
  - f_equal. apply IH.
Qed.

Lemma enumerate_from_In (a : Np.ndarray) (s i : nat) (v : Q) :
  In (i, v) (combine (seq s (List.length a)) a) ->
  (s <= i)%nat /\ nth_error a (i - s) = Some v.
Proof.
  revert s. induction a as [|x t IH]; intro s; simpl.
  - intros [].
  - intros [H|H].
    + inversion H; subst. rewrite Nat.sub_diag. split; [lia|reflexivity].
    + apply IH in H. destruct H as [Hle Hnth]. split; [lia|].
      replace (i - s)%nat with (S (i - S s)) by lia. exact Hnth.
Qed.

Lemma enumerate_In (a : Np.ndarray) (i : nat) (v : Q) :
  In (i, v) (Np.enumerate a) -> nth_error a i = Some v.
Proof.
  intro H. apply enumerate_from_In in H. destruct H as [_ H].
  rewrite Nat.sub_0_r in H. exact H.
Qed.

Lemma argsort_stable_perm (a : Np.ndarray) :
  Permutation (Np.argsort_stable a) (seq 0 (List.length a)).
Proof.
  unfold Np.argsort_stable.
  rewrite <- (enumerate_from_fst a 0).
  apply Permutation_map. apply isort_perm.
Qed.

Lemma take_pairs (a : Np.ndarray) (l : list (nat * Q)) :
  (forall i v, In (i, v) l -> nth_error a i = Some v) ->
  Np.take a (map fst l) = map snd l.
Proof.
  induction l as [|[i v] t IH]; intro H; simpl.
  - reflexivity.
  - f_equal.
    + apply nth_error_nth. apply H. left. reflexivity.
    + apply IH. intros j w Hin. apply H. right. exact Hin.
Qed.

Lemma argsort_stable_sorted (a : Np.ndarray) :
  StronglySorted Qle (Np.take a (Np.argsort_stable a)).
Proof.
  unfold Np.argsort_stable. rewrite take_pairs.
  - generalize (isort_sorted (Np.enumerate a)).
    generalize (Np.isort (Np.enumerate a)) as l.
    induction 1 as [|y t Hs IH Hall]; simpl.
    + constructor.
    + constructor; [exact IH|].
      rewrite Forall_map. exact Hall.
  - intros i v Hin. apply enumerate_In.
    apply (Permutation_in _ (isort_perm (Np.enumerate a))). exact Hin.
Qed.

#[export] Instance stable_sorter : Np.ArgSort := {
  Np.argsort := Np.argsort_stable;
  Np.argsort_perm := argsort_stable_perm;
  Np.argsort_sorted := argsort_stable_sorted
}.

(** ** The model on small inputs *)

Example replace_ex :
  PyStr.replace "Potato___Early_blight" "___" " - " = "Potato - Early_blight".
Proof. reflexivity. Qed.

Example split_ex :
  PyStr.split "Cherry  - Powdery mildew" = ["Cherry"; "-"; "Powdery"; "mildew"].
Proof. reflexivity. Qed.

Example of_nat_ex : PyStr.of_nat 25 = "25" /\ PyStr.of_nat 0 = "0".
Proof. split; reflexivity. Qed.

Example round4_ex1 : round4 (3 # 64) = 469 # 10000.
Proof. reflexivity. Qed.

Example round4_ex2 : round4 (1 # 32) = 312 # 10000.
Proof. reflexivity. Qed.

Example round4_ex3 : round4 0.75 = 7500 # 10000.
Proof. reflexivity. Qed.

Example argsort_ex :
  Np.argsort_stable [0.2; 0.5; 0.3] = [0%nat; 2%nat; 1%nat].
Proof. reflexivity. Qed.

Example top5_ex :
  top_indices [0.1; 0.2; 0.3; 0.04; 0.05; 0.25; 0.06]
  = [2%nat; 5%nat; 1%nat; 0%nat; 6%nat].
Proof. reflexivity. Qed.

Example clean_ex1 :
  _clean_disease_name "Cherry_Powdery_Mildew" = "Cherry Powdery Mildew".
Proof. reflexivity. Qed.

Example clean_ex2 :
  _clean_disease_name "Cherry_(including_sour)___Powdery_mildew"
  = "Cherry - Powdery Mildew".
Proof. reflexivity. Qed.

Example clean_ex3 :
  _clean_disease_name "Corn_(maize)___Northern_Leaf_Blight"
  = "Corn (maize) - Northern Leaf Blight".
Proof. reflexivity. Qed.

Example clean_ex4 : _clean_disease_name "Potato___healthy" = "Potato - Healthy".
Proof. reflexivity. Qed.

Example clean_ex5 :
  _clean_disease_name "Tomato___Spider_mites Two-spotted_spider_mite"
  = "Tomato - Spider Mites Two-spotted Spider Mite".
Proof. reflexivity. Qed.

(** ** Ranking facts that hold for every sorter *)

Section RankFacts.

Context `{sorter : Np.ArgSort}.

Lemma getitem_Ok {A : Type} (a : list A) (i : nat) (x : A) :
  Np.getitem a i = Ok x <-> nth_error a i = Some x.
Proof.
  unfold Np.getitem. destruct (nth_error a i); split; intro H;
    inversion H; reflexivity.
Qed.

Lemma getitem_lt {A : Type} (a : list A) (i : nat) :
  (i < List.length a)%nat -> exists x, Np.getitem a i = Ok x.
Proof.
  intro H. unfold Np.getitem.
  destruct (nth_error a i) eqn:E; [eauto|].
  apply nth_error_None in E. lia.
Qed.

Lemma getitem_raise {A : Type} (a : list A) (i : nat) (cls : string) :
  Np.getitem a i = Raise cls -> cls = "IndexError".
Proof.
  unfold Np.getitem. destruct (nth_error a i); intro H; inversion H.
  reflexivity.
Qed.

Lemma argsort_length (a : Np.ndarray) :
  List.length (Np.argsort a) = List.length a.
Proof.
  rewrite (Permutation_length (Np.argsort_perm a)). apply length_seq.
Qed.

Lemma argsort_In (a : Np.ndarray) (i : nat) :
  In i (Np.argsort a) <-> (i < List.length a)%nat.
Proof.
  split; intro H.
  - apply (Permutation_in _ (Np.argsort_perm a)) in H.
    apply in_seq in H. lia.
  - apply (Permutation_in _ (Permutation_sym (Np.argsort_perm a))).
    apply in_seq. lia.
Qed.

Lemma sorted_indices_length (p : Np.ndarray) :
  List.length (sorted_indices p) = List.length p.
Proof.
  unfold sorted_indices, Np.reversed. rewrite length_rev.
  apply argsort_length.
Qed.

Lemma sorted_indices_In (p : Np.ndarray) (i : nat) :
  In i (sorted_indices p) <-> (i < List.length p)%nat.
Proof.
  unfold sorted_indices, Np.reversed. rewrite <- in_rev. apply argsort_In.
Qed.

(** [top_indices] is the five-entry prefix of [sorted_indices]. *)
Lemma top_indices_firstn (p : Np.ndarray) :
  top_indices p = firstn 5 (sorted_indices p).
Proof.
  unfold top_indices, sorted_indices, Np.reversed, Np.last_k.
  rewrite firstn_rev. reflexivity.
Qed.

Lemma top_indices_length (p : Np.ndarray) :
  List.length (top_indices p) = Nat.min 5 (List.length p).
Proof.
  rewrite top_indices_firstn, length_firstn, sorted_indices_length.
  reflexivity.
Qed.

Lemma top_indices_nth (p : Np.ndarray) (k : nat) :
  (k < 5)%nat -> nth_error (top_indices p) k = nth_error (sorted_indices p) k.
Proof.
  intro H. rewrite top_indices_firstn, nth_error_firstn.
  destruct (Nat.ltb_spec k 5); [reflexivity|lia].
Qed.

Lemma rank_id_lt (p : Np.ndarray) (k i : nat) :
  rank_id p k = Ok i -> (i < List.length p)%nat.
Proof.
  unfold rank_id. intro H. apply getitem_Ok in H.
  apply sorted_indices_In. eapply nth_error_In. exact H.
Qed.

Lemma rank_id_defined (p : Np.ndarray) (k : nat) :
  (k < List.length p)%nat -> exists i, rank_id p k = Ok i.
Proof.
  intro H. unfold rank_id. apply getitem_lt.
  rewrite sorted_indices_length. exact H.
Qed.

Lemma rank_confidence_defined (p : Np.ndarray) (k : nat) :
  (k < List.length p)%nat ->
  exists i c, rank_id p k = Ok i /\ Np.getitem p i = Ok c
              /\ rank_confidence p k = Ok c.
Proof.
  intro H. destruct (rank_id_defined p k H) as [i Hi].
  destruct (getitem_lt p i (rank_id_lt _ _ _ Hi)) as [c Hc].
  exists i, c. unfold rank_confidence. rewrite Hi. simpl. auto.
Qed.

Lemma rank_confidence_inv (p : Np.ndarray) (k : nat) (c : Q) :
  rank_confidence p k = Ok c ->
  exists i, rank_id p k = Ok i /\ Np.getitem p i = Ok c
            /\ (k < List.length p)%nat.
Proof.
  unfold rank_confidence. destruct (rank_id p k) as [i|cls] eqn:E; simpl;
    intro H; [|discriminate].
  exists i. repeat split; auto.
  unfold rank_id in E. apply getitem_Ok in E.
  rewrite <- (sorted_indices_length p).
  apply nth_error_Some. congruence.
Qed.

(** Rank k+1 of the vector is position N-1-k of the ascending order. *)
Lemma rank_id_argsort (p : Np.ndarray) (k i : nat) :
  rank_id p k = Ok i ->
  nth_error (Np.argsort p) (List.length p - S k) = Some i
  /\ (k < List.length p)%nat.
Proof.
  intro H. unfold rank_id in H. apply getitem_Ok in H.
  assert (Hk : (k < List.length p)%nat).
  { rewrite <- (sorted_indices_length p). apply nth_error_Some. congruence. }
  split; [|exact Hk].
  unfold sorted_indices, Np.reversed in H.
  rewrite nth_error_rev in H. rewrite argsort_length in H.
  destruct (Nat.ltb_spec k (List.length p)); [exact H|lia].
Qed.

Lemma take_nth_error (p : Np.ndarray) (l : list nat) (k i : nat) (c : Q) :
  nth_error l k = Some i -> nth_error p i = Some c ->
  nth_error (Np.take p l) k = Some c.
Proof.
  intros Hi Hc. unfold Np.take. rewrite nth_error_map, Hi. simpl.
  f_equal. apply nth_error_nth. exact Hc.
Qed.

Lemma StronglySorted_nth_le (l : list Q) (i j : nat) (x y : Q) :
  StronglySorted Qle l -> (i <= j)%nat ->
  nth_error l i = Some x -> nth_error l j = Some y -> x <= y.
Proof.
  intro Hs. revert i j. induction Hs as [|h t Hs IH Hall]; intros i j Hij Hx Hy.
  - destruct i; discriminate.
  - destruct i as [|i]; destruct j as [|j]; simpl in *.
    + inversion Hx; inversion Hy; subst. apply Qle_refl.
    + inversion Hx; subst.
      rewrite Forall_forall in Hall. apply Hall.
      eapply nth_error_In. exact Hy.
    + lia.
    + apply (IH i j); [lia|assumption|assumption].
Qed.

(** Confidences do not increase along the ranking. *)
Lemma rank_confidence_mono (p : Np.ndarray) (k j : nat) (x y : Q) :
  (k <= j)%nat ->
  rank_confidence p k = Ok x -> rank_confidence p j = Ok y -> y <= x.
Proof.
  intros Hkj Hx Hy.
  apply rank_confidence_inv in Hx. destruct Hx as [ix [Hix [Hx Hk]]].
  apply rank_confidence_inv in Hy. destruct Hy as [iy [Hiy [Hy Hj]]].
  apply rank_id_argsort in Hix. destruct Hix as [Hix _].
  apply rank_id_argsort in Hiy. destruct Hiy as [Hiy _].
  apply getitem_Ok in Hx. apply getitem_Ok in Hy.
  apply (StronglySorted_nth_le (Np.take p (Np.argsort p))
           (List.length p - S j) (List.length p - S k)).
  - apply Np.argsort_sorted.
  - lia.
  - eapply take_nth_error; eassumption.
  - eapply take_nth_error; eassumption.
Qed.

(** Every entry of the vector is bounded by the rank-1 confidence. *)
Lemma rank1_upper_bound (p : Np.ndarray) (c1 v : Q) (i : nat) :
  rank_confidence p 0 = Ok c1 -> nth_error p i = Some v -> v <= c1.
Proof.
  intros H1 Hv.
  assert (Hi : (i < List.length p)%nat).
  { apply nth_error_Some. congruence. }
  assert (Hin : In i (sorted_indices p)) by (apply sorted_indices_In; exact Hi).
  apply In_nth_error in Hin. destruct Hin as [k Hk].
  apply (rank_confidence_mono p 0 k); [lia|exact H1|].
  unfold rank_confidence, rank_id.
  apply getitem_Ok in Hk. rewrite Hk. simpl.
  apply getitem_Ok. exact Hv.
Qed.

Lemma fold_Qmaxb_ge (l : list Q) (x : Q) :
  x <= fold_left Np.Qmaxb l x
  /\ Forall (fun v => v <= fold_left Np.Qmaxb l x) l.
Proof.
  revert x. induction l as [|h t IH]; intro x; simpl.
  - split; [apply Qle_refl|constructor].
  - destruct (IH (Np.Qmaxb x h)) as [H1 H2].
    assert (Hx : x <= Np.Qmaxb x h /\ h <= Np.Qmaxb x h).
    { unfold Np.Qmaxb. destruct (Qle_bool x h) eqn:E.
      - apply Qle_bool_iff in E. split; [exact E|apply Qle_refl].
      - split; [apply Qle_refl|].
        destruct (Qlt_le_dec h x) as [Hlt|Hle].
        + apply Qlt_le_weak. exact Hlt.
        + apply Qle_bool_iff in Hle. congruence. }
    destruct Hx as [Hx Hh]. split.
    + eapply Qle_trans; eassumption.
    + constructor; [eapply Qle_trans; eassumption|exact H2].
Qed.

Lemma fold_Qmaxb_In (l : list Q) (x : Q) :
  In (fold_left Np.Qmaxb l x) (x :: l).
Proof.
  revert x. induction l as [|h t IH]; intro x; simpl.
  - left. reflexivity.
  - destruct (IH (Np.Qmaxb x h)) as [H|H].
    + unfold Np.Qmaxb in H at 1. destruct (Qle_bool x h).
      * right. left. exact H.
      * left. exact H.
    + right. right. exact H.
Qed.

(** np.max is the rank-1 confidence. *)
Lemma max_rank1 (p : Np.ndarray) (c1 : Q) :
  rank_confidence p 0 = Ok c1 ->
  exists m, Np.max p = Ok m /\ m == c1.
Proof.
  intro H1. destruct p as [|x t].
  - apply rank_confidence_inv in H1. destruct H1 as [i [_ [_ Hlt]]].
    simpl in Hlt. lia.
  - exists (fold_left Np.Qmaxb t x). split; [reflexivity|].
    apply Qle_antisym.
    + destruct (fold_Qmaxb_In t x) as [Hin|Hin].
      * rewrite <- Hin. apply (rank1_upper_bound (x :: t) c1 x 0%nat H1).
        reflexivity.
      * assert (Hin' : In (fold_left Np.Qmaxb t x) (x :: t)) by (right; exact Hin).
        apply In_nth_error in Hin'. destruct Hin' as [i Hi].
        eapply rank1_upper_bound; eassumption.
    + apply rank_confidence_inv in H1. destruct H1 as [i [Hid [Hc _]]].
      apply getitem_Ok in Hc.
      destruct (fold_Qmaxb_ge t x) as [Hx Hall].
      destruct i as [|i]; simpl in Hc.
      * inversion Hc; subst. exact Hx.
      * rewrite Forall_forall in Hall. apply Hall.
        eapply nth_error_In. exact Hc.
Qed.

(** np.partition(p, -2)[-2] is the rank-2 confidence. *)
Lemma partition_rank2 (p : Np.ndarray) (c2 : Q) :
  rank_confidence p 1 = Ok c2 -> Np.partition_neg p 2 = Ok c2.
Proof.
  intro H2. apply rank_confidence_inv in H2.
  destruct H2 as [i [Hid [Hc Hlt]]].
  apply rank_id_argsort in Hid. destruct Hid as [Hid _].
  apply getitem_Ok in Hc.
  unfold Np.partition_neg.
  destruct (Nat.leb_spec 2 (List.length p)) as [Hle|Hgt]; [|lia].
  simpl. apply getitem_Ok. eapply take_nth_error; eassumption.
Qed.

Lemma partition_neg_raise (p : Np.ndarray) (k : nat) (cls : string) :
  Np.partition_neg p k = Raise cls -> cls = "IndexError" \/ cls = "ValueError".
Proof.
  unfold Np.partition_neg.
  destruct ((1 <=? k)%nat && (k <=? List.length p)%nat)%bool; intro H.
  - left. eapply getitem_raise. exact H.
  - right. inversion H. reflexivity.
Qed.

End RankFacts.

(** ** The policy, branch by branch *)

Section Policy.

Context `{sorter : Np.ArgSort}.

Lemma alternatives_of_prefix (self : PestDetectionService) (p : Np.ndarray)
    (l : list nat) :
  _get_alternative_predictions self (firstn 5 l) (Np.take p (firstn 5 l))
  = map (fun i => {| alt_prediction := name_of self i;
                     alt_confidence := round4 (nth i p 0) |})
        (firstn 3 (tl l)).
Proof.
  unfold _get_alternative_predictions.
  destruct l as [|a [|b [|c [|d [|e l]]]]]; reflexivity.
Qed.

(** The alternatives of a result are ranks 2 to 4 of the vector. *)
Lemma alternatives_ranks (self : PestDetectionService) (p : Np.ndarray) :
  _get_alternative_predictions self (top_indices p)
    (Np.take p (top_indices p))
  = low_alternatives self p.
Proof.
  rewrite top_indices_firstn. apply alternatives_of_prefix.
Qed.

Lemma top_rank1 (p : Np.ndarray) (i1 : nat) (c1 : Q) :
  rank_id p 0 = Ok i1 -> Np.getitem p i1 = Ok c1 ->
  Np.getitem (top_indices p) 0 = Ok i1
  /\ Np.getitem (Np.take p (top_indices p)) 0 = Ok c1.
Proof.
  intros Hi Hc. unfold rank_id in Hi.
  apply getitem_Ok in Hi. apply getitem_Ok in Hc.
  assert (Ht : nth_error (top_indices p) 0 = Some i1).
  { rewrite top_indices_nth by lia. exact Hi. }
  split; apply getitem_Ok; [exact Ht|].
  eapply take_nth_error; eassumption.
Qed.

(** [_apply_bias_mitigation] once the rank-1 entry is known. *)
Lemma apply_rank1 (self : PestDetectionService) (p : Np.ndarray)
    (i1 : nat) (c1 : Q) :
  rank_id p 0 = Ok i1 -> Np.getitem p i1 = Ok c1 ->
  _apply_bias_mitigation self p =
  if Qltb c1 0.6 then
    Ok {| prediction := "Uncertain - Low Confidence Detection";
          confidence := round4 c1;
          status := "low_confidence";
          alternative_predictions := Some (low_alternatives self p);
          original_prediction := None;
          note := None |}
  else
    bias_check <- _detect_bias_patterns self p (name_of self i1) c1 ;;
    match bias_check with
    | Biased adjusted_prediction adjusted_confidence reason =>
        Ok {| prediction := adjusted_prediction;
              confidence := round4 adjusted_confidence;
              status := "bias_adjusted";
              alternative_predictions := None;
              original_prediction := Some (name_of self i1);
              note := Some reason |}
    | NotBiased =>
        if Qltb 0.95 c1 then
          Ok {| prediction := name_of self i1;
                confidence := round4 c1;
                status := "high_confidence_with_alternatives";
                alternative_predictions := Some (low_alternatives self p);
                original_prediction := None;
                note := Some "Very high confidence - consider alternative possibilities" |}
        else
          Ok {| prediction := name_of self i1;
                confidence := round4 c1;
                status := "normal";
                alternative_predictions := None;
                original_prediction := None;
                note := None |}
    end.
Proof.
  intros Hi Hc. destruct (top_rank1 p i1 c1 Hi Hc) as [H1 H2].
  unfold _apply_bias_mitigation. rewrite H1. simpl. rewrite H2. simpl.
  rewrite alternatives_ranks. reflexivity.
Qed.

Lemma known_bias_ranks (self : PestDetectionService) (p : Np.ndarray)
    (name : string) (c : Q) (i2 i3 : nat) (c2 c3 : Q) :
  rank_id p 1 = Ok i2 -> Np.getitem p i2 = Ok c2 ->
  rank_id p 2 = Ok i3 -> Np.getitem p i3 = Ok c3 ->
  known_bias_check self p name c =
  if is_problematic name then
    if Qltb 0.7 c then
      if Qltb 0.9 c then
        Ok (Some (Biased
          ("Uncertain Detection - Possibly " ++ name_of self i2 ++ " or "
             ++ name_of self i3)
          (py_max c2 c3)
          ("Model shows strong bias towards " ++ name
             ++ ". Suggesting alternatives based on secondary predictions.")))
      else
        Ok (Some (Biased
          ("Multiple Possibilities: " ++ name ++ ", " ++ name_of self i2
             ++ ", or " ++ name_of self i3)
          (known_mean c c2 c3)
          "Detected potential bias pattern. Providing multiple possibilities."))
    else Ok None
  else Ok None.
Proof.
  intros H2 Hc2 H3 Hc3. unfold known_bias_check, known_mean.
  unfold rank_id in H2, H3. rewrite H2, H3. simpl. rewrite Hc2, Hc3. simpl.
  reflexivity.
Qed.

Lemma known_bias_not_engaged (self : PestDetectionService) (p : Np.ndarray)
    (name : string) (c : Q) :
  is_problematic name = false \/ c <= 0.7 ->
  known_bias_check self p name c = Ok None.
Proof.
  intros [H|H]; unfold known_bias_check.
  - rewrite H. reflexivity.
  - apply Qltb_ge in H. rewrite H. destruct (is_problematic name); reflexivity.
Qed.

Lemma dominance_ranks (self : PestDetectionService) (p : Np.ndarray)
    (name : string) (c1 : Q) (i2 : nat) (c2 : Q) :
  rank_confidence p 0 = Ok c1 ->
  rank_id p 1 = Ok i2 -> Np.getitem p i2 = Ok c2 ->
  dominance_check self p name =
  if dominance_gap c1 c2 then
    Ok (Biased
      ("High Confidence with Uncertainty: Likely " ++ name
         ++ " but consider " ++ name_of self i2)
      (dominance_mean c1 c2)
      "Detected unusually high confidence gap - adding uncertainty to prevent overconfidence.")
  else Ok NotBiased.
Proof.
  intros H1 H2 Hc2.
  destruct (max_rank1 p c1 H1) as [m [Hm Hmc]].
  assert (Hr2 : rank_confidence p 1 = Ok c2).
  { unfold rank_confidence. rewrite H2. exact Hc2. }
  unfold dominance_check, dominance_gap, dominance_mean, F32.sub, F32.add.
  rewrite Hm. simpl.
  rewrite (partition_rank2 p c2 Hr2). simpl.
  rewrite (Qltb_proper (F32.round 0.8) (F32.round 0.8) m c1 (Qeq_refl _) Hmc).
  assert (Hd : F32.round (m - c2) = F32.round (c1 - c2)).
  { apply f32_round_proper. rewrite Hmc. reflexivity. }
  assert (Hs : F32.round (m + c2) = F32.round (c1 + c2)).
  { apply f32_round_proper. rewrite Hmc. reflexivity. }
  rewrite Hd, Hs.
  destruct (Qltb (F32.round 0.8) c1
            && Qltb (F32.round 0.6) (F32.round (c1 - c2))); [|reflexivity].
  unfold rank_id in H2. rewrite H2. reflexivity.
Qed.

(** Rule 1: low confidence. *)
Lemma rule_low (self : PestDetectionService) (p : Np.ndarray)
    (i1 : nat) (c1 : Q) :
  rank_id p 0 = Ok i1 -> Np.getitem p i1 = Ok c1 -> c1 < 0.6 ->
  _apply_bias_mitigation self p =
  Ok {| prediction := "Uncertain - Low Confidence Detection";
        confidence := round4 c1;
        status := "low_confidence";
        alternative_predictions := Some (low_alternatives self p);
        original_prediction := None;
        note := None |}.
Proof.
  intros Hi Hc Hlt. rewrite (apply_rank1 self p i1 c1 Hi Hc).
  apply Qltb_lt in Hlt. rewrite Hlt. reflexivity.
Qed.

(** Rule 2: a known-biased label above 0.7. *)
Lemma rule_known (self : PestDetectionService) (p : Np.ndarray)
    (i1 i2 i3 : nat) (c1 c2 c3 : Q) :
  rank_id p 0 = Ok i1 -> Np.getitem p i1 = Ok c1 ->
  rank_id p 1 = Ok i2 -> Np.getitem p i2 = Ok c2 ->
  rank_id p 2 = Ok i3 -> Np.getitem p i3 = Ok c3 ->
  is_problematic (name_of self i1) = true -> 0.7 < c1 ->
  _apply_bias_mitigation self p =
  if Qltb 0.9 c1 then
    Ok {| prediction :=
            "Uncertain Detection - Possibly " ++ name_of self i2 ++ " or "
              ++ name_of self i3;
          confidence := round4 (py_max c2 c3);
          status := "bias_adjusted";
          alternative_predictions := None;
          original_prediction := Some (name_of self i1);
          note := Some ("Model shows strong bias towards " ++ name_of self i1
                    ++ ". Suggesting alternatives based on secondary predictions.") |}
  else
    Ok {| prediction :=
            "Multiple Possibilities: " ++ name_of self i1 ++ ", "
              ++ name_of self i2 ++ ", or " ++ name_of self i3;
          confidence := round4 (known_mean c1 c2 c3);
          status := "bias_adjusted";
          alternative_predictions := None;
          original_prediction := Some (name_of self i1);
          note := Some "Detected potential bias pattern. Providing multiple possibilities." |}.
Proof.
  intros Hi Hc H2 Hc2 H3 Hc3 Hflag Hgt.
  rewrite (apply_rank1 self p i1 c1 Hi Hc).
  assert (Hge : Qltb c1 0.6 = false).
  { apply Qltb_ge. apply Qlt_le_weak.
    eapply Qlt_trans; [|exact Hgt]. reflexivity. }
  rewrite Hge. unfold _detect_bias_patterns.
  rewrite (known_bias_ranks self p _ c1 i2 i3 c2 c3 H2 Hc2 H3 Hc3).
  rewrite Hflag. apply Qltb_lt in Hgt. rewrite Hgt.
  destruct (Qltb 0.9 c1); reflexivity.
Qed.

(** Rules 3 to 5: reached when the known-pattern check does not engage. *)
Lemma rule_after_known (self : PestDetectionService) (p : Np.ndarray)
    (i1 i2 : nat) (c1 c2 : Q) :
  rank_id p 0 = Ok i1 -> Np.getitem p i1 = Ok c1 ->
  rank_id p 1 = Ok i2 -> Np.getitem p i2 = Ok c2 ->
  0.6 <= c1 ->
  is_problematic (name_of self i1) = false \/ c1 <= 0.7 ->
  _apply_bias_mitigation self p =
  if dominance_gap c1 c2 then
    Ok {| prediction :=
            "High Confidence with Uncertainty: Likely " ++ name_of self i1
              ++ " but consider " ++ name_of self i2;
          confidence := round4 (dominance_mean c1 c2);
          status := "bias_adjusted";
          alternative_predictions := None;
          original_prediction := Some (name_of self i1);
          note := Some "Detected unusually high confidence gap - adding uncertainty to prevent overconfidence." |}
  else if Qltb 0.95 c1 then
    Ok {| prediction := name_of self i1;
          confidence := round4 c1;
          status := "high_confidence_with_alternatives";
          alternative_predictions := Some (low_alternatives self p);
          original_prediction := None;
          note := Some "Very high confidence - consider alternative possibilities" |}
  else
    Ok {| prediction := name_of self i1;
          confidence := round4 c1;
          status := "normal";
          alternative_predictions := None;
          original_prediction := None;
          note := None |}.
Proof.
  intros Hi Hc H2 Hc2 Hge Hno.
  rewrite (apply_rank1 self p i1 c1 Hi Hc).
  apply Qltb_ge in Hge. rewrite Hge.
  unfold _detect_bias_patterns.
  rewrite (known_bias_not_engaged self p _ c1 Hno). simpl.
  assert (H1 : rank_confidence p 0 = Ok c1).
  { unfold rank_confidence. rewrite Hi. exact Hc. }
  rewrite (dominance_ranks self p (name_of self i1) c1 i2 c2 H1 H2 Hc2).
  destruct (dominance_gap c1 c2); reflexivity.
Qed.

(** What the test of the dominance check says. *)
Lemma dominance_gap_iff (c1 c2 : Q) :
  dominance_gap c1 c2 = true
  <-> F32.round 0.8 < c1 /\ F32.round 0.6 < F32.sub c1 c2.
Proof.
  unfold dominance_gap. rewrite andb_true_iff, !Qltb_lt. reflexivity.
Qed.

End Policy.


(** ** Probability vectors *)

Section Probability.

Context `{sorter : Np.ArgSort}.

Lemma Qsum_nonneg (p : list Q) : nonneg p -> 0 <= Qsum p.
Proof.
  induction 1 as [|x t Hx Ht IH]; simpl; [apply Qle_refl|lra].
Qed.

Lemma nth_le_Qsum (p : list Q) (i : nat) (x : Q) :
  nonneg p -> nth_error p i = Some x -> x <= Qsum p.
Proof.
  intro Hp. revert i. induction Hp as [|h t Hh Ht IH]; intros i Hx.
  - destruct i; discriminate.
  - pose proof (Qsum_nonneg t Ht) as Hs.
    destruct i as [|i]; simpl in *.
    + inversion Hx; subst. lra.
    + specialize (IH i Hx). lra.
Qed.

Lemma two_le_Qsum (p : list Q) (i j : nat) (x y : Q) :
  nonneg p -> i <> j ->
  nth_error p i = Some x -> nth_error p j = Some y -> x + y <= Qsum p.
Proof.
  intro Hp. revert i j. induction Hp as [|h t Hh Ht IH]; intros i j Hij Hx Hy.
  - destruct i; discriminate.
  - destruct i as [|i]; destruct j as [|j]; simpl in *.
    + contradiction.
    + inversion Hx; subst. pose proof (nth_le_Qsum t j y Ht Hy). lra.
    + inversion Hy; subst. pose proof (nth_le_Qsum t i x Ht Hx). lra.
    + assert (Hne : i <> j) by congruence.
      specialize (IH i j Hne Hx Hy). lra.
Qed.

Lemma sorted_indices_NoDup (p : Np.ndarray) : NoDup (sorted_indices p).
Proof.
  unfold sorted_indices, Np.reversed.
  apply (Permutation_NoDup (l := seq 0 (List.length p))).
  - apply Permutation_sym.
    eapply perm_trans; [|apply Np.argsort_perm].
    apply Permutation_sym. apply Permutation_rev.
  - apply seq_NoDup.
Qed.

(** Different ranks hold different class ids. *)
Lemma rank_ids_distinct (p : Np.ndarray) (k j i i' : nat) :
  k <> j -> rank_id p k = Ok i -> rank_id p j = Ok i' -> i <> i'.
Proof.
  intros Hkj Hk Hj Heq. subst i'.
  unfold rank_id in Hk, Hj. apply getitem_Ok in Hk. apply getitem_Ok in Hj.
  apply Hkj.
  apply (proj1 (NoDup_nth_error (sorted_indices p)) (sorted_indices_NoDup p)).
  - apply nth_error_Some. congruence.
  - congruence.
Qed.

Lemma rank12_le_Qsum (p : Np.ndarray) (i1 i2 : nat) (c1 c2 : Q) :
  nonneg p ->
  rank_id p 0 = Ok i1 -> Np.getitem p i1 = Ok c1 ->
  rank_id p 1 = Ok i2 -> Np.getitem p i2 = Ok c2 ->
  c1 + c2 <= Qsum p.
Proof.
  intros Hp Hi1 Hc1 Hi2 Hc2.
  apply getitem_Ok in Hc1. apply getitem_Ok in Hc2.
  apply (two_le_Qsum p i1 i2); try assumption.
  apply (rank_ids_distinct p 0 1); [lia|assumption|assumption].
Qed.

End Probability.

(* ------------------------------------------------------------------ *)
(** ** The arithmetic of the dominance check *)

(** The float32 values of 0.8 and 0.6. *)
Lemma float32_thresholds :
  F32.round 0.8 == 13421773 # 16777216
  /\ F32.round 0.6 == 10066330 # 16777216.
Proof. split; vm_compute; reflexivity. Qed.

(** From one float32 value of [1/2, 1] to the next. *)
Lemma float32_step (x : Q) (n : Z) :
  F32.round x == x -> (8388608 <= n < 16777216)%Z ->
  n # 16777216 < x -> (n + 1) # 16777216 <= x.
Proof.
  intros Ex Hn Hlt.
  destruct (Qlt_le_dec x 1) as [Hx|Hx].
  - assert (Hhalf : 1 # 2 <= x).
    { apply Qlt_le_weak. eapply Qle_lt_trans; [|exact Hlt].
      unfold Qle. simpl. lia. }
    destruct (f32_round_grid_half x Ex Hhalf Hx) as [m Em].
    rewrite Em in Hlt |- *.
    unfold Qlt in Hlt. unfold Qle. simpl in *. lia.
  - eapply Qle_trans; [|exact Hx]. unfold Qle. simpl. lia.
Qed.

(** A gap of one float32 step above the float32 value of 0.6 passes the
    test. *)
Lemma gap_of_margin (c1 c2 : Q) :
  F32.round 0.8 < c1 -> 10066331 # 16777216 <= c1 - c2 ->
  dominance_gap c1 c2 = true.
Proof.
  intros H1 Hd. unfold dominance_gap.
  apply Qltb_lt in H1. rewrite H1. simpl. apply Qltb_lt.
  assert (Hc : F32.round 0.6 < 10066331 # 16777216)
    by (vm_compute; reflexivity).
  eapply Qlt_le_trans; [exact Hc|].
  unfold F32.sub. apply f32_round_ge_exact; [reflexivity| |exact Hd].
  vm_compute. reflexivity.
Qed.

(** The gap of a vector whose entries sum to at most 1. *)
Lemma gap_of_probability (c1 c2 : Q) :
  F32.round c1 == c1 -> F32.round 0.8 < c1 -> c1 + c2 <= 1 ->
  dominance_gap c1 c2 = true.
Proof.
  intros Ex H1 Hsum.
  assert (Hstep : 13421774 # 16777216 <= c1).
  { apply (float32_step c1 13421773 Ex); [lia|].
    destruct float32_thresholds as [E _]. rewrite <- E. exact H1. }
  apply gap_of_margin; [exact H1|]. lra.
Qed.

(** The gap of a vector whose rank-1 entry is above 0.95 and whose entries
    sum to at most 1.3. *)
Lemma gap_of_peak (c1 c2 : Q) :
  F32.round c1 == c1 -> 0.95 < c1 -> c1 + c2 <= 1.3 ->
  dominance_gap c1 c2 = true.
Proof.
  intros Ex H1 Hsum.
  assert (Hstep : 15938356 # 16777216 <= c1).
  { apply (float32_step c1 15938355 Ex); [lia|]. lra. }
  apply gap_of_margin.
  - destruct float32_thresholds as [E _]. rewrite E. lra.
  - lra.
Qed.

(** The confidence of the dominance rule lies between 0 and the rank-1
    confidence. *)
Lemma mean_nonneg (c1 c2 : Q) : 0 <= c1 + c2 -> 0 <= dominance_mean c1 c2.
Proof.
  intro H. unfold dominance_mean, F32.div, F32.add.
  apply f32_round_nonneg.
  pose proof (f32_round_nonneg (c1 + c2) H) as Hs.
  apply Qle_shift_div_l; [reflexivity|]. lra.
Qed.

Lemma mean_le_rank1 (c1 c2 : Q) :
  0 < c1 -> F32.round c1 == c1 -> c2 <= c1 -> dominance_mean c1 c2 <= c1.
Proof.
  intros Hpos Ex Hle. unfold dominance_mean, F32.div, F32.add.
  assert (Hs : F32.round (c1 + c2) <= 2 * c1).
  { apply f32_round_le_exact; [lra|apply f32_round_double; assumption|lra]. }
  apply f32_round_le_exact; [lra|exact Ex|].
  apply Qle_shift_div_r; [reflexivity|]. lra.
Qed.

Lemma mean_le_half (c1 c2 : Q) :
  c1 + c2 <= 1 -> dominance_mean c1 c2 <= 1 # 2.
Proof.
  intro H. unfold dominance_mean, F32.div, F32.add.
  assert (Hs : F32.round (c1 + c2) <= 1).
  { apply f32_round_le_exact; [discriminate|vm_compute; reflexivity|exact H]. }
  apply f32_round_le_exact; [discriminate|vm_compute; reflexivity|].
  apply Qle_shift_div_r; [reflexivity|]. lra.
Qed.
(** C1 (as amended).  When the rank-1 confidence is below 0.6 the service
    returns status "low_confidence" with the label
    "Uncertain - Low Confidence Detection", the rank-1 confidence rounded to
    four decimals, and the ranks 2 to 4 (cleaned label, rounded confidence)
    as alternatives. *)
Theorem C1_low_confidence_result `{sorter : Np.ArgSort}
    (self : PestDetectionService) (p : Np.ndarray) (c1 : Q) :
  rank_confidence p 0 = Ok c1 ->
  c1 < 0.6 ->
  exists r,
    _apply_bias_mitigation self p = Ok r
    /\ status r = "low_confidence"
    /\ prediction r = "Uncertain - Low Confidence Detection"
    /\ confidence r = round4 c1
    /\ alternative_predictions r
       = Some (map (fun i => {| alt_prediction := name_of self i;
                                alt_confidence := round4 (nth i p 0) |})
                   (firstn 3 (tl (sorted_indices p))))
    /\ original_prediction r = None
    /\ note r = None.
Proof.
  intros H1 Hlt.
  apply rank_confidence_inv in H1. destruct H1 as [i1 [Hi [Hc _]]].
  rewrite (apply_rank1 self p i1 c1 Hi Hc).
  apply Qltb_lt in Hlt. rewrite Hlt.
  eexists. split; [reflexivity|]. simpl. repeat split; reflexivity.
Qed.

Lemma C1_low_confidence_witness :
  rank_confidence vec_low 0 = Ok (33 # 64)
  /\ exists r,
       _apply_bias_mitigation service_22 vec_low = Ok r
       /\ status r = "low_confidence"
       /\ prediction r = "Uncertain - Low Confidence Detection"
       /\ confidence r = (5156 # 10000)
       /\ alternative_predictions r
          = Some [ {| alt_prediction := "Apple Scab";
                      alt_confidence := 2344 # 10000 |};
                   {| alt_prediction := "Apple Black Rot";
                      alt_confidence := 1250 # 10000 |};
                   {| alt_prediction := "Apple Cedar Rust";
                      alt_confidence := 625 # 10000 |} ].
Proof.
  split; [reflexivity|].
  destruct (C1_low_confidence_result (sorter := stable_sorter)
              service_22 vec_low (33 # 64)
              eq_refl eq_refl)
    as [r [Hr [Hs [Hp [Hc [Ha _]]]]]].
  exists r. repeat split; assumption.
Defined.

(** C1, as the specification words it, fails on the 22-class service: for
    [vec_low] the rank-1 confidence 33/64 is below 0.6, yet the label is not
    "Unknown", the confidence is the rounded 0.5156 and three alternatives
    are attached. *)
Lemma C1_counterexample :
  exists c1 r,
    rank_confidence vec_low 0 = Ok c1
    /\ c1 < 0.6
    /\ _apply_bias_mitigation service_22 vec_low = Ok r
    /\ prediction r <> "Unknown"
    /\ ~ confidence r == c1
    /\ alternative_predictions r <> Some []
    /\ alternative_predictions r <> None.
Proof.
  exists (33 # 64). eexists.
  split; [reflexivity|]. split; [reflexivity|].
  split; [vm_compute; reflexivity|].
  simpl. repeat split; discriminate.
Qed.











(** ** The 22-class taxonomy and the registry *)

Lemma names_22_not_problematic (self : PestDetectionService) (i : nat) :
  disease_mapping self = disease_mapping_22 -> (i < 22)%nat ->
  is_problematic (name_of self i) = false.
Proof.
  intros Hmap Hi. unfold name_of, raw_name_of. rewrite Hmap.
  do 22 (destruct i as [|i]; [reflexivity|]). lia.
Qed.

(** C5.  Over the 22-class taxonomy the known-pattern check never engages:
    no registry entry is a substring of a cleaned taxonomy label.  Every
    22-entry vector gets a result, and a "bias_adjusted" result always comes
    from the dominance-gap rule, with that rule's label and confidence: the
    float32 mean of the two leading confidences, rounded to four
    decimals. *)
Theorem C5_known_bias_unreachable `{sorter : Np.ArgSort}
    (self : PestDetectionService) (p : Np.ndarray) :
  disease_mapping self = disease_mapping_22 ->
  List.length p = 22%nat ->
  forallb (fun kv => negb (is_problematic (_clean_disease_name (snd kv))))
          disease_mapping_22 = true
  /\ (forall i c, (i < 22)%nat ->
        known_bias_check self p (name_of self i) c = Ok None)
  /\ (exists r, _apply_bias_mitigation self p = Ok r)
  /\ (forall r, _apply_bias_mitigation self p = Ok r ->
        status r = "bias_adjusted" ->
        exists i1 i2 c1 c2,
          rank_id p 0 = Ok i1 /\ rank_confidence p 0 = Ok c1
          /\ rank_id p 1 = Ok i2 /\ rank_confidence p 1 = Ok c2
          /\ F32.round 0.8 < c1 /\ F32.round 0.6 < F32.sub c1 c2
          /\ prediction r
             = "High Confidence with Uncertainty: Likely " ++ name_of self i1
                 ++ " but consider " ++ name_of self i2
          /\ confidence r = round4 (F32.div (F32.add c1 c2) 2)
          /\ original_prediction r = Some (name_of self i1)).
Proof.
  intros Hmap Hlen.
  split; [reflexivity|].
  split.
  { intros i c Hi. apply known_bias_not_engaged. left.
    apply names_22_not_problematic; assumption. }
  destruct (rank_confidence_defined p 0) as [i1 [c1 [Hi1 [Hc1 H1]]]]; [lia|].
  destruct (rank_confidence_defined p 1) as [i2 [c2 [Hi2 [Hc2 H2]]]]; [lia|].
  assert (Hflag : is_problematic (name_of self i1) = false).
  { apply names_22_not_problematic; [exact Hmap|].
    rewrite <- Hlen. eapply rank_id_lt. exact Hi1. }
  destruct (Qlt_le_dec c1 0.6) as [Hlt|Hge].
  - rewrite (rule_low self p i1 c1 Hi1 Hc1 Hlt). split.
    + eexists. reflexivity.
    + intros r Hr Hs. inversion Hr; subst r. simpl in Hs. discriminate.
  - rewrite (rule_after_known self p i1 i2 c1 c2 Hi1 Hc1 Hi2 Hc2 Hge
               (or_introl Hflag)).
    destruct (dominance_gap c1 c2) eqn:Eg.
    + split; [eexists; reflexivity|].
      intros r Hr _. injection Hr as Hr. subst r. cbn [prediction confidence
        original_prediction].
      exists i1, i2, c1, c2.
      apply dominance_gap_iff in Eg. destruct Eg as [Ea Eb].
      repeat split; assumption.
    + destruct (Qltb 0.95 c1); (split; [eexists; reflexivity|]);
        intros r Hr Hs; inversion Hr; subst r; simpl in Hs; discriminate.
Qed.

(** The witness is a vector whose two leading float32 confidences,
    14260633/2^24 and 4254707/2^27, have the exact mean 0.44085000083 and
    the float32 mean 0.44084998965: the result carries 0.4408. *)
Lemma C5_known_bias_unreachable_witness :
  disease_mapping service_22 = disease_mapping_22
  /\ List.length vec_mean = 22%nat
  /\ known_bias_check service_22 vec_mean (name_of service_22 4)
       (14260633 # 16777216) = Ok None
  /\ exists r, _apply_bias_mitigation service_22 vec_mean = Ok r
               /\ status r = "bias_adjusted"
               /\ confidence r = 4408 # 10000
               /\ round4 (((14260633 # 16777216) + (4254707 # 134217728)) / 2)
                  = 4409 # 10000.
Proof.
  repeat (split; [reflexivity|]).
  pose proof (C5_known_bias_unreachable (sorter := stable_sorter)
                service_22 vec_mean eq_refl eq_refl) as H.
  destruct (proj1 (proj2 (proj2 H))) as [r Hr].
  exists r. split; [exact Hr|].
  vm_compute in Hr. injection Hr as Hr. subst r.
  split; [reflexivity|]. split; reflexivity.
Defined.

(** ** The ranking *)

Lemma StronglySorted_rev_flip (l : list Q) :
  StronglySorted Qle l -> StronglySorted (fun x y => y <= x) (rev l).
Proof.
  induction 1 as [|h t Hs IH Hall]; simpl.
  - constructor.
  - assert (Happ : forall l1 l2,
               StronglySorted (fun x y => y <= x) l1 ->
               StronglySorted (fun x y => y <= x) l2 ->
               (forall a b, In a l1 -> In b l2 -> b <= a) ->
               StronglySorted (fun x y => y <= x) (l1 ++ l2)).
    { induction l1 as [|a l1 IHl]; intros l2 H1 H2 Hc; simpl; [exact H2|].
      inversion H1; subst. constructor.
      - apply IHl; [assumption|assumption|].
        intros x y Hx Hy. apply Hc; [right; exact Hx|exact Hy].
      - apply Forall_app. split; [assumption|].
        apply Forall_forall. intros y Hy. apply Hc; [left; reflexivity|exact Hy]. }
    apply Happ; [exact IH|repeat constructor|].
    intros a b Ha [Hb|[]]. subst b.
    rewrite Forall_forall in Hall. apply Hall. apply in_rev. exact Ha.
Qed.

(** C6 (as amended).  [sorted_indices] is a permutation of all N class ids
    in non-increasing order of confidence; the order of equal confidences
    is the sorter's.  [top_indices], which decides rank 1 and the
    alternatives, is its prefix of length min(5, N). *)
Theorem C6_rank_sorted_permutation `{sorter : Np.ArgSort} (p : Np.ndarray) :
  Permutation (sorted_indices p) (seq 0 (List.length p))
  /\ StronglySorted (fun x y => y <= x) (Np.take p (sorted_indices p))
  /\ top_indices p = firstn 5 (sorted_indices p)
  /\ List.length (top_indices p) = Nat.min 5 (List.length p).
Proof.
  split; [|split; [|split]].
  - unfold sorted_indices, Np.reversed.
    eapply perm_trans; [|apply Np.argsort_perm].
    apply Permutation_sym. apply Permutation_rev.
  - unfold sorted_indices, Np.reversed, Np.take. rewrite map_rev.
    apply StronglySorted_rev_flip. apply Np.argsort_sorted.
  - apply top_indices_firstn.
  - apply top_indices_length.
Qed.

(** C6, as the specification words it, fails twice.  The ranking that
    [_apply_bias_mitigation] works on lists five of the 22 class ids, for
    every sorter; and with the stable sorter two equal confidences come out
    with the larger class id first. *)
Lemma C6_counterexample :
  List.length vec_low = 22%nat
  /\ top_indices vec_low = [0; 1; 2; 3; 4]%nat
  /\ ~ Permutation (top_indices vec_low) (seq 0 (List.length vec_low))
  /\ (forall sorter : Np.ArgSort,
        ~ Permutation (@top_indices sorter vec_low)
                      (seq 0 (List.length vec_low)))
  /\ sorted_indices [0.25; 0.25; 0.5] = [2; 1; 0]%nat.
Proof.
  split; [reflexivity|]. split; [reflexivity|].
  assert (H : forall sorter : Np.ArgSort,
             ~ Permutation (@top_indices sorter vec_low)
                           (seq 0 (List.length vec_low))).
  { intros sorter Hp. apply Permutation_length in Hp.
    rewrite top_indices_length in Hp. vm_compute in Hp. discriminate Hp. }
  split; [apply H|]. split; [exact H|reflexivity].
Qed.

(** ** What can be raised *)

Section Raised.

Context `{sorter : Np.ArgSort}.

Lemma bind_Raise {A B : Type} (r : result A) (k : A -> result B)
    (cls : string) :
  bind r k = Raise cls ->
  r = Raise cls \/ exists a, r = Ok a /\ k a = Raise cls.
Proof.
  destruct r as [a|c]; simpl; intro H.
  - right. exists a. split; [reflexivity|exact H].
  - left. inversion H. reflexivity.
Qed.

Ltac raise_step H :=
  let a := fresh "a" in
  let Ha := fresh "Ha" in
  apply bind_Raise in H;
  destruct H as [H|[a [Ha H]]];
  [try (left; eapply getitem_raise; exact H)|].

Lemma known_bias_raise (self : PestDetectionService) (p : Np.ndarray)
    (name : string) (c : Q) (cls : string) :
  known_bias_check self p name c = Raise cls -> index_or_value cls.
Proof.
  unfold known_bias_check. intro H.
  destruct (is_problematic name); [|discriminate].
  destruct (Qltb 0.7 c); [|discriminate].
  do 4 raise_step H.
  destruct (Qltb 0.9 c); discriminate.
Qed.

Lemma dominance_raise (self : PestDetectionService) (p : Np.ndarray)
    (name : string) (cls : string) :
  dominance_check self p name = Raise cls -> index_or_value cls.
Proof.
  unfold dominance_check. intro H.
  apply bind_Raise in H. destruct H as [H|[m [Hm H]]].
  { unfold Np.max in H. destruct p; inversion H. right. reflexivity. }
  apply bind_Raise in H. destruct H as [H|[s [Hs H]]].
  { eapply partition_neg_raise. exact H. }
  destruct (Qltb (F32.round 0.8) m
            && Qltb (F32.round 0.6) (F32.sub m s)); [|discriminate].
  raise_step H. discriminate.
Qed.

Lemma detect_raise (self : PestDetectionService) (p : Np.ndarray)
    (name : string) (c : Q) (cls : string) :
  _detect_bias_patterns self p name c = Raise cls -> index_or_value cls.
Proof.
  unfold _detect_bias_patterns. intro H.
  apply bind_Raise in H. destruct H as [H|[k [Hk H]]].
  - eapply known_bias_raise. exact H.
  - destruct k; [discriminate|]. eapply dominance_raise. exact H.
Qed.

Lemma apply_raise (self : PestDetectionService) (p : Np.ndarray)
    (cls : string) :
  _apply_bias_mitigation self p = Raise cls -> index_or_value cls.
Proof.
  unfold _apply_bias_mitigation. intro H.
  do 2 raise_step H.
  destruct (Qltb a0 0.6); [discriminate|].
  apply bind_Raise in H. destruct H as [H|[b [Hb H]]].
  - eapply detect_raise. exact H.
  - destruct b; [destruct (Qltb 0.95 a0)|]; discriminate.
Qed.

(** Three entries are enough for every branch to return. *)
Lemma apply_returns (self : PestDetectionService) (p : Np.ndarray) :
  (3 <= List.length p)%nat ->
  exists r, _apply_bias_mitigation self p = Ok r.
Proof.
  intro Hlen.
  destruct (rank_confidence_defined p 0) as [i1 [c1 [Hi1 [Hc1 _]]]]; [lia|].
  destruct (rank_confidence_defined p 1) as [i2 [c2 [Hi2 [Hc2 _]]]]; [lia|].
  destruct (rank_confidence_defined p 2) as [i3 [c3 [Hi3 [Hc3 _]]]]; [lia|].
  destruct (Qlt_le_dec c1 0.6) as [Hlt|Hge].
  { rewrite (rule_low self p i1 c1 Hi1 Hc1 Hlt). eexists. reflexivity. }
  destruct (is_problematic (name_of self i1)) eqn:Hflag.
  - destruct (Qlt_le_dec 0.7 c1) as [Hgt|Hle].
    + rewrite (rule_known self p i1 i2 i3 c1 c2 c3 Hi1 Hc1 Hi2 Hc2 Hi3 Hc3
                 Hflag Hgt).
      destruct (Qltb 0.9 c1); eexists; reflexivity.
    + rewrite (rule_after_known self p i1 i2 c1 c2 Hi1 Hc1 Hi2 Hc2 Hge
                 (or_intror Hle)).
      destruct (dominance_gap c1 c2);
        [|destruct (Qltb 0.95 c1)]; eexists; reflexivity.
  - rewrite (rule_after_known self p i1 i2 c1 c2 Hi1 Hc1 Hi2 Hc2 Hge
               (or_introl Hflag)).
    destruct (dominance_gap c1 c2);
      [|destruct (Qltb 0.95 c1)]; eexists; reflexivity.
Qed.

Lemma apply_empty (self : PestDetectionService) :
  _apply_bias_mitigation self [] = Raise "IndexError".
Proof.
  unfold _apply_bias_mitigation.
  assert (H : top_indices [] = []).
  { apply length_zero_iff_nil. rewrite top_indices_length. reflexivity. }
  rewrite H. reflexivity.
Qed.

Lemma predict_disease_raise (self : PestDetectionService)
    (image_array : Np.ndarray) (cls : string) :
  predict_disease self image_array = Raise cls -> cls = "ValueError".
Proof.
  unfold predict_disease. intro H.
  destruct (negb (is_model_loaded self)); [inversion H; reflexivity|].
  destruct (model self) as [m|]; [|inversion H; reflexivity].
  destruct (first <- Np.getitem (m image_array) 0 ;;
            _apply_bias_mitigation self first);
    inversion H; reflexivity.
Qed.

End Raised.

(** ** Configuration and input checks *)

(** C4 (as amended).  The registry is never checked against the taxonomy:
    the constructor returns a service with the 22-class mapping whatever
    the model loader yields, none of the three registry labels is a label
    of that mapping (as written or cleaned), and no classification call
    raises ConfigError. *)
Theorem C4_no_registry_check `{sorter : Np.ArgSort} :
  (forall loaded, exists s,
      PestDetectionService_init loaded = Ok s
      /\ disease_mapping s = disease_mapping_22)
  /\ forallb (fun l => negb (label_in_taxonomy disease_mapping_22 l))
             problematic_predictions = true
  /\ (forall self p,
        _apply_bias_mitigation self p <> Raise "ConfigError")
  /\ (forall self image_array,
        predict_disease self image_array <> Raise "ConfigError").
Proof.
  split; [|split; [|split]].
  - intro loaded. eexists. split; reflexivity.
  - reflexivity.
  - intros self p H. apply apply_raise in H.
    destruct H as [H|H]; discriminate H.
  - intros self image_array H. apply predict_disease_raise in H.
    discriminate H.
Qed.

(** C4, as the specification words it, fails: "Potato - Healthy" (like the
    other two registry entries) names no class of the taxonomy, the
    constructor returns normally, and a request is served. *)
Lemma C4_counterexample :
  In "Potato - Healthy" problematic_predictions
  /\ label_in_taxonomy disease_mapping_22 "Potato - Healthy" = false
  /\ PestDetectionService_init None = Ok service_22
  /\ ~ raises (PestDetectionService_init None) "ConfigError"
  /\ exists r, _apply_bias_mitigation service_22 vec_peak = Ok r
               /\ status r = "bias_adjusted".
Proof.
  split; [right; left; reflexivity|].
  split; [reflexivity|]. split; [reflexivity|].
  split; [discriminate|].
  eexists. split; [vm_compute; reflexivity|reflexivity].
Qed.

(** C8 (as amended).  The service validates nothing and never raises an
    InputError.  A vector of three or more entries, whatever its length and
    values, gets a result; the only classes [_apply_bias_mitigation] can
    raise are IndexError and ValueError, and the empty vector raises
    IndexError; [predict_disease] re-raises as ValueError and
    [predict_from_image_bytes] answers with the error dict. *)
Theorem C8_no_input_validation `{sorter : Np.ArgSort} :
  (forall self p, (3 <= List.length p)%nat ->
     exists r, _apply_bias_mitigation self p = Ok r)
  /\ (forall self p cls,
        _apply_bias_mitigation self p = Raise cls ->
        cls = "IndexError" \/ cls = "ValueError")
  /\ (forall self, _apply_bias_mitigation self [] = Raise "IndexError")
  /\ (forall self image_array cls,
        predict_disease self image_array = Raise cls -> cls = "ValueError")
  /\ (forall preprocess_image self m image_data image_array,
        model self = Some m -> is_loaded self = true ->
        preprocess_image self image_data = Ok image_array ->
        m image_array = [[]] ->
        predict_disease self image_array = Raise "ValueError"
        /\ predict_from_image_bytes preprocess_image self image_data
           = ErrorReply).
Proof.
  split; [|split; [|split; [|split]]].
  - intros self p. apply apply_returns.
  - intros self p cls. apply apply_raise.
  - intro self. apply apply_empty.
  - intros self image_array cls. apply predict_disease_raise.
  - intros pre self m image_data image_array Hm Hl Hpre Hout.
    assert (Hp : predict_disease self image_array = Raise "ValueError").
    { unfold predict_disease, is_model_loaded. rewrite Hl, Hm. simpl.
      rewrite Hout. simpl. rewrite apply_empty. reflexivity. }
    split; [exact Hp|].
    unfold predict_from_image_bytes. rewrite Hpre. simpl. rewrite Hp.
    reflexivity.
Qed.

Lemma C8_no_input_validation_witness :
  (3 <= List.length vec_short)%nat
  /\ (exists r, _apply_bias_mitigation service_22 vec_short = Ok r)
  /\ predict_from_image_bytes preprocess_any
       {| model := Some (fun _ => [[]]); is_loaded := true;
          num_classes := 22; disease_mapping := disease_mapping_22 |}
       [Byte.x00]
     = ErrorReply.
Proof.
  pose proof (C8_no_input_validation (sorter := stable_sorter)) as H.
  split; [simpl; lia|]. split.
  - apply (proj1 H). simpl. lia.
  - apply (proj2 (proj2 (proj2 (proj2 H))) preprocess_any _
             (fun _ => [[]]) [Byte.x00] []); reflexivity.
Defined.

(** C8, as the specification words it, fails: a three-entry vector and a
    22-entry vector with the value 1.5 both get a result from the 22-class
    service, and the empty vector raises IndexError, which the pipeline
    turns into the error dict. *)
Lemma C8_counterexample :
  List.length vec_short <> num_classes service_22
  /\ (exists r, _apply_bias_mitigation service_22 vec_short = Ok r
                /\ status r = "low_confidence")
  /\ nth 0 vec_out_of_range 0 == 1.5
  /\ (exists r, _apply_bias_mitigation service_22 vec_out_of_range = Ok r
                /\ status r = "bias_adjusted"
                /\ confidence r = (7578 # 10000))
  /\ _apply_bias_mitigation service_22 [] = Raise "IndexError"
  /\ ~ raises (_apply_bias_mitigation service_22 []) "InputError".
Proof.
  split; [discriminate|].
  split; [eexists; split; [vm_compute; reflexivity|reflexivity]|].
  split; [reflexivity|].
  split; [eexists; split; [vm_compute; reflexivity|split; reflexivity]|].
  split; [reflexivity|discriminate].
Qed.

(** ** Determinism *)

Lemma name_of_ext (self1 self2 : PestDetectionService) :
  disease_mapping self1 = disease_mapping self2 ->
  name_of self1 = name_of self2.
Proof.
  intro H. unfold name_of, raw_name_of. rewrite H. reflexivity.
Qed.

(** C9.  The result is a function of the probability vector and the
    taxonomy alone (registry and thresholds are constants of the code): two
    calls that agree on them return the same result, field by field, or
    raise the same exception. *)
Theorem C9_deterministic `{sorter : Np.ArgSort}
    (self1 self2 : PestDetectionService) (p1 p2 : Np.ndarray) :
  disease_mapping self1 = disease_mapping self2 ->
  p1 = p2 ->
  _apply_bias_mitigation self1 p1 = _apply_bias_mitigation self2 p2.
Proof.
  intros Hmap Hp. subst p2.
  pose proof (name_of_ext self1 self2 Hmap) as Hn.
  unfold _apply_bias_mitigation, _detect_bias_patterns, known_bias_check,
    dominance_check, _get_alternative_predictions.
  rewrite Hn. reflexivity.
Qed.

Lemma C9_deterministic_witness :
  _apply_bias_mitigation service_22 vec_peak
  = _apply_bias_mitigation
      {| model := Some (fun _ => [vec_peak]); is_loaded := true;
         num_classes := 22; disease_mapping := disease_mapping_22 |}
      (put 3 (31 # 32) (halves 21 (1 # 64))).
Proof.
  apply (C9_deterministic (sorter := stable_sorter)); reflexivity.
Defined.

(** The rank-1 entry of a vector with a single largest value. *)
Lemma rank1_of_strict_max `{sorter : Np.ArgSort}
    (p : Np.ndarray) (i : nat) (v : Q) :
  nth_error p i = Some v ->
  (forall j w, nth_error p j = Some w -> j <> i -> w < v) ->
  rank_id p 0 = Ok i /\ rank_confidence p 0 = Ok v.
Proof.
  intros Hv Hmax.
  assert (Hlen : (0 < List.length p)%nat).
  { assert (i < List.length p)%nat by (apply nth_error_Some; congruence). lia. }
  destruct (rank_confidence_defined p 0 Hlen) as [i1 [c1 [Hi1 [Hc1 H1]]]].
  pose proof (rank1_upper_bound p c1 v i H1 Hv) as Hle.
  destruct (Nat.eq_dec i1 i) as [He|Hne].
  - subst i1. apply getitem_Ok in Hc1.
    assert (c1 = v) by congruence. subst c1. split; assumption.
  - exfalso. apply getitem_Ok in Hc1.
    pose proof (Hmax i1 c1 Hc1 Hne) as Hlt.
    exact (Qlt_not_le _ _ Hlt Hle).
Qed.

Lemma vec_low_rank1 `{sorter : Np.ArgSort} :
  rank_id vec_low 0 = Ok 0%nat /\ rank_confidence vec_low 0 = Ok (33 # 64).
Proof.
  apply rank1_of_strict_max; [reflexivity|].
  intros j w Hw Hj.
  destruct j as [|j]; [contradiction|].
  do 21 (destruct j as [|j]; [inversion Hw; reflexivity|]).
  destruct j; discriminate Hw.
Qed.

(** ** The router's threshold *)

(** A loaded model that yields the vector [p] makes the pipeline return
    what [_apply_bias_mitigation] returns on [p]. *)
Lemma pipeline_reply `{sorter : Np.ArgSort}
    (preprocess_image : PestDetectionService -> list Byte.byte
                        -> result Np.ndarray)
    (self : PestDetectionService) (m : keras_model)
    (image_data : list Byte.byte) (image_array p : Np.ndarray)
    (r : prediction_result) :
  model self = Some m -> is_loaded self = true ->
  preprocess_image self image_data = Ok image_array ->
  nth_error (m image_array) 0 = Some p ->
  _apply_bias_mitigation self p = Ok r ->
  predict_disease self image_array = Ok r
  /\ predict_from_image_bytes preprocess_image self image_data = Reply r.
Proof.
  intros Hm Hl Hpre Hout Hr.
  assert (Hp : predict_disease self image_array = Ok r).
  { unfold predict_disease, is_model_loaded. rewrite Hl, Hm. simpl.
    unfold Np.getitem. rewrite Hout. simpl. rewrite Hr. reflexivity. }
  split; [exact Hp|].
  unfold predict_from_image_bytes. rewrite Hpre. simpl. rewrite Hp.
  reflexivity.
Qed.

(** An upload that passes the endpoint's three checks is answered from the
    service's reply. *)
Lemma root_responds `{sorter : Np.ArgSort}
    (preprocess_image : PestDetectionService -> list Byte.byte
                        -> result Np.ndarray)
    (image : UploadFile) (service : PestDetectionService) :
  bad_content_type image = false -> content image <> [] ->
  (Z.of_nat (List.length (content image)) <= 10 * 1024 * 1024)%Z ->
  predict_disease_root preprocess_image image service
  = respond (predict_from_image_bytes preprocess_image service
               (content image)).
Proof.
  intros Htype Hne Hsize. unfold predict_disease_root.
  unfold bad_content_type in Htype.
  destruct (content_type image) as [t|]; [|discriminate Htype].
  rewrite Htype. cbn [negb].
  destruct (content image) as [|x l] eqn:Ec; [contradiction|].
  assert (E : (10 * 1024 * 1024 <? Z.of_nat (List.length (x :: l)))%Z = false)
    by (apply Z.ltb_ge; exact Hsize).
  rewrite E. reflexivity.
Qed.

(** What the endpoint makes of a service result, on both sides of 0.45. *)
Lemma respond_threshold (r : prediction_result) :
  exists b,
    respond (Reply r) = Body b
    /\ (confidence r < 0.45 ->
        disease b = "Unknown" /\ severity b = "low"
        /\ body_confidence b = confidence r
        /\ treatment b = "Unable to identify. Please upload clearer image.")
    /\ (0.45 <= confidence r ->
        disease b
        = PyStr.strip (if String.eqb (prediction r) EmptyString
                       then "Unknown" else prediction r)
        /\ body_confidence b = round4 (confidence r)).
Proof.
  unfold respond. destruct (Qltb (confidence r) 0.45) eqn:E.
  - eexists. split; [reflexivity|]. cbn [disease severity body_confidence
      treatment]. split.
    + intros _. repeat split.
    + intro H. apply Qltb_lt in E. exfalso. lra.
  - eexists. split; [reflexivity|]. cbn [disease severity body_confidence
      treatment]. split.
    + intro H. apply Qltb_ge in E. exfalso. lra.
    + intros _. split; reflexivity.
Qed.

(** C10.  The endpoint POST / answers "Unknown" with severity "low" exactly
    for the service results whose confidence is below 0.45, and passes the
    service's label on for the others; the service reports "low_confidence"
    exactly when the rank-1 confidence is below 0.6; so for every upload
    whose rank-1 confidence lies in [0.45, 0.6) the service reports
    "low_confidence" while the endpoint answers with the service's label
    instead of "Unknown". *)
Theorem C10_two_thresholds `{sorter : Np.ArgSort} :
  (forall preprocess_image image service r,
     bad_content_type image = false -> content image <> [] ->
     (Z.of_nat (List.length (content image)) <= 10 * 1024 * 1024)%Z ->
     predict_from_image_bytes preprocess_image service (content image)
     = Reply r ->
     exists b,
       predict_disease_root preprocess_image image service = Body b
       /\ (confidence r < 0.45 ->
           disease b = "Unknown" /\ severity b = "low"
           /\ body_confidence b = confidence r
           /\ treatment b
              = "Unable to identify. Please upload clearer image.")
       /\ (0.45 <= confidence r ->
           disease b
           = PyStr.strip (if String.eqb (prediction r) EmptyString
                          then "Unknown" else prediction r)
           /\ body_confidence b = round4 (confidence r)))
  /\ (forall self p c1, rank_confidence p 0 = Ok c1 ->
        (c1 < 0.6 ->
         exists r, _apply_bias_mitigation self p = Ok r
                   /\ status r = "low_confidence"
                   /\ confidence r = round4 c1)
        /\ (forall r, _apply_bias_mitigation self p = Ok r ->
              status r = "low_confidence" -> c1 < 0.6))
  /\ (forall preprocess_image image service m image_array p c1,
        bad_content_type image = false -> content image <> [] ->
        (Z.of_nat (List.length (content image)) <= 10 * 1024 * 1024)%Z ->
        model service = Some m -> is_loaded service = true ->
        preprocess_image service (content image) = Ok image_array ->
        nth_error (m image_array) 0 = Some p ->
        rank_confidence p 0 = Ok c1 -> 0.45 <= c1 -> c1 < 0.6 ->
        exists r b,
          _apply_bias_mitigation service p = Ok r
          /\ status r = "low_confidence"
          /\ predict_disease_root preprocess_image image service = Body b
          /\ disease b = "Uncertain - Low Confidence Detection"
          /\ disease b <> "Unknown"
          /\ body_confidence b = round4 c1).
Proof.
  split; [|split].
  - intros pre image service r Htype Hne Hsize Hreply.
    rewrite (root_responds pre image service Htype Hne Hsize), Hreply.
    apply respond_threshold.
  - intros self p c1 H1.
    apply rank_confidence_inv in H1. destruct H1 as [i1 [Hi [Hc _]]].
    split.
    + intro Hlt. rewrite (rule_low self p i1 c1 Hi Hc Hlt).
      eexists. split; [reflexivity|]. split; reflexivity.
    + intros r Hr Hs.
      destruct (Qlt_le_dec c1 0.6) as [Hlt|Hge]; [exact Hlt|exfalso].
      rewrite (apply_rank1 self p i1 c1 Hi Hc) in Hr.
      apply Qltb_ge in Hge. rewrite Hge in Hr.
      destruct (_detect_bias_patterns self p (name_of self i1) c1)
        as [check|cls]; [|discriminate Hr].
      simpl in Hr. destruct check as [|a ca reason];
        [destruct (Qltb 0.95 c1)|]; injection Hr as Hr; subst r;
        discriminate Hs.
  - intros pre image service m image_array p c1 Htype Hne Hsize Hm Hl Hpre
      Hout H1 Hlo Hhi.
    apply rank_confidence_inv in H1. destruct H1 as [i1 [Hi [Hc _]]].
    pose proof (rule_low service p i1 c1 Hi Hc Hhi) as Hr.
    destruct (pipeline_reply pre service m (content image) image_array p _
                Hm Hl Hpre Hout Hr) as [_ Hreply].
    eexists. eexists. split; [exact Hr|]. split; [reflexivity|].
    rewrite (root_responds pre image service Htype Hne Hsize), Hreply.
    unfold respond. cbn [confidence prediction].
    assert (Hc45 : Qltb (round4 c1) 0.45 = false).
    { apply Qltb_ge. apply Qle_trans with (round4 0.45);
        [discriminate|apply round4_mono; exact Hlo]. }
    rewrite Hc45.
    split; [reflexivity|]. cbn [disease body_confidence].
    split; [reflexivity|]. split; [discriminate|].
    rewrite round4_idempotent. reflexivity.
Qed.

Lemma C10_two_thresholds_witness :
  exists r b,
    _apply_bias_mitigation
      {| model := Some (fun _ => [vec_low]); is_loaded := true;
         num_classes := 22; disease_mapping := disease_mapping_22 |}
      vec_low = Ok r
    /\ status r = "low_confidence"
    /\ predict_disease_root preprocess_any
         {| content_type := Some "image/png"; content := [Byte.x00] |}
         {| model := Some (fun _ => [vec_low]); is_loaded := true;
            num_classes := 22; disease_mapping := disease_mapping_22 |}
       = Body b
    /\ disease b = "Uncertain - Low Confidence Detection"
    /\ disease b <> "Unknown"
    /\ body_confidence b = round4 (33 # 64).
Proof.
  apply (proj2 (proj2 (C10_two_thresholds (sorter := stable_sorter)))
           preprocess_any
           {| content_type := Some "image/png"; content := [Byte.x00] |}
           {| model := Some (fun _ => [vec_low]); is_loaded := true;
              num_classes := 22; disease_mapping := disease_mapping_22 |}
           (fun _ => [vec_low]) [] vec_low (33 # 64)).
  - reflexivity.
  - discriminate.
  - vm_compute. discriminate.
  - reflexivity.
  - reflexivity.
  - reflexivity.
  - reflexivity.
  - reflexivity.
  - discriminate.
  - reflexivity.
Defined.

(* ------------------------------------------------------------------ *)
(** * Further properties of the service *)

(** ** When [_apply_bias_mitigation] raises *)

Section Failure.

Context `{sorter : Np.ArgSort}.

Lemma rank_id_undefined (p : Np.ndarray) (k : nat) :
  (List.length p <= k)%nat -> rank_id p k = Raise "IndexError".
Proof.
  intro H. unfold rank_id, Np.getitem.
  assert (E : nth_error (sorted_indices p) k = None).
  { apply nth_error_None. rewrite sorted_indices_length. exact H. }
  rewrite E. reflexivity.
Qed.

(** A flagged label above 0.7 needs three ranks. *)
Lemma apply_short_known (self : PestDetectionService) (p : Np.ndarray)
    (i1 : nat) (c1 : Q) :
  rank_id p 0 = Ok i1 -> Np.getitem p i1 = Ok c1 ->
  is_problematic (name_of self i1) = true -> 0.7 < c1 ->
  (List.length p < 3)%nat ->
  _apply_bias_mitigation self p = Raise "IndexError".
Proof.
  intros Hi Hc Hflag Hgt Hlen.
  rewrite (apply_rank1 self p i1 c1 Hi Hc).
  assert (Hge : Qltb c1 0.6 = false).
  { apply Qltb_ge. apply Qlt_le_weak.
    eapply Qlt_trans; [|exact Hgt]. reflexivity. }
  rewrite Hge. unfold _detect_bias_patterns, known_bias_check.
  rewrite Hflag. apply Qltb_lt in Hgt. rewrite Hgt.
  destruct (Nat.le_gt_cases (List.length p) 1) as [H1|H1].
  - pose proof (rank_id_undefined p 1 H1) as E. unfold rank_id in E.
    rewrite E. reflexivity.
  - destruct (rank_id_defined p 1 H1) as [i2 Hi2].
    assert (H2 : (List.length p <= 2)%nat) by lia.
    pose proof (rank_id_undefined p 2 H2) as E. unfold rank_id in E, Hi2.
    rewrite Hi2. simpl. rewrite E. reflexivity.
Qed.

(** A one-entry vector that passes the known-pattern check stops at
    np.partition. *)
Lemma apply_single (self : PestDetectionService) (p : Np.ndarray)
    (i1 : nat) (c1 : Q) :
  rank_id p 0 = Ok i1 -> Np.getitem p i1 = Ok c1 ->
  0.6 <= c1 ->
  is_problematic (name_of self i1) = false \/ c1 <= 0.7 ->
  List.length p = 1%nat ->
  _apply_bias_mitigation self p = Raise "ValueError".
Proof.
  intros Hi Hc Hge Hno Hlen.
  rewrite (apply_rank1 self p i1 c1 Hi Hc).
  apply Qltb_ge in Hge. rewrite Hge.
  unfold _detect_bias_patterns.
  rewrite (known_bias_not_engaged self p _ c1 Hno). simpl.
  unfold dominance_check.
  destruct p as [|x [|y t]]; try discriminate Hlen.
  reflexivity.
Qed.

(** The three ways in which a call can return. *)
Lemma apply_cases (self : PestDetectionService) (p : Np.ndarray)
    (r : prediction_result) :
  _apply_bias_mitigation self p = Ok r ->
  exists i1 c1,
    rank_id p 0 = Ok i1 /\ Np.getitem p i1 = Ok c1 /\
    ((c1 < 0.6 /\
      r = {| prediction := "Uncertain - Low Confidence Detection";
             confidence := round4 c1;
             status := "low_confidence";
             alternative_predictions := Some (low_alternatives self p);
             original_prediction := None;
             note := None |})
     \/ (0.7 < c1 /\ is_problematic (name_of self i1) = true /\
         exists i2 i3 c2 c3,
           rank_id p 1 = Ok i2 /\ Np.getitem p i2 = Ok c2 /\
           rank_id p 2 = Ok i3 /\ Np.getitem p i3 = Ok c3 /\
           r = {| prediction :=
                    if Qltb 0.9 c1
                    then "Uncertain Detection - Possibly " ++ name_of self i2
                           ++ " or " ++ name_of self i3
                    else "Multiple Possibilities: " ++ name_of self i1 ++ ", "
                           ++ name_of self i2 ++ ", or " ++ name_of self i3;
                  confidence :=
                    round4 (if Qltb 0.9 c1 then py_max c2 c3
                            else known_mean c1 c2 c3);
                  status := "bias_adjusted";
                  alternative_predictions := None;
                  original_prediction := Some (name_of self i1);
                  note :=
                    Some (if Qltb 0.9 c1
                          then "Model shows strong bias towards "
                                 ++ name_of self i1
                                 ++ ". Suggesting alternatives based on secondary predictions."
                          else "Detected potential bias pattern. Providing multiple possibilities.") |})
     \/ (0.6 <= c1 /\
         (is_problematic (name_of self i1) = false \/ c1 <= 0.7) /\
         exists i2 c2,
           rank_id p 1 = Ok i2 /\ Np.getitem p i2 = Ok c2 /\
           Ok r =
           if dominance_gap c1 c2 then
             Ok {| prediction :=
                     "High Confidence with Uncertainty: Likely "
                       ++ name_of self i1 ++ " but consider "
                       ++ name_of self i2;
                   confidence := round4 (dominance_mean c1 c2);
                   status := "bias_adjusted";
                   alternative_predictions := None;
                   original_prediction := Some (name_of self i1);
                   note := Some "Detected unusually high confidence gap - adding uncertainty to prevent overconfidence." |}
           else if Qltb 0.95 c1 then
             Ok {| prediction := name_of self i1;
                   confidence := round4 c1;
                   status := "high_confidence_with_alternatives";
                   alternative_predictions := Some (low_alternatives self p);
                   original_prediction := None;
                   note := Some "Very high confidence - consider alternative possibilities" |}
           else
             Ok {| prediction := name_of self i1;
                   confidence := round4 c1;
                   status := "normal";
                   alternative_predictions := None;
                   original_prediction := None;
                   note := None |})).
Proof.
  intro Hr.
  assert (Hlen : (0 < List.length p)%nat).
  { destruct p; [rewrite apply_empty in Hr; discriminate|simpl; lia]. }
  destruct (rank_confidence_defined p 0 Hlen) as [i1 [c1 [Hi1 [Hc1 _]]]].
  exists i1, c1. split; [exact Hi1|]. split; [exact Hc1|].
  destruct (Qlt_le_dec c1 0.6) as [Hlt|Hge].
  { left. split; [exact Hlt|].
    rewrite (rule_low self p i1 c1 Hi1 Hc1 Hlt) in Hr.
    inversion Hr. reflexivity. }
  right.
  assert (Hdec : (is_problematic (name_of self i1) = true /\ 0.7 < c1)
                 \/ (is_problematic (name_of self i1) = false \/ c1 <= 0.7)).
  { destruct (is_problematic (name_of self i1)); [|right; left; reflexivity].
    destruct (Qlt_le_dec 0.7 c1); [left; split; auto|right; right; assumption]. }
  destruct Hdec as [[Hflag Hgt]|Hno].
  - left. split; [exact Hgt|]. split; [exact Hflag|].
    destruct (Nat.lt_ge_cases (List.length p) 3) as [Hshort|Hlong].
    { rewrite (apply_short_known self p i1 c1 Hi1 Hc1 Hflag Hgt Hshort) in Hr.
      discriminate. }
    destruct (rank_confidence_defined p 1) as [i2 [c2 [Hi2 [Hc2 _]]]]; [lia|].
    destruct (rank_confidence_defined p 2) as [i3 [c3 [Hi3 [Hc3 _]]]]; [lia|].
    exists i2, i3, c2, c3. repeat (split; [assumption|]).
    rewrite (rule_known self p i1 i2 i3 c1 c2 c3 Hi1 Hc1 Hi2 Hc2 Hi3 Hc3
               Hflag Hgt) in Hr.
    destruct (Qltb 0.9 c1); inversion Hr; reflexivity.
  - right. split; [exact Hge|]. split; [exact Hno|].
    destruct (Nat.lt_ge_cases (List.length p) 2) as [Hshort|Hlong].
    { assert (H1 : List.length p = 1%nat) by lia.
      rewrite (apply_single self p i1 c1 Hi1 Hc1 Hge Hno H1) in Hr.
      discriminate. }
    destruct (rank_confidence_defined p 1) as [i2 [c2 [Hi2 [Hc2 _]]]]; [lia|].
    exists i2, c2. split; [exact Hi2|]. split; [exact Hc2|].
    rewrite <- Hr.
    apply (rule_after_known self p i1 i2 c1 c2 Hi1 Hc1 Hi2 Hc2 Hge Hno).
Qed.

End Failure.

(** The exact failure conditions: a call raises exactly on the empty
    vector, on a one-entry vector whose confidence is at least 0.6, and on a
    two-entry vector whose top label is flagged with confidence above
    0.7. *)
Theorem apply_raises_iff `{sorter : Np.ArgSort}
    (self : PestDetectionService) (p : Np.ndarray) :
  (exists cls, _apply_bias_mitigation self p = Raise cls)
  <-> (p = []
       \/ exists i1 c1,
            rank_id p 0 = Ok i1 /\ rank_confidence p 0 = Ok c1 /\ 0.6 <= c1
            /\ (List.length p = 1%nat
                \/ (List.length p = 2%nat
                    /\ is_problematic (name_of self i1) = true
                    /\ 0.7 < c1))).
Proof.
  split.
  - intros [cls Hraise].
    destruct p as [|x t]; [left; reflexivity|right].
    destruct (rank_confidence_defined (x :: t) 0) as [i1 [c1 [Hi1 [Hc1 H1]]]];
      [simpl; lia|].
    exists i1, c1. split; [exact Hi1|]. split; [exact H1|].
    destruct (Qlt_le_dec c1 0.6) as [Hlt|Hge].
    { rewrite (rule_low self _ i1 c1 Hi1 Hc1 Hlt) in Hraise. discriminate. }
    split; [exact Hge|].
    destruct (Nat.lt_ge_cases (List.length (x :: t)) 3) as [Hshort|Hlong].
    + destruct t as [|y [|z t]]; [left; reflexivity| |simpl in Hshort; lia].
      right. split; [reflexivity|].
      destruct (rank_confidence_defined [x; y] 1) as [i2 [c2 [Hi2 [Hc2 _]]]];
        [simpl; lia|].
      destruct (is_problematic (name_of self i1)) eqn:Hflag.
      * split; [reflexivity|].
        destruct (Qlt_le_dec 0.7 c1) as [Hgt|Hle]; [exact Hgt|].
        exfalso.
        rewrite (rule_after_known self _ i1 i2 c1 c2 Hi1 Hc1 Hi2 Hc2 Hge
                   (or_intror Hle)) in Hraise.
        destruct (dominance_gap c1 c2);
          [|destruct (Qltb 0.95 c1)]; discriminate.
      * exfalso.
        rewrite (rule_after_known self _ i1 i2 c1 c2 Hi1 Hc1 Hi2 Hc2 Hge
                   (or_introl Hflag)) in Hraise.
        destruct (dominance_gap c1 c2);
          [|destruct (Qltb 0.95 c1)]; discriminate.
    + exfalso. destruct (apply_returns self (x :: t) Hlong) as [r Hr].
      congruence.
  - intros [Hnil|[i1 [c1 [Hi1 [H1 [Hge Hcase]]]]]].
    + subst p. exists "IndexError". apply apply_empty.
    + apply rank_confidence_inv in H1. destruct H1 as [j1 [Hj1 [Hc1 _]]].
      assert (j1 = i1) by congruence. subst j1.
      destruct Hcase as [Hone|[Htwo [Hflag Hgt]]].
      * destruct (is_problematic (name_of self i1)) eqn:Hflag.
        -- destruct (Qlt_le_dec 0.7 c1) as [Hgt|Hle].
           ++ exists "IndexError".
              apply (apply_short_known self p i1 c1 Hi1 Hc1 Hflag Hgt). lia.
           ++ exists "ValueError".
              apply (apply_single self p i1 c1 Hi1 Hc1 Hge (or_intror Hle) Hone).
        -- exists "ValueError".
           apply (apply_single self p i1 c1 Hi1 Hc1 Hge (or_introl Hflag) Hone).
      * exists "IndexError".
        apply (apply_short_known self p i1 c1 Hi1 Hc1 Hflag Hgt). lia.
Qed.

Lemma apply_raises_iff_witness :
  exists cls, _apply_bias_mitigation service_22 [0.7] = Raise cls.
Proof.
  apply (proj2 (apply_raises_iff (sorter := stable_sorter) service_22 [0.7])).
  right. exists 0%nat, 0.7.
  split; [reflexivity|]. split; [reflexivity|].
  split; [discriminate|]. left. reflexivity.
Defined.

(** ** Base64 uploads *)

Section Base64Facts.

Context `{sorter : Np.ArgSort}.

Variable preprocess_image :
  PestDetectionService -> list Byte.byte -> result Np.ndarray.

Variable b64decode : string -> result (list Byte.byte).

Lemma prefix_append (p s t : string) :
  String.prefix p s = true -> String.prefix p (s ++ t) = true.
Proof.
  revert s. induction p as [|a p IH]; intros s H;
    [destruct (s ++ t)%string; reflexivity|].
  destruct s as [|b s]; [discriminate|]. simpl in *.
  destruct (ascii_dec a b); [apply IH; exact H|discriminate].
Qed.

Lemma append_assoc (a b c : string) : ((a ++ b) ++ c = a ++ (b ++ c))%string.
Proof.
  induction a as [|x a IH]; simpl; [reflexivity|]. rewrite IH. reflexivity.
Qed.

Lemma append_empty (a : string) : (a ++ EmptyString)%string = a.
Proof.
  induction a as [|x a IH]; simpl; [reflexivity|]. rewrite IH. reflexivity.
Qed.

Lemma str_split_no_sep (sep : ascii) (cur s : string) :
  str_has sep s = false -> str_split_from sep cur s = [(cur ++ s)%string].
Proof.
  revert cur. induction s as [|c t IH]; intros cur H; simpl.
  - rewrite append_empty. reflexivity.
  - simpl in H. apply orb_false_iff in H. destruct H as [Hc Ht].
    rewrite Hc. rewrite (IH _ Ht), append_assoc. reflexivity.
Qed.

Lemma str_split_first (sep : ascii) (cur h rest : string) :
  str_has sep h = false ->
  str_split_from sep cur (h ++ String sep rest)
  = (cur ++ h)%string :: str_split_from sep EmptyString rest.
Proof.
  revert cur. induction h as [|c t IH]; intros cur H; simpl.
  - rewrite Ascii.eqb_refl, append_empty. reflexivity.
  - simpl in H. apply orb_false_iff in H. destruct H as [Hc Ht].
    rewrite Hc. rewrite (IH _ Ht), append_assoc. reflexivity.
Qed.

(** A header without a comma ends at the first comma; what follows up to
    the next comma is the payload. *)
Lemma header_payload (h s : string) :
  str_has ","%char h = false -> str_has ","%char s = false ->
  Np.getitem (str_split (h ++ String ","%char s) ","%char) 1 = Ok s.
Proof.
  intros Hh Hs. unfold str_split.
  rewrite (str_split_first _ _ h s Hh).
  rewrite (str_split_no_sep _ _ s Hs). reflexivity.
Qed.

Lemma no_comma_no_payload (s : string) :
  str_has ","%char s = false ->
  Np.getitem (str_split s ","%char) 1 = Raise "IndexError".
Proof.
  intro Hs. unfold str_split. rewrite (str_split_no_sep _ _ s Hs).
  reflexivity.
Qed.

End Base64Facts.

(** A data-URL header is ignored: for a header that starts with
    "data:image" and a comma-free payload that does not, the image
    "header,payload" is preprocessed and predicted exactly as the bare
    payload is. *)
Theorem data_url_header_ignored `{sorter : Np.ArgSort}
    (preprocess_image : PestDetectionService -> list Byte.byte
                        -> result Np.ndarray)
    (b64decode : string -> result (list Byte.byte))
    (self : PestDetectionService) (header payload : string) :
  PyStr.startswith header "data:image" = true ->
  str_has ","%char header = false ->
  str_has ","%char payload = false ->
  PyStr.startswith payload "data:image" = false ->
  preprocess_base64_image preprocess_image b64decode self
    (header ++ String ","%char payload)
  = preprocess_base64_image preprocess_image b64decode self payload
  /\ predict_from_base64 preprocess_image b64decode self
       (header ++ String ","%char payload)
     = predict_from_base64 preprocess_image b64decode self payload.
Proof.
  intros Hh Hch Hcp Hp.
  assert (E : preprocess_base64_image preprocess_image b64decode self
                (header ++ String ","%char payload)
              = preprocess_base64_image preprocess_image b64decode self
                  payload).
  { unfold preprocess_base64_image, PyStr.startswith in *.
    rewrite (prefix_append _ _ _ Hh), Hp.
    rewrite (header_payload header payload Hch Hcp). reflexivity. }
  split; [exact E|].
  unfold predict_from_base64. rewrite E. reflexivity.
Qed.

Lemma data_url_header_ignored_witness :
  predict_from_base64 preprocess_any (fun _ => Ok [Byte.x00]) service_22
    "data:image/png;base64,iVBORw0KGgo="
  = predict_from_base64 preprocess_any (fun _ => Ok [Byte.x00]) service_22
      "iVBORw0KGgo=".
Proof.
  exact (proj2 (data_url_header_ignored (sorter := stable_sorter)
                  preprocess_any (fun _ => Ok [Byte.x00]) service_22
                  "data:image/png;base64" "iVBORw0KGgo="
                  eq_refl eq_refl eq_refl eq_refl)).
Defined.

(** A string that starts with "data:image" and has no comma is never
    decoded: preprocessing raises ValueError, the service answers with the
    error dict and the endpoint with status 500. *)
Theorem data_url_without_comma `{sorter : Np.ArgSort}
    (preprocess_image : PestDetectionService -> list Byte.byte
                        -> result Np.ndarray)
    (b64decode : string -> result (list Byte.byte))
    (self : PestDetectionService) (base64_image : string) :
  PyStr.startswith base64_image "data:image" = true ->
  str_has ","%char base64_image = false ->
  preprocess_base64_image preprocess_image b64decode self base64_image
  = Raise "ValueError"
  /\ predict_from_base64 preprocess_image b64decode self base64_image
     = ErrorReply
  /\ detect_disease_from_base64 preprocess_image b64decode
       [("base64_image", PyStr base64_image)] self
     = HTTPException 500.
Proof.
  intros Hp Hc.
  assert (E : preprocess_base64_image preprocess_image b64decode self
                base64_image = Raise "ValueError").
  { unfold preprocess_base64_image. rewrite Hp.
    rewrite (no_comma_no_payload base64_image Hc). reflexivity. }
  assert (E2 : predict_from_base64 preprocess_image b64decode self
                 base64_image = ErrorReply).
  { unfold predict_from_base64. rewrite E. reflexivity. }
  split; [exact E|]. split; [exact E2|].
  unfold detect_disease_from_base64. cbn [py_in py_get].
  rewrite String.eqb_refl. cbn [orb negb].
  destruct (String.eqb base64_image EmptyString) eqn:Ee.
  - apply String.eqb_eq in Ee. subst base64_image. discriminate Hp.
  - rewrite E2. reflexivity.
Qed.

Lemma data_url_without_comma_witness :
  detect_disease_from_base64 preprocess_any (fun _ => Ok [Byte.x00])
    [("base64_image", PyStr "data:image/png;base64")] service_22
  = HTTPException 500.
Proof.
  exact (proj2 (proj2 (data_url_without_comma (sorter := stable_sorter)
                         preprocess_any (fun _ => Ok [Byte.x00]) service_22
                         "data:image/png;base64" eq_refl eq_refl))).
Defined.

(* ------------------------------------------------------------------ *)
(** * Labels *)

(** ** str(n) is a non-empty string of digits *)

Lemma uint_digits (d : Decimal.uint) :
  all_digits (NilEmpty.string_of_uint d) = true.
Proof. induction d; simpl; auto. Qed.

Lemma of_nat_digits (n : nat) :
  all_digits (PyStr.of_nat n) = true
  /\ exists c t, PyStr.of_nat n = String c t.
Proof.
  unfold PyStr.of_nat, NilZero.string_of_uint.
  destruct (Nat.to_uint n) as [|d|d|d|d|d|d|d|d|d|d] eqn:E;
    (split; [first [reflexivity | exact (uint_digits _)]
            |simpl; eexists; eexists; reflexivity]).
Qed.

(** ** The string methods on plain text *)

Lemma digit_chars (c : ascii) :
  is_digit c = true ->
  PyStr.is_space c = false /\ PyStr.lower_char c = c /\ PyStr.upper_char c = c
  /\ Ascii.eqb c "_" = false /\ Ascii.eqb c "(" = false
  /\ Ascii.eqb c ")" = false /\ Ascii.eqb c "T" = false.
Proof.
  destruct c as [[] [] [] [] [] [] [] []]; intro H;
    try discriminate H; repeat split; reflexivity.
Qed.

Lemma str_has_append (c : ascii) (s t : string) :
  str_has c (s ++ t) = str_has c s || str_has c t.
Proof.
  induction s as [|a s IH]; simpl; [reflexivity|].
  rewrite IH. apply orb_assoc.
Qed.

Lemma prefix_absent (c : ascii) (old s : string) :
  str_has c s = false -> String.prefix (String c old) s = false.
Proof.
  destruct s as [|a t]; [reflexivity|]. simpl. intro H.
  apply orb_false_iff in H. destruct H as [Ha _].
  destruct (ascii_dec c a) as [E|E]; [|reflexivity].
  subst a. rewrite Ascii.eqb_refl in Ha. discriminate.
Qed.

(** Replacing a text whose first character does not occur changes
    nothing. *)
Lemma replace_absent (c : ascii) (old new s : string) :
  str_has c s = false -> PyStr.replace s (String c old) new = s.
Proof.
  unfold PyStr.replace. induction s as [|a t IH]; intro H; [reflexivity|].
  cbn [PyStr.replace_from].
  rewrite (prefix_absent c old (String a t) H).
  simpl in H. apply orb_false_iff in H. destruct H as [_ Ht].
  rewrite (IH Ht). reflexivity.
Qed.

Lemma digits_has (c : ascii) (s : string) :
  all_digits s = true -> is_digit c = false -> str_has c s = false.
Proof.
  intros Hs Hc. induction s as [|a t IH]; [reflexivity|].
  cbn [all_digits str_has] in *.
  apply andb_true_iff in Hs. destruct Hs as [Ha Ht].
  rewrite (IH Ht), orb_false_r.
  destruct (Ascii.eqb a c) eqn:E; [|reflexivity].
  apply Ascii.eqb_eq in E. subst a. rewrite Hc in Ha. discriminate Ha.
Qed.

Lemma split_digits (cur s : string) :
  all_digits s = true ->
  PyStr.split_from cur s
  = if String.eqb (cur ++ s) EmptyString then [] else [(cur ++ s)%string].
Proof.
  revert cur. induction s as [|a t IH]; intros cur H.
  - simpl. rewrite append_empty. reflexivity.
  - cbn [all_digits] in H. apply andb_true_iff in H. destruct H as [Ha Ht].
    cbn [PyStr.split_from].
    destruct (digit_chars a Ha) as [Hsp _]. rewrite Hsp.
    rewrite (IH _ Ht), append_assoc. reflexivity.
Qed.

Lemma lower_digits (s : string) : all_digits s = true -> PyStr.lower s = s.
Proof.
  induction s as [|a t IH]; intro H; [reflexivity|].
  cbn [all_digits] in H. apply andb_true_iff in H. destruct H as [Ha Ht].
  simpl. destruct (digit_chars a Ha) as [_ [Hl _]].
  rewrite Hl, (IH Ht). reflexivity.
Qed.

Lemma format_word_digits (c : ascii) (t : string) :
  all_digits (String c t) = true -> format_word (String c t) = String c t.
Proof.
  intro H. unfold format_word.
  rewrite (lower_digits _ H).
  assert (Hmem : PyStr.mem (String c t)
                   ["and"; "or"; "the"; "of"; "in"; "on"; "at"; "to"; "for"]
                 = false).
  { cbn [all_digits] in H. apply andb_true_iff in H. destruct H as [Hc _].
    destruct c as [[] [] [] [] [] [] [] []]; try discriminate Hc;
      reflexivity. }
  rewrite Hmem.
  assert (Hpar : forall p, is_digit p = false ->
                   PyStr.contains (String p EmptyString) (String c t) = false).
  { intros p Hp. generalize (String c t) H. clear - Hp. intros s Hs.
    induction s as [|a u IH]; [reflexivity|].
    cbn [all_digits] in Hs. apply andb_true_iff in Hs. destruct Hs as [Ha Hu].
    cbn [PyStr.contains]. rewrite (IH Hu), orb_false_r.
    apply prefix_absent. simpl. rewrite orb_false_iff. split.
    - destruct (Ascii.eqb a p) eqn:E; [|reflexivity].
      apply Ascii.eqb_eq in E. subst a. rewrite Hp in Ha. discriminate Ha.
    - apply digits_has; assumption. }
  rewrite (Hpar "("%char eq_refl), (Hpar ")"%char eq_refl). simpl.
  cbn [all_digits] in H. apply andb_true_iff in H. destruct H as [Hc Ht].
  destruct (digit_chars c Hc) as [_ [_ [Hu _]]].
  rewrite Hu, (lower_digits t Ht). reflexivity.
Qed.

Lemma rev_string_twice (s a b : string) :
  PyStr.rev_string b (PyStr.rev_string a s) = PyStr.rev_string (s ++ b) a.
Proof.
  revert a b. induction s as [|c t IH]; intros a b; simpl; [reflexivity|].
  rewrite IH. reflexivity.
Qed.

Lemma rev_string_last (s acc : string) (c : ascii) :
  PyStr.rev_string acc (s ++ String c EmptyString)
  = String c (PyStr.rev_string acc s).
Proof.
  revert acc. induction s as [|a t IH]; intro acc; simpl; [reflexivity|].
  apply IH.
Qed.

(** Text that ends in a non-blank character has nothing to strip on the
    right. *)
Lemma rstrip_last (s : string) (c : ascii) :
  PyStr.is_space c = false ->
  PyStr.rstrip (s ++ String c EmptyString) = (s ++ String c EmptyString)%string.
Proof.
  intro Hc. unfold PyStr.rstrip.
  rewrite rev_string_last. cbn [PyStr.lstrip]. rewrite Hc.
  rewrite <- rev_string_last.
  rewrite rev_string_twice. simpl. apply append_empty.
Qed.

Lemma digits_last (s : string) (c : ascii) :
  all_digits (String c s) = true ->
  exists s' c', String c s = (s' ++ String c' EmptyString)%string
                /\ is_digit c' = true.
Proof.
  revert c. induction s as [|a t IH]; intros c H.
  - exists EmptyString, c. split; [reflexivity|].
    cbn [all_digits] in H. apply andb_true_iff in H. tauto.
  - cbn [all_digits] in H. apply andb_true_iff in H. destruct H as [Hc Ht].
    destruct (IH a Ht) as [s' [c' [E Hc']]].
    exists (String c s'), c'. simpl. rewrite <- E. split; [reflexivity|exact Hc'].
Qed.

Lemma contains_absent (c : ascii) (sub s : string) :
  str_has c s = false -> PyStr.contains (String c sub) s = false.
Proof.
  induction s as [|a t IH]; intro H; [reflexivity|].
  cbn [PyStr.contains]. rewrite (prefix_absent c sub _ H).
  cbn [str_has] in H. apply orb_false_iff in H. destruct H as [_ Ht].
  rewrite (IH Ht). reflexivity.
Qed.

(** Cleaning leaves "Unknown Disease <digits>" as it is. *)
Lemma clean_unknown (d : string) :
  all_digits d = true -> (exists c t, d = String c t) ->
  _clean_disease_name ("Unknown Disease " ++ d) = ("Unknown Disease " ++ d)%string.
Proof.
  intros Hd [c [t Ed]].
  assert (Hno : forall x, is_digit x = false ->
                  str_has x "Unknown Disease " = false ->
                  str_has x ("Unknown Disease " ++ d) = false).
  { intros x Hx Hp. rewrite str_has_append, Hp. simpl.
    apply digits_has; assumption. }
  unfold _clean_disease_name.
  rewrite (replace_absent "_"%char "__" " - " _ (Hno "_"%char eq_refl eq_refl)).
  rewrite (replace_absent "_"%char EmptyString " " _
             (Hno "_"%char eq_refl eq_refl)).
  rewrite (replace_absent "("%char "including sour)" EmptyString _
             (Hno "("%char eq_refl eq_refl)).
  rewrite (replace_absent "T"%char "wo-spotted spider mite"
             "Two-spotted Spider Mite" _ (Hno "T"%char eq_refl eq_refl)).
  assert (Hsplit : PyStr.split ("Unknown Disease " ++ d)
                   = ["Unknown"; "Disease"; d]).
  { unfold PyStr.split.
    change (PyStr.split_from EmptyString ("Unknown Disease " ++ d))
      with ("Unknown" :: "Disease" :: PyStr.split_from EmptyString d).
    rewrite (split_digits EmptyString d Hd). subst d. reflexivity. }
  rewrite Hsplit. cbn [map].
  change (format_word "Unknown") with "Unknown".
  change (format_word "Disease") with "Disease".
  assert (Hfw : format_word d = d).
  { subst d. apply format_word_digits. exact Hd. }
  rewrite Hfw.
  change (PyStr.join " " ["Unknown"; "Disease"; d])
    with ("Unknown Disease " ++ d)%string.
  unfold PyStr.strip.
  change (PyStr.lstrip ("Unknown Disease " ++ d))
    with ("Unknown Disease " ++ d)%string.
  subst d. destruct (digits_last t c Hd) as [s' [c' [E Hc']]].
  rewrite E, <- append_assoc.
  apply rstrip_last. apply (digit_chars c' Hc').
Qed.

Lemma name_of_absent (self : PestDetectionService) (class_id : nat) :
  key_absent (disease_mapping self) class_id = true ->
  name_of self class_id = ("Unknown Disease " ++ PyStr.of_nat class_id)%string
  /\ is_problematic (name_of self class_id) = false.
Proof.
  intro Habs.
  assert (Hraw : raw_name_of self class_id
                 = ("Unknown Disease " ++ PyStr.of_nat class_id)%string).
  { unfold raw_name_of. unfold key_absent in Habs.
    induction (disease_mapping self) as [|[k v] rest IH]; [reflexivity|].
    cbn [forallb fst] in Habs. apply andb_true_iff in Habs.
    destruct Habs as [Hk Hrest]. cbn [dict_get].
    apply negb_true_iff in Hk. rewrite Hk. apply IH. exact Hrest. }
  destruct (of_nat_digits class_id) as [Hd Hne].
  assert (Hname : name_of self class_id
                  = ("Unknown Disease " ++ PyStr.of_nat class_id)%string).
  { unfold name_of. rewrite Hraw. apply clean_unknown; assumption. }
  split; [exact Hname|].
  rewrite Hname. generalize (PyStr.of_nat class_id) Hd. clear.
  intros d Hd. unfold is_problematic, problematic_predictions.
  cbn [existsb].
  assert (Hc : forall p, PyStr.contains (String "C" p) ("Unknown Disease " ++ d)
                         = false).
  { intro p. apply contains_absent. rewrite str_has_append.
    rewrite (digits_has "C"%char d Hd eq_refl). reflexivity. }
  assert (Hp : forall p, PyStr.contains (String "P" p) ("Unknown Disease " ++ d)
                         = false).
  { intro p. apply contains_absent. rewrite str_has_append.
    rewrite (digits_has "P"%char d Hd eq_refl). reflexivity. }
  rewrite !Hc, Hp. reflexivity.
Qed.

(** For a class id that is no key of [disease_mapping], the label is
    "Unknown Disease " followed by the id in decimal, unchanged by the
    cleaning, and it is no known-bias label. *)
Theorem unknown_class_label (self : PestDetectionService) (class_id : nat) :
  key_absent (disease_mapping self) class_id = true ->
  name_of self class_id = ("Unknown Disease " ++ PyStr.of_nat class_id)%string
  /\ is_problematic (name_of self class_id) = false.
Proof. apply name_of_absent. Qed.

Lemma unknown_class_label_witness :
  name_of service_22 25 = "Unknown Disease 25".
Proof.
  exact (proj1 (unknown_class_label service_22 25 eq_refl)).
Defined.

Lemma names_22_never_problematic (self : PestDetectionService) (i : nat) :
  disease_mapping self = disease_mapping_22 ->
  is_problematic (name_of self i) = false.
Proof.
  intro Hmap. destruct (Nat.lt_ge_cases i 22) as [Hlt|Hge].
  - apply names_22_not_problematic; assumption.
  - apply name_of_absent. rewrite Hmap.
    do 22 (destruct i as [|i]; [lia|]). reflexivity.
Qed.

(** With the mapping that the constructor installs, the known-pattern
    branch is dead for every input, of any length and with any values, also
    for an output longer than the mapping: a "bias_adjusted" result always
    carries the note of the dominance-gap rule, and its confidence is the
    float32 mean of the two leading confidences, rounded to four
    decimals. *)
Theorem known_bias_branch_dead `{sorter : Np.ArgSort}
    (self : PestDetectionService) (p : Np.ndarray) (r : prediction_result) :
  disease_mapping self = disease_mapping_22 ->
  _apply_bias_mitigation self p = Ok r ->
  status r = "bias_adjusted" ->
  note r = Some "Detected unusually high confidence gap - adding uncertainty to prevent overconfidence."
  /\ exists c1 c2,
       rank_confidence p 0 = Ok c1 /\ rank_confidence p 1 = Ok c2
       /\ F32.round 0.8 < c1 /\ F32.round 0.6 < F32.sub c1 c2
       /\ confidence r = round4 (F32.div (F32.add c1 c2) 2).
Proof.
  intros Hmap Hr Hs.
  destruct (apply_cases self p r Hr) as [i1 [c1 [Hi1 [Hc1 Hcase]]]].
  pose proof (names_22_never_problematic self i1 Hmap) as Hflag.
  destruct Hcase as [[_ E]|[[_ [Hf _]]|[_ [_ [i2 [c2 [Hi2 [Hc2 E]]]]]]]].
  - subst r. discriminate Hs.
  - rewrite Hflag in Hf. discriminate Hf.
  - destruct (dominance_gap c1 c2) eqn:Eg.
    + injection E as E. subst r. cbn [note confidence].
      split; [reflexivity|].
      apply dominance_gap_iff in Eg. destruct Eg as [Ea Eb].
      exists c1, c2. unfold rank_confidence. rewrite Hi1, Hi2. simpl.
      repeat split; assumption.
    + destruct (Qltb 0.95 c1); inversion E; subst r; discriminate Hs.
Qed.

Lemma known_bias_branch_dead_witness :
  exists r,
    _apply_bias_mitigation service_22 vec_mean = Ok r
    /\ note r = Some "Detected unusually high confidence gap - adding uncertainty to prevent overconfidence."
    /\ confidence r = 4408 # 10000.
Proof.
  assert (E : exists r,
             _apply_bias_mitigation (sorter := stable_sorter)
               service_22 vec_mean = Ok r
             /\ status r = "bias_adjusted"
             /\ confidence r = 4408 # 10000)
    by (eexists; split; [vm_compute; reflexivity|split; reflexivity]).
  destruct E as [r [E [Es Ec]]]. exists r. split; [exact E|].
  split; [|exact Ec].
  exact (proj1 (known_bias_branch_dead (sorter := stable_sorter)
                  service_22 vec_mean r eq_refl E Es)).
Defined.

(** ** Probability vectors and the four statuses *)

(** On a float32 vector of non-negative entries that sum to at most 1.3, so
    on every probability vector, rule 4 is out of reach: no call returns
    the status "high_confidence_with_alternatives".  The rule needs a rank-1
    confidence above 0.95 with a rank-2 confidence of at least 0.35. *)
Theorem probability_never_high_confidence `{sorter : Np.ArgSort}
    (self : PestDetectionService) (p : Np.ndarray) (r : prediction_result) :
  Np.float32_array p ->
  nonneg p -> Qsum p <= 1.3 ->
  _apply_bias_mitigation self p = Ok r ->
  status r <> "high_confidence_with_alternatives".
Proof.
  intros Hf Hp Hsum Hr.
  destruct (apply_cases self p r Hr) as [i1 [c1 [Hi1 [Hc1 Hcase]]]].
  destruct Hcase as [[_ E]|[[_ [_ [i2 [i3 [c2 [c3 [_ [_ [_ [_ E]]]]]]]]]]
                          |[Hge [_ [i2 [c2 [Hi2 [Hc2 E]]]]]]]].
  - subst r. discriminate.
  - subst r. discriminate.
  - pose proof (rank12_le_Qsum p i1 i2 c1 c2 Hp Hi1 Hc1 Hi2 Hc2) as Hle.
    assert (Ex : F32.round c1 == c1).
    { apply getitem_Ok in Hc1. apply nth_error_In in Hc1.
      exact (proj1 (Forall_forall _ p) Hf c1 Hc1). }
    destruct (dominance_gap c1 c2) eqn:Eg.
    + injection E as E. subst r. discriminate.
    + destruct (Qltb 0.95 c1) eqn:Ec.
      * exfalso. apply Qltb_lt in Ec.
        assert (Hg : dominance_gap c1 c2 = true)
          by (apply gap_of_peak; [exact Ex|exact Ec|lra]).
        rewrite Hg in Eg. discriminate Eg.
      * injection E as E. subst r. discriminate.
Qed.

Lemma probability_never_high_confidence_witness :
  exists r, _apply_bias_mitigation service_22 vec_peak = Ok r
            /\ status r <> "high_confidence_with_alternatives".
Proof.
  eexists. split; [vm_compute; reflexivity|].
  apply (probability_never_high_confidence (sorter := stable_sorter)
           service_22 vec_peak).
  - unfold Np.float32_array, vec_peak.
    repeat constructor; vm_compute; reflexivity.
  - unfold nonneg, vec_peak. repeat constructor; discriminate.
  - vm_compute. discriminate.
  - vm_compute. reflexivity.
Defined.

(** Over the 22-class taxonomy a probability vector (22 non-negative
    float32 entries that sum to at most 1) is classified by its rank-1
    confidence alone: below 0.6 "low_confidence"; from 0.6 up to the
    float32 value of 0.8, which is 0.800000011920929, "normal" with the
    cleaned rank-1 label; above that value "bias_adjusted". *)
Theorem probability_three_bands `{sorter : Np.ArgSort}
    (self : PestDetectionService) (p : Np.ndarray) :
  disease_mapping self = disease_mapping_22 ->
  List.length p = 22%nat ->
  Np.float32_array p ->
  nonneg p -> Qsum p <= 1 ->
  exists i1 c1 r,
    rank_id p 0 = Ok i1 /\ rank_confidence p 0 = Ok c1
    /\ _apply_bias_mitigation self p = Ok r
    /\ (c1 < 0.6 -> status r = "low_confidence")
    /\ (0.6 <= c1 -> c1 <= F32.round 0.8 ->
        status r = "normal" /\ prediction r = name_of self i1
        /\ confidence r = round4 c1)
    /\ (F32.round 0.8 < c1 ->
        status r = "bias_adjusted"
        /\ original_prediction r = Some (name_of self i1)).
Proof.
  intros Hmap Hlen Hf Hp Hsum.
  destruct (rank_confidence_defined p 0) as [i1 [c1 [Hi1 [Hc1 H1]]]]; [lia|].
  destruct (rank_confidence_defined p 1) as [i2 [c2 [Hi2 [Hc2 H2]]]]; [lia|].
  assert (Hflag : is_problematic (name_of self i1) = false).
  { apply names_22_not_problematic; [exact Hmap|].
    rewrite <- Hlen. eapply rank_id_lt. exact Hi1. }
  pose proof (rank12_le_Qsum p i1 i2 c1 c2 Hp Hi1 Hc1 Hi2 Hc2) as Hle.
  assert (Ex : F32.round c1 == c1).
  { pose proof Hc1 as Hin. apply getitem_Ok in Hin. apply nth_error_In in Hin.
    exact (proj1 (Forall_forall _ p) Hf c1 Hin). }
  destruct float32_thresholds as [E08 _].
  exists i1, c1.
  destruct (Qlt_le_dec c1 0.6) as [Hlt|Hge].
  - eexists. split; [exact Hi1|]. split; [exact H1|].
    split; [apply (rule_low self p i1 c1 Hi1 Hc1 Hlt)|].
    simpl. split; [reflexivity|].
    split; intros; exfalso; rewrite ?E08 in *; lra.
  - pose proof (rule_after_known self p i1 i2 c1 c2 Hi1 Hc1 Hi2 Hc2 Hge
                  (or_introl Hflag)) as Hr.
    destruct (Qlt_le_dec (F32.round 0.8) c1) as [Hhi|Hmid].
    + assert (Eg : dominance_gap c1 c2 = true)
        by (apply gap_of_probability; [exact Ex|exact Hhi|lra]).
      rewrite Eg in Hr.
      eexists. split; [exact Hi1|]. split; [exact H1|].
      split; [exact Hr|]. simpl.
      split; [intro; exfalso; rewrite E08 in Hhi; lra|].
      split; [intros _ Hc; exfalso; exact (Qlt_not_le _ _ Hhi Hc)|].
      intros _. split; reflexivity.
    + assert (Eg : dominance_gap c1 c2 = false).
      { unfold dominance_gap. apply Qltb_ge in Hmid. rewrite Hmid.
        reflexivity. }
      assert (Ec : Qltb 0.95 c1 = false).
      { apply Qltb_ge. rewrite E08 in Hmid. lra. }
      rewrite Eg, Ec in Hr.
      eexists. split; [exact Hi1|]. split; [exact H1|].
      split; [exact Hr|]. simpl.
      split; [intro; exfalso; lra|].
      split; [intros _ _; repeat split|].
      intro Hc; exfalso; exact (Qlt_not_le _ _ Hc Hmid).
Qed.

(** The witness is the vector whose rank-1 confidence is the float32 value
    of 0.8 itself: it is above 0.8, and the result is "normal" with
    confidence 0.8. *)
Lemma probability_three_bands_witness :
  exists i1 c1 r,
    rank_id vec_float_08 0 = Ok i1 /\ rank_confidence vec_float_08 0 = Ok c1
    /\ _apply_bias_mitigation service_22 vec_float_08 = Ok r
    /\ 0.8 < c1
    /\ status r = "normal" /\ prediction r = name_of service_22 i1
    /\ confidence r = 8000 # 10000.
Proof.
  destruct (probability_three_bands (sorter := stable_sorter)
              service_22 vec_float_08)
    as [i1 [c1 [r [Hi1 [H1 [Hr [_ [Hm _]]]]]]]].
  - reflexivity.
  - reflexivity.
  - unfold Np.float32_array, vec_float_08.
    repeat constructor; vm_compute; reflexivity.
  - unfold nonneg, vec_float_08. repeat constructor; discriminate.
  - vm_compute. discriminate.
  - exists i1, c1, r.
    assert (Ec : c1 = 13421773 # 16777216).
    { assert (E : rank_confidence vec_float_08 0 = Ok (13421773 # 16777216))
        by reflexivity.
      rewrite E in H1. injection H1 as H1. symmetry. exact H1. }
    subst c1.
    destruct Hm as [Hs [Hp Hc]]; [discriminate|vm_compute; discriminate|].
    split; [exact Hi1|]. split; [exact H1|]. split; [exact Hr|].
    split; [reflexivity|]. split; [exact Hs|]. split; [exact Hp|].
    rewrite Hc. reflexivity.
Defined.

(** ** What a result looks like *)

Section ResultShape.

Context `{sorter : Np.ArgSort}.

Lemma py_max_cases (a b : Q) : py_max a b = a \/ py_max a b = b.
Proof. unfold py_max. destruct (Qltb a b); auto. Qed.

Lemma getitem_nonneg (p : Np.ndarray) (i : nat) (c : Q) (P : Q -> Prop) :
  Forall P p -> Np.getitem p i = Ok c -> P c.
Proof.
  intros Hp Hc. apply getitem_Ok in Hc.
  rewrite Forall_forall in Hp. apply Hp. eapply nth_error_In. exact Hc.
Qed.

(** On a service with the constructor's mapping and a float32 vector, the
    value that a result reports before rounding to four decimals is at most
    the rank-1 confidence, and it is not negative when no entry is. *)
Lemma apply_confidence_below (self : PestDetectionService)
    (p : Np.ndarray) (r : prediction_result) (c1 : Q) :
  disease_mapping self = disease_mapping_22 ->
  Np.float32_array p ->
  _apply_bias_mitigation self p = Ok r ->
  rank_confidence p 0 = Ok c1 ->
  exists v, confidence r = round4 v /\ v <= c1 /\ (nonneg p -> 0 <= v).
Proof.
  intros Hmap Hf Hr H1.
  destruct (apply_cases self p r Hr) as [i1 [c1' [Hi1 [Hc1 Hcase]]]].
  assert (H1' : rank_confidence p 0 = Ok c1').
  { unfold rank_confidence. rewrite Hi1. exact Hc1. }
  assert (c1' = c1) by congruence. subst c1'. clear H1'.
  pose proof (names_22_never_problematic self i1 Hmap) as Hflag.
  assert (Hrank1 : exists v, round4 c1 = round4 v /\ v <= c1
                             /\ (nonneg p -> 0 <= v)).
  { exists c1. split; [reflexivity|]. split; [apply Qle_refl|].
    intro Hp. exact (getitem_nonneg p i1 c1 _ Hp Hc1). }
  destruct Hcase as [[_ E]|[[_ [Hfl _]]|[Hge [_ [i2 [c2 [Hi2 [Hc2 E]]]]]]]].
  - subst r. exact Hrank1.
  - rewrite Hflag in Hfl. discriminate Hfl.
  - assert (H2 : rank_confidence p 1 = Ok c2).
    { unfold rank_confidence. rewrite Hi2. exact Hc2. }
    pose proof (rank_confidence_mono p 0 1 c1 c2 (Nat.le_0_l _) H1 H2) as H21.
    destruct (dominance_gap c1 c2) eqn:Eg.
    + injection E as E. subst r. cbn [confidence].
      exists (dominance_mean c1 c2). split; [reflexivity|].
      split.
      * apply mean_le_rank1; [lra| |exact H21].
        exact (getitem_nonneg p i1 c1 _ Hf Hc1).
      * intro Hp. apply mean_nonneg.
        pose proof (getitem_nonneg p i1 c1 _ Hp Hc1) as Hlo1.
        pose proof (getitem_nonneg p i2 c2 _ Hp Hc2) as Hlo2.
        simpl in Hlo1, Hlo2. lra.
    + destruct (Qltb 0.95 c1); injection E as E; subst r; exact Hrank1.
Qed.

Lemma In_firstn {A : Type} (n : nat) (l : list A) (x : A) :
  In x (firstn n l) -> In x l.
Proof.
  intro H. rewrite <- (firstn_skipn n l). apply in_or_app. left. exact H.
Qed.

Lemma StronglySorted_firstn {A : Type} (R : A -> A -> Prop) (n : nat)
    (l : list A) :
  StronglySorted R l -> StronglySorted R (firstn n l).
Proof.
  intro H. revert n. induction H as [|x t Hs IH Hall]; intro n.
  - rewrite firstn_nil. constructor.
  - destruct n as [|n]; simpl; constructor; [apply IH|].
    rewrite Forall_forall in *. intros y Hy. apply Hall.
    eapply In_firstn. exact Hy.
Qed.

Lemma StronglySorted_map_inv {A B : Type} (R : B -> B -> Prop) (g : A -> B)
    (l : list A) :
  StronglySorted R (map g l) -> StronglySorted (fun x y => R (g x) (g y)) l.
Proof.
  induction l as [|x t IH]; simpl; intro H.
  - constructor.
  - inversion H; subst. constructor; [apply IH; assumption|].
    rewrite Forall_map in *. assumption.
Qed.

Lemma sorted_indices_sorted (p : Np.ndarray) :
  StronglySorted (fun i j => nth j p 0 <= nth i p 0) (sorted_indices p).
Proof.
  apply (StronglySorted_map_inv (fun x y => y <= x) (fun i => nth i p 0)).
  unfold sorted_indices, Np.reversed. rewrite map_rev.
  apply StronglySorted_rev_flip. apply Np.argsort_sorted.
Qed.

End ResultShape.

(** Mitigation never reports more than the model's own top confidence: on
    a service with the constructor's mapping and a float32 vector, the
    reported confidence is at most the rank-1 confidence rounded to four
    decimals, and it stays in [0, 1] when every entry of the vector does. *)
Theorem confidence_never_raised `{sorter : Np.ArgSort}
    (self : PestDetectionService) (p : Np.ndarray) (r : prediction_result)
    (c1 : Q) :
  disease_mapping self = disease_mapping_22 ->
  Np.float32_array p ->
  _apply_bias_mitigation self p = Ok r ->
  rank_confidence p 0 = Ok c1 ->
  confidence r <= round4 c1
  /\ (Forall (fun x => 0 <= x) p -> 0 <= confidence r)
  /\ (Forall (fun x => 0 <= x) p -> c1 <= 1 -> confidence r <= 1).
Proof.
  intros Hmap Hf Hr H1.
  destruct (apply_confidence_below self p r c1 Hmap Hf Hr H1)
    as [v [Ec [Hv Hlo]]].
  assert (Hup : confidence r <= round4 c1).
  { rewrite Ec. apply round4_mono. exact Hv. }
  split; [exact Hup|]. split.
  - intro Hp. rewrite Ec.
    apply (Qle_trans _ (round4 0)); [discriminate|].
    apply round4_mono. exact (Hlo Hp).
  - intros Hp Hc1.
    apply (Qle_trans _ (round4 c1)); [exact Hup|].
    apply (Qle_trans _ (round4 1)); [|discriminate].
    apply round4_mono. exact Hc1.
Qed.

(** The witness is the vector of C5's witness: the float32 mean of its two
    leading confidences is reported, 0.4408, below the rank-1 confidence
    0.85. *)
Lemma confidence_never_raised_witness :
  exists r, _apply_bias_mitigation service_22 vec_mean = Ok r
            /\ confidence r = 4408 # 10000
            /\ confidence r <= round4 (14260633 # 16777216).
Proof.
  assert (E : exists r,
             _apply_bias_mitigation (sorter := stable_sorter)
               service_22 vec_mean = Ok r
             /\ confidence r = 4408 # 10000)
    by (eexists; split; [vm_compute; reflexivity|reflexivity]).
  destruct E as [r [E Ec]]. exists r. split; [exact E|]. split; [exact Ec|].
  apply (confidence_never_raised (sorter := stable_sorter)
           service_22 vec_mean r (14260633 # 16777216)).
  - reflexivity.
  - unfold Np.float32_array, vec_mean.
    repeat constructor; vm_compute; reflexivity.
  - exact E.
  - reflexivity.
Defined.

(** Which keys a result carries is fixed by its status: one of four status
    strings; "original_prediction" exactly with "bias_adjusted";
    "alternative_predictions" exactly with "low_confidence" and
    "high_confidence_with_alternatives"; "note" exactly with "bias_adjusted"
    and "high_confidence_with_alternatives". *)
Theorem result_keys_by_status `{sorter : Np.ArgSort}
    (self : PestDetectionService) (p : Np.ndarray) (r : prediction_result) :
  _apply_bias_mitigation self p = Ok r ->
  (status r = "low_confidence"
   /\ original_prediction r = None /\ note r = None
   /\ alternative_predictions r <> None)
  \/ (status r = "bias_adjusted"
      /\ original_prediction r <> None /\ note r <> None
      /\ alternative_predictions r = None)
  \/ (status r = "high_confidence_with_alternatives"
      /\ original_prediction r = None /\ note r <> None
      /\ alternative_predictions r <> None)
  \/ (status r = "normal"
      /\ original_prediction r = None /\ note r = None
      /\ alternative_predictions r = None).
Proof.
  intro Hr.
  destruct (apply_cases self p r Hr) as [i1 [c1 [Hi1 [Hc1 Hcase]]]].
  destruct Hcase as [[_ E]|[[_ [_ [i2 [i3 [c2 [c3 [_ [_ [_ [_ E]]]]]]]]]]
                          |[_ [_ [i2 [c2 [_ [_ E]]]]]]]].
  - subst r. left. simpl. repeat split; discriminate.
  - subst r. right. left. simpl. repeat split; discriminate.
  - destruct (dominance_gap c1 c2).
    + inversion E; subst r. right. left. simpl. repeat split; discriminate.
    + destruct (Qltb 0.95 c1); inversion E; subst r.
      * right. right. left. simpl. repeat split; discriminate.
      * right. right. right. simpl. repeat split; discriminate.
Qed.

Lemma result_keys_by_status_witness :
  exists r, _apply_bias_mitigation service_22 vec_low = Ok r
            /\ status r = "low_confidence"
            /\ alternative_predictions r <> None.
Proof.
  eexists. split; [vm_compute; reflexivity|].
  destruct (result_keys_by_status (sorter := stable_sorter)
              service_22 vec_low _ eq_refl)
    as [[Hs [_ [_ Ha]]]|[[Hs _]|[[Hs _]|[Hs _]]]];
    try discriminate Hs.
  split; assumption.
Defined.

(** The alternatives of a result: min(3, N-1) entries, taken from class ids
    that differ from the rank-1 class and from each other, in
    non-increasing order of confidence, none above the confidence of the
    result itself. *)
Theorem alternatives_shape `{sorter : Np.ArgSort}
    (self : PestDetectionService) (p : Np.ndarray) (r : prediction_result)
    (alts : list alternative) :
  _apply_bias_mitigation self p = Ok r ->
  alternative_predictions r = Some alts ->
  exists i1 ids,
    rank_id p 0 = Ok i1
    /\ alts = map (fun i => {| alt_prediction := name_of self i;
                               alt_confidence := round4 (nth i p 0) |}) ids
    /\ NoDup (i1 :: ids)
    /\ List.length alts = Nat.min 3 (List.length p - 1)
    /\ Forall (fun a => alt_confidence a <= confidence r) alts
    /\ StronglySorted (fun a b => alt_confidence b <= alt_confidence a) alts.
Proof.
  intros Hr Ha.
  destruct (apply_cases self p r Hr) as [i1 [c1 [Hi1 [Hc1 Hcase]]]].
  assert (Halts : alts = low_alternatives self p /\ confidence r = round4 c1).
  { destruct Hcase as [[_ E]|[[_ [_ [i2 [i3 [c2 [c3 [_ [_ [_ [_ E]]]]]]]]]]
                            |[_ [_ [i2 [c2 [_ [_ E]]]]]]]].
    - subst r. simpl in *. inversion Ha. split; reflexivity.
    - subst r. discriminate Ha.
    - destruct (dominance_gap c1 c2).
      + inversion E; subst r. discriminate Ha.
      + destruct (Qltb 0.95 c1); inversion E; subst r;
          [|discriminate Ha].
        simpl in *. inversion Ha. split; reflexivity. }
  destruct Halts as [Ealts Econf]. unfold low_alternatives in Ealts.
  pose proof (sorted_indices_NoDup p) as Hnd.
  pose proof (sorted_indices_sorted p) as Hss.
  pose proof (sorted_indices_length p) as Hlen.
  assert (H1 : rank_confidence p 0 = Ok c1).
  { unfold rank_confidence. rewrite Hi1. exact Hc1. }
  assert (Hbound : forall i, In i (sorted_indices p) -> nth i p 0 <= c1).
  { intros i Hin. apply sorted_indices_In in Hin.
    apply (rank1_upper_bound p c1 (nth i p 0) i H1).
    apply nth_error_nth'. exact Hin. }
  unfold rank_id in Hi1. apply getitem_Ok in Hi1.
  destruct (sorted_indices p) as [|j rest] eqn:Es; [discriminate|].
  simpl in Hi1. inversion Hi1; subst j. cbn [tl] in Ealts.
  exists i1, (firstn 3 rest).
  split; [unfold rank_id; rewrite Es; reflexivity|].
  split; [exact Ealts|].
  apply NoDup_cons_iff in Hnd. destruct Hnd as [Hnotin Hnd'].
  apply StronglySorted_inv in Hss. destruct Hss as [Hss' Hall].
  split.
  { constructor.
    - intro Hin. apply Hnotin. eapply In_firstn. exact Hin.
    - clear - Hnd'. revert Hnd'. generalize 3%nat.
      induction rest as [|x t IH]; intros n Hn; destruct n; simpl;
        try constructor.
      + inversion Hn; subst. intro Hin. apply H1. eapply In_firstn. exact Hin.
      + inversion Hn; subst. apply IH. assumption. }
  split.
  { rewrite Ealts, length_map, length_firstn. simpl in Hlen. lia. }
  split.
  { rewrite Econf, Ealts. apply Forall_forall. intros a Hin.
    apply in_map_iff in Hin. destruct Hin as [i [Ei Hin]]. subst a. simpl.
    apply round4_mono. apply Hbound. right. eapply In_firstn. exact Hin. }
  { pose proof (StronglySorted_firstn _ 3 rest Hss') as Hf.
    rewrite Ealts.
    clear - Hf. induction Hf as [|x t Hs IH Hall]; simpl; constructor.
    - exact IH.
    - rewrite Forall_map. eapply Forall_impl; [|exact Hall].
      intros y Hy. simpl. apply round4_mono. exact Hy. }
Qed.

Lemma alternatives_shape_witness :
  exists r alts i1 ids,
    _apply_bias_mitigation service_22 vec_low = Ok r
    /\ alternative_predictions r = Some alts
    /\ rank_id vec_low 0 = Ok i1
    /\ NoDup (i1 :: ids)
    /\ List.length alts = 3%nat.
Proof.
  eexists. eexists.
  destruct (alternatives_shape (sorter := stable_sorter) service_22 vec_low
              _ _ eq_refl eq_refl)
    as [i1 [ids [Hi [_ [Hnd [Hlen _]]]]]].
  exists i1, ids. split; [reflexivity|]. split; [reflexivity|].
  split; [exact Hi|]. split; [exact Hnd|exact Hlen].
Defined.

(* ------------------------------------------------------------------ *)
(** * Properties of the router *)

(** ** The service dependency *)

Lemma serve_requests_cached (loads : list (option keras_model))
    (s : PestDetectionService) :
  serve_requests loads (Some s)
  = (repeat (if negb (is_model_loaded s) then HTTPException 503 else HttpOk s)
            (List.length loads),
     Some s).
Proof.
  induction loads as [|l rest IH]; simpl; [reflexivity|].
  destruct (negb (is_model_loaded s)); rewrite IH; reflexivity.
Qed.

(** The first request decides for all later ones.  The service object is
    built once and kept: when its model failed to load, every request is
    answered 503, also after the model file has become loadable; when it
    loaded, every request gets that same object. *)
Theorem service_dependency_first_load_decides
    (first : option keras_model) (later : list (option keras_model)) :
  serve_requests (first :: later) None
  = match first with
    | None =>
        (repeat (HTTPException 503) (S (List.length later)),
         Some {| model := None; is_loaded := false; num_classes := 22;
                 disease_mapping := disease_mapping_22 |})
    | Some m =>
        let s := {| model := Some m; is_loaded := true; num_classes := 22;
                    disease_mapping := disease_mapping_22 |} in
        (repeat (HttpOk s) (S (List.length later)), Some s)
    end.
Proof.
  destruct first as [m|]; simpl; rewrite serve_requests_cached; reflexivity.
Qed.

(** ** Uploads *)

Section UploadFacts.

Context `{sorter : Np.ArgSort}.

Variable preprocess_image :
  PestDetectionService -> list Byte.byte -> result Np.ndarray.

Lemma py_get_set_other (d : py_dict) (k k' : string) (v default : pyvalue) :
  String.eqb k k' = false ->
  py_get (py_set d k v) k' default = py_get d k' default.
Proof.
  intro Hk. induction d as [|[a w] t IH]; simpl.
  - rewrite Hk. reflexivity.
  - destruct (String.eqb a k) eqn:Ea; simpl.
    + apply String.eqb_eq in Ea. subst a. rewrite Hk. reflexivity.
    + destruct (String.eqb a k'); [reflexivity|exact IH].
Qed.

Lemma py_get_set_same (d : py_dict) (k : string) (v default : pyvalue) :
  py_get (py_set d k v) k default = v.
Proof.
  induction d as [|[a w] t IH]; simpl.
  - rewrite String.eqb_refl. reflexivity.
  - destruct (String.eqb a k) eqn:Ea; simpl; rewrite Ea; [reflexivity|exact IH].
Qed.

(** No dict that the service returns has a "success" key. *)
Lemma reply_dict_no_success (raw : service_reply) (default : pyvalue) :
  py_get (reply_dict raw) "success" default = default.
Proof.
  destruct raw as [r|]; [|reflexivity].
  unfold reply_dict, result_dict.
  destruct (alternative_predictions r), (original_prediction r), (note r);
    reflexivity.
Qed.

Lemma batch_step_appends (service : PestDetectionService)
    (res : list py_dict) (t : Z) (i : nat) (file : NamedUpload) :
  exists e t',
    batch_step preprocess_image service (res, t) (i, file)
    = ((res ++ [e])%list, t')
    /\ entry_ok i e
    /\ t' = (if bad_content_type (upload file) then t
             else t + Z.of_nat (List.length (content (upload file))))%Z.
Proof.
  unfold batch_step.
  destruct (bad_content_type (upload file)).
  { eexists. eexists. split; [reflexivity|]. split; [|reflexivity].
    split; reflexivity. }
  destruct (10 * 1024 * 1024 <? Z.of_nat (List.length (content (upload file))))%Z.
  { eexists. eexists. split; [reflexivity|]. split; [|reflexivity].
    split; reflexivity. }
  destruct (50 * 1024 * 1024
            <? t + Z.of_nat (List.length (content (upload file))))%Z.
  { eexists. eexists. split; [reflexivity|]. split; [|reflexivity].
    split; reflexivity. }
  eexists. eexists. split; [reflexivity|]. split; [|reflexivity].
  split.
  - rewrite !py_get_set_other by reflexivity.
    rewrite reply_dict_no_success. reflexivity.
  - rewrite !py_get_set_other by reflexivity.
    apply py_get_set_same.
Qed.

Lemma batch_loop (service : PestDetectionService)
    (files : list NamedUpload) (k : nat) (res : list py_dict) (t : Z) :
  exists new,
    fold_left (batch_step preprocess_image service)
              (combine (seq k (List.length files)) files) (res, t)
    = ((res ++ new)%list, (t + counted_size files)%Z)
    /\ List.length new = List.length files
    /\ (forall j e, nth_error new j = Some e -> entry_ok (k + j) e).
Proof.
  revert k res t. induction files as [|file rest IH]; intros k res t.
  - exists []. simpl. rewrite app_nil_r, Z.add_0_r.
    split; [reflexivity|]. split; [reflexivity|].
    intros j e H. destruct j; discriminate.
  - cbn [fold_left combine seq List.length counted_size].
    destruct (batch_step_appends service res t k file) as [e [t' [Hs [He Ht]]]].
    rewrite Hs.
    destruct (IH (S k) (res ++ [e])%list t') as [new [Hf [Hl Hn]]].
    exists (e :: new). split.
    + rewrite Hf. rewrite <- app_assoc. simpl. f_equal. rewrite Ht.
      destruct (bad_content_type (upload file)); lia.
    + split; [simpl; rewrite Hl; reflexivity|].
      intros j x Hx. destruct j as [|j]; simpl in Hx.
      * inversion Hx; subst x. rewrite Nat.add_0_r. exact He.
      * replace (k + S j)%nat with (S k + j)%nat by lia. apply Hn. exact Hx.
Qed.

Lemma filter_none {A : Type} (f : A -> bool) (l : list A) :
  (forall x, In x l -> f x = false) -> filter f l = [].
Proof.
  induction l as [|x t IH]; intro H; simpl; [reflexivity|].
  rewrite (H x (or_introl eq_refl)). apply IH.
  intros y Hy. apply H. right. exact Hy.
Qed.

Lemma filter_all {A : Type} (f : A -> bool) (l : list A) :
  (forall x, In x l -> f x = true) -> filter f l = l.
Proof.
  induction l as [|x t IH]; intro H; simpl; [reflexivity|].
  rewrite (H x (or_introl eq_refl)). f_equal. apply IH.
  intros y Hy. apply H. right. exact Hy.
Qed.

End UploadFacts.

(** The two upload endpoints refuse the same uploads with the same status.
    An upload without an image content type, an empty upload and an upload
    of more than 10 MB get status 400 from POST /detect-disease and from
    POST /; an accepted upload on which the service answers with the error
    dict gets status 500 from both; otherwise POST /detect-disease returns
    the service's result and POST / answers with what it makes of that same
    result. *)
Theorem upload_endpoints_agree `{sorter : Np.ArgSort}
    (preprocess_image : PestDetectionService -> list Byte.byte
                        -> result Np.ndarray)
    (image : UploadFile) (service : PestDetectionService) :
  let size := Z.of_nat (List.length (content image)) in
  if bad_content_type image || (size =? 0)%Z || (10 * 1024 * 1024 <? size)%Z
  then
    detect_disease_from_upload preprocess_image image service
    = HTTPException 400
    /\ exists error,
         predict_disease_root preprocess_image image service
         = JSONResponse 400 error
  else
    match predict_from_image_bytes preprocess_image service (content image)
    with
    | ErrorReply =>
        detect_disease_from_upload preprocess_image image service
        = HTTPException 500
        /\ predict_disease_root preprocess_image image service
           = JSONResponse 500 "inference_error"
    | Reply r =>
        detect_disease_from_upload preprocess_image image service = HttpOk r
        /\ predict_disease_root preprocess_image image service
           = respond (Reply r)
    end.
Proof.
  cbv zeta.
  unfold detect_disease_from_upload, predict_disease_root, bad_content_type.
  destruct (content_type image) as [t|];
    [|split; [reflexivity|eexists; reflexivity]].
  destruct (negb (String.eqb t EmptyString) && PyStr.startswith t "image/");
    cbn [negb orb]; [|split; [reflexivity|eexists; reflexivity]].
  destruct (content image) as [|b rest] eqn:Ec.
  { cbn. split; [reflexivity|eexists; reflexivity]. }
  assert (Ez : (Z.of_nat (List.length (b :: rest)) =? 0)%Z = false).
  { apply Z.eqb_neq. cbn [List.length]. lia. }
  rewrite Ez. cbn [orb].
  destruct (10 * 1024 * 1024 <? Z.of_nat (List.length (b :: rest)))%Z eqn:Eb.
  { split; [reflexivity|eexists; reflexivity]. }
  destruct (predict_from_image_bytes preprocess_image service (b :: rest))
    as [r|] eqn:Ep; split; reflexivity.
Qed.

(** ** The batch endpoint *)

(** The batch answer holds one entry per uploaded file, in order, each
    with its position as "file_index".  No entry has a true "success"
    value, so "successful_predictions" is 0 and "failed_predictions" equals
    "total_files", whatever the service answered. *)
Theorem batch_counts `{sorter : Np.ArgSort}
    (preprocess_image : PestDetectionService -> list Byte.byte
                        -> result Np.ndarray)
    (files : list NamedUpload) (service : PestDetectionService)
    (b : batch_response) :
  batch_detect_diseases preprocess_image files service = HttpOk b ->
  total_files b = List.length files
  /\ List.length (results b) = List.length files
  /\ successful_predictions b = 0%nat
  /\ failed_predictions b = List.length files
  /\ (forall j e, nth_error (results b) j = Some e ->
        py_get e "file_index" PyNone = PyInt (Z.of_nat j)).
Proof.
  unfold batch_detect_diseases.
  destruct (10 <? List.length files)%nat; [discriminate|].
  destruct (batch_loop preprocess_image service files 0 [] 0%Z)
    as [new [Hf [Hl Hn]]].
  rewrite Hf. simpl app. intro H. inversion H; subst b; clear H. simpl.
  assert (Hall : forall e, In e new ->
             truthy (py_get e "success" (PyBool false)) = false).
  { intros e Hin. apply In_nth_error in Hin. destruct Hin as [j Hj].
    exact (proj1 (Hn j e Hj)). }
  split; [reflexivity|]. split; [exact Hl|].
  split; [rewrite filter_none; [reflexivity|exact Hall]|].
  split.
  - rewrite filter_all; [exact Hl|].
    intros e Hin. rewrite (Hall e Hin). reflexivity.
  - intros j e Hj. exact (proj2 (Hn j e Hj)).
Qed.

Lemma batch_counts_witness :
  exists b,
    batch_detect_diseases preprocess_any
      [ {| filename := Some "leaf.png";
           upload := {| content_type := Some "image/png";
                        content := [Byte.x00] |} |};
        {| filename := Some "notes.txt";
           upload := {| content_type := Some "text/plain";
                        content := [Byte.x00] |} |} ]
      {| model := Some (fun _ => [vec_peak]); is_loaded := true;
         num_classes := 22; disease_mapping := disease_mapping_22 |}
    = HttpOk b
    /\ successful_predictions b = 0%nat
    /\ failed_predictions b = 2%nat.
Proof.
  eexists. split; [reflexivity|].
  match goal with
  | |- successful_predictions ?b = _ /\ _ =>
      pose proof (batch_counts (sorter := stable_sorter) preprocess_any
        [ {| filename := Some "leaf.png";
             upload := {| content_type := Some "image/png";
                          content := [Byte.x00] |} |};
          {| filename := Some "notes.txt";
             upload := {| content_type := Some "text/plain";
                          content := [Byte.x00] |} |} ]
        {| model := Some (fun _ => [vec_peak]); is_loaded := true;
           num_classes := 22; disease_mapping := disease_mapping_22 |}
        b eq_refl) as H
  end.
  split; [exact (proj1 (proj2 (proj2 H)))|].
  exact (proj1 (proj2 (proj2 (proj2 H)))).
Defined.

(** The batch endpoint refuses exactly the batches of more than ten files,
    with status 400; otherwise "total_size_bytes" is the summed size of the
    uploads whose content type was accepted, those refused for their size
    included. *)
Theorem batch_limit_and_size `{sorter : Np.ArgSort}
    (preprocess_image : PestDetectionService -> list Byte.byte
                        -> result Np.ndarray)
    (files : list NamedUpload) (service : PestDetectionService) :
  if (10 <? List.length files)%nat
  then batch_detect_diseases preprocess_image files service
       = HTTPException 400
  else exists b,
         batch_detect_diseases preprocess_image files service = HttpOk b
         /\ total_size_bytes b = counted_size files.
Proof.
  unfold batch_detect_diseases.
  destruct (10 <? List.length files)%nat; [reflexivity|].
  destruct (batch_loop preprocess_image service files 0 [] 0%Z)
    as [new [Hf _]].
  rewrite Hf. eexists. split; [reflexivity|]. simpl. lia.
Qed.

(** ** Pest risk from weather *)

Lemma Qle_bool_false (x y : Q) : Qle_bool x y = false -> y < x.
Proof.
  intro H. apply Qnot_le_lt. intro Hle. apply Qle_bool_iff in Hle. congruence.
Qed.

Lemma py_min_spec (a b : Q) : py_min a b <= a /\ py_min a b <= b
                              /\ (py_min a b = a \/ py_min a b = b).
Proof.
  unfold py_min. destruct (Qltb b a) eqn:E.
  - apply Qltb_lt in E. repeat split; [lra|lra|right; reflexivity].
  - apply Qltb_ge in E. repeat split; [lra|lra|left; reflexivity].
Qed.

Lemma py_max_spec (a b : Q) : a <= py_max a b /\ b <= py_max a b
                              /\ (py_max a b = a \/ py_max a b = b).
Proof.
  unfold py_max. destruct (Qltb a b) eqn:E.
  - apply Qltb_lt in E. repeat split; [lra|lra|right; reflexivity].
  - apply Qltb_ge in E. repeat split; [lra|lra|left; reflexivity].
Qed.

(** The score is the clamped product of the added points and the season
    factor. *)
Lemma calculate_pest_risk_parts (temperature humidity rainfall : Q)
    (season : string) :
  calculate_pest_risk temperature humidity rainfall season
  == py_min 100
       (py_max 0 ((temperature_points temperature + humidity_points humidity
                   + rainfall_points rainfall) * season_factor season)).
Proof.
  unfold calculate_pest_risk, temperature_points, humidity_points,
    rainfall_points, season_factor.
  destruct (Qle_bool 25 temperature && Qle_bool temperature 35);
    [|destruct ((Qle_bool 20 temperature && Qltb temperature 25)
                || (Qltb 35 temperature && Qle_bool temperature 40));
      [|destruct ((Qle_bool 15 temperature && Qltb temperature 20)
                  || (Qltb 40 temperature && Qle_bool temperature 45))]];
    (destruct (Qle_bool 80 humidity);
     [|destruct (Qle_bool 60 humidity); [|destruct (Qle_bool 40 humidity)]]);
    (destruct (Qle_bool 50 rainfall && Qle_bool rainfall 200);
     [|destruct (Qltb 200 rainfall && Qle_bool rainfall 400);
       [|destruct (Qltb 400 rainfall)]]);
    reflexivity.
Qed.

Lemma temperature_points_range (t : Q) :
  0 <= temperature_points t <= 30.
Proof.
  unfold temperature_points.
  repeat match goal with
         | |- context [if ?c then _ else _] => destruct c
         end; split; discriminate.
Qed.

Lemma humidity_points_range (h : Q) : 5 <= humidity_points h <= 35.
Proof.
  unfold humidity_points.
  repeat match goal with
         | |- context [if ?c then _ else _] => destruct c
         end; split; discriminate.
Qed.

Lemma rainfall_points_range (r : Q) : 5 <= rainfall_points r <= 25.
Proof.
  unfold rainfall_points.
  repeat match goal with
         | |- context [if ?c then _ else _] => destruct c
         end; split; discriminate.
Qed.

Lemma season_factor_range (season : string) :
  0.7 <= season_factor season <= 1.3.
Proof.
  unfold season_factor, season_multiplier. simpl.
  repeat match goal with
         | |- context [if ?c then _ else _] => destruct c
         end; split; discriminate.
Qed.

Lemma humidity_points_mono (h1 h2 : Q) :
  h1 <= h2 -> humidity_points h1 <= humidity_points h2.
Proof.
  intro H. unfold humidity_points.
  destruct (Qle_bool 80 h1) eqn:A1; destruct (Qle_bool 80 h2) eqn:A2;
    destruct (Qle_bool 60 h1) eqn:B1; destruct (Qle_bool 60 h2) eqn:B2;
    destruct (Qle_bool 40 h1) eqn:C1; destruct (Qle_bool 40 h2) eqn:C2;
    try discriminate; exfalso;
    repeat match goal with
           | E : Qle_bool _ _ = true |- _ => apply Qle_bool_iff in E
           | E : Qle_bool _ _ = false |- _ => apply Qle_bool_false in E
           end; lra.
Qed.

Lemma risk_score_between (temperature humidity rainfall : Q)
    (season : string) :
  7 <= calculate_pest_risk temperature humidity rainfall season <= 100.
Proof.
  rewrite calculate_pest_risk_parts.
  pose proof (temperature_points_range temperature) as Ht.
  pose proof (humidity_points_range humidity) as Hh.
  pose proof (rainfall_points_range rainfall) as Hr.
  pose proof (season_factor_range season) as Hs.
  set (raw := temperature_points temperature + humidity_points humidity
              + rainfall_points rainfall) in *.
  assert (Hraw : 10 <= raw) by (unfold raw; lra).
  set (m := season_factor season) in *.
  assert (Hprod : 7 <= raw * m).
  { assert (H0 : 0 <= (raw - 10) * m + 10 * (m - 0.7)).
    { apply (Qle_trans _ (0 + 0)); [discriminate|].
      apply Qplus_le_compat; apply Qmult_le_0_compat; lra. }
    lra. }
  destruct (py_max_spec 0 (raw * m)) as [_ [Hm2 Hm3]].
  destruct (py_min_spec 100 (py_max 0 (raw * m))) as [Hn1 [_ Hn3]].
  split; [|exact Hn1].
  destruct Hn3 as [E|E]; rewrite E; [discriminate|].
  lra.
Qed.

(** The pest-risk score always lies between 7 and 100, whatever the
    weather values and the season text: the lower clamp at 0 never acts. *)
Theorem pest_risk_range (temperature humidity rainfall : Q) (season : string) :
  7 <= calculate_pest_risk temperature humidity rainfall season <= 100.
Proof. apply risk_score_between. Qed.

(** More humidity never lowers the pest-risk score. *)
Theorem pest_risk_humidity_monotone (temperature rainfall h1 h2 : Q)
    (season : string) :
  h1 <= h2 ->
  calculate_pest_risk temperature h1 rainfall season
  <= calculate_pest_risk temperature h2 rainfall season.
Proof.
  intro H. rewrite !calculate_pest_risk_parts.
  pose proof (humidity_points_mono h1 h2 H) as Hh.
  pose proof (season_factor_range season) as Hs.
  set (m := season_factor season) in *.
  set (a := temperature_points temperature) in *.
  set (b := rainfall_points rainfall) in *.
  set (x1 := humidity_points h1) in *. set (x2 := humidity_points h2) in *.
  assert (Hprod : (a + x1 + b) * m <= (a + x2 + b) * m).
  { apply Qmult_le_compat_r; lra. }
  destruct (py_max_spec 0 ((a + x1 + b) * m)) as [A1 [A2 A3]].
  destruct (py_max_spec 0 ((a + x2 + b) * m)) as [B1 [B2 B3]].
  assert (Hmax : py_max 0 ((a + x1 + b) * m) <= py_max 0 ((a + x2 + b) * m)).
  { destruct A3 as [E|E]; rewrite E; lra. }
  destruct (py_min_spec 100 (py_max 0 ((a + x1 + b) * m))) as [C1 [C2 C3]].
  destruct (py_min_spec 100 (py_max 0 ((a + x2 + b) * m))) as [D1 [D2 D3]].
  destruct D3 as [E|E]; rewrite E; lra.
Qed.

Lemma pest_risk_humidity_monotone_witness :
  calculate_pest_risk 30 45 100 "winter"
  <= calculate_pest_risk 30 85 100 "winter".
Proof.
  apply pest_risk_humidity_monotone. discriminate.
Defined.

(** The answer of POST /predict: the confidence lies between 75 and 95,
    so the lower clamp at 70 never acts; at most five pests are listed and
    no recommendation. *)
Theorem pest_risk_answer_bounds (request : pest_request) :
  let a := predict_pest_risk request in
  75 <= risk_confidence a <= 95
  /\ (List.length (common_pests a) <= 5)%nat
  /\ recommendations a = [].
Proof.
  unfold predict_pest_risk.
  set (score := calculate_pest_risk _ _ _ _).
  pose proof (risk_score_between (or_default (req_temperature request) 25.0)
                (or_default (req_humidity request) 60.0)
                (or_default (req_rainfall request) 100.0)
                (or_default (req_season request) "summer")) as Hs.
  fold score in Hs.
  destruct (if Qle_bool 80 score then ("Very High", "red")
            else if Qle_bool 60 score then ("High", "orange")
            else if Qle_bool 40 score then ("Medium", "yellow")
            else if Qle_bool 20 score then ("Low", "lightgreen")
            else ("Very Low", "green")) as [level colour].
  cbn [risk_confidence common_pests recommendations].
  split; [|split; [|reflexivity]].
  - assert (Habs : 0 <= Qabs (score - 50) <= 50).
    { split; [apply Qabs_nonneg|]. apply Qabs_Qle_condition. split; lra. }
    set (v := 100 - Qabs (score - 50) * 0.5).
    assert (Hv : 75 <= v <= 100) by (unfold v; lra).
    destruct (py_max_spec 70 v) as [A1 [A2 A3]].
    destruct (py_min_spec 95 (py_max 70 v)) as [B1 [B2 B3]].
    split; [|exact B1].
    destruct B3 as [E|E]; rewrite E; [discriminate|lra].
  - unfold get_common_pests. rewrite length_firstn. lia.
Qed.


(** The pest list is cut to five.  Something is dropped exactly when the
    temperature is at least 25, the humidity at least 80 and the crop is
    rice, wheat or maize (in any letter case): then six pests were collected
    and the crop's second pest is the one left out. *)
Theorem common_pests_cut (temperature humidity : Q)
    (season crop_type : string) :
  let collected := collected_pests temperature humidity crop_type in
  let listed := get_common_pests temperature humidity season crop_type in
  if Qle_bool 25 temperature && Qle_bool 80 humidity
     && match crop_pests_get crop_pests (PyStr.lower crop_type) with
        | Some _ => true
        | None => false
        end
  then exists a b c d p1 p2,
         crop_pests_get crop_pests (PyStr.lower crop_type) = Some [p1; p2]
         /\ collected = [a; b; c; d; p1; p2]
         /\ listed = [a; b; c; d; p1]
  else listed = collected.
Proof.
  unfold get_common_pests, collected_pests, crop_pests.
  cbn [crop_pests_get].
  destruct (Qle_bool 80 humidity) eqn:H80.
  - assert (H60 : Qle_bool 60 humidity = true).
    { apply Qle_bool_iff. apply Qle_bool_iff in H80. lra. }
    rewrite H60.
    destruct (Qle_bool 25 temperature); cbn [andb];
      repeat match goal with
             | |- context [if String.eqb ?k ?x then _ else _] =>
                 destruct (String.eqb k x)
             end;
      try reflexivity;
      do 6 eexists; (split; [reflexivity|]); split; reflexivity.
  - rewrite andb_false_r. cbn [andb].
    destruct (Qle_bool 25 temperature && Qle_bool 60 humidity);
      repeat match goal with
             | |- context [if String.eqb ?k ?x then _ else _] =>
                 destruct (String.eqb k x)
             end;
      reflexivity.
Qed.

(* ------------------------------------------------------------------ *)
(** * The service behind POST / *)

Section EndpointFacts.

Context `{sorter : Np.ArgSort}.

(** What [respond] makes of a service result. *)
Lemma respond_reply (r : prediction_result) :
  exists b, respond (Reply r) = Body b
  /\ (if Qltb (confidence r) 0.45
      then disease b = "Unknown" /\ severity b = "low"
           /\ body_confidence b = confidence r
           /\ treatment b = "Unable to identify. Please upload clearer image."
      else body_confidence b = round4 (confidence r)
           /\ severity b = (if Qle_bool 0.75 (confidence r) then "high"
                            else if Qle_bool 0.60 (confidence r) then "medium"
                            else "low")).
Proof.
  unfold respond. destruct (Qltb (confidence r) 0.45).
  - eexists. split; [reflexivity|]. repeat split.
  - eexists. split; [reflexivity|]. split; reflexivity.
Qed.

Lemma apply_confidence_rounded (self : PestDetectionService)
    (p : Np.ndarray) (r : prediction_result) :
  _apply_bias_mitigation self p = Ok r ->
  round4 (confidence r) = confidence r.
Proof.
  intro Hr.
  assert (Hv : exists v, confidence r = round4 v).
  { destruct (apply_cases self p r Hr) as [i1 [c1 [_ [_ Hcase]]]].
    destruct Hcase
      as [[_ E]|[[_ [_ [i2 [i3 [c2 [c3 [_ [_ [_ [_ E]]]]]]]]]]
                |[_ [_ [i2 [c2 [_ [_ E]]]]]]]].
    - subst r. eexists. reflexivity.
    - subst r. eexists. reflexivity.
    - destruct (dominance_gap c1 c2); [|destruct (Qltb 0.95 c1)];
        injection E as E; subst r; eexists; reflexivity. }
  destruct Hv as [v Ec]. rewrite Ec. apply round4_idempotent.
Qed.

End EndpointFacts.

(** POST / reports the confidence of the service unchanged: the service
    has rounded it to four decimals and the endpoint's own rounding leaves
    it as it is. *)
Theorem endpoint_confidence_unchanged `{sorter : Np.ArgSort}
    (self : PestDetectionService) (p : Np.ndarray) (r : prediction_result)
    (b : detection_body) :
  _apply_bias_mitigation self p = Ok r ->
  respond (Reply r) = Body b ->
  body_confidence b = confidence r.
Proof.
  intros Hr Hb.
  destruct (respond_reply r) as [b' [Hb' Hcase]].
  assert (b' = b) by congruence. subst b'.
  destruct (Qltb (confidence r) 0.45).
  - tauto.
  - destruct Hcase as [Hc _]. rewrite Hc.
    apply (apply_confidence_rounded self p r Hr).
Qed.

Lemma endpoint_confidence_unchanged_witness :
  exists r b,
    _apply_bias_mitigation service_22 vec_low = Ok r
    /\ respond (Reply r) = Body b
    /\ body_confidence b = confidence r.
Proof.
  eexists. eexists. split; [vm_compute; reflexivity|].
  split; [vm_compute; reflexivity|].
  apply (endpoint_confidence_unchanged (sorter := stable_sorter)
           service_22 vec_low); vm_compute; reflexivity.
Defined.

(** Over the 22-class taxonomy and for a probability vector (22
    non-negative float32 entries that sum to at most 1), POST / reports
    severity "high" only when the rank-1 confidence lies between 0.74995
    and the float32 value of 0.8, which is 0.800000011920929; above that
    value the severity is always "low" and the reported confidence at most
    0.5. *)
Theorem endpoint_severity_bands `{sorter : Np.ArgSort}
    (self : PestDetectionService) (p : Np.ndarray) (r : prediction_result)
    (b : detection_body) (c1 : Q) :
  disease_mapping self = disease_mapping_22 ->
  List.length p = 22%nat ->
  Np.float32_array p ->
  nonneg p -> Qsum p <= 1 ->
  rank_confidence p 0 = Ok c1 ->
  _apply_bias_mitigation self p = Ok r ->
  respond (Reply r) = Body b ->
  (F32.round 0.8 < c1 -> severity b = "low" /\ body_confidence b <= 0.5)
  /\ (severity b = "high" -> 0.74995 <= c1 /\ c1 <= F32.round 0.8).
Proof.
  intros Hmap Hlen Hf Hp Hsum H1 Hr Hb.
  apply rank_confidence_inv in H1. destruct H1 as [i1 [Hi1 [Hc1 _]]].
  destruct (rank_confidence_defined p 1) as [i2 [c2 [Hi2 [Hc2 H2]]]]; [lia|].
  assert (Hflag : is_problematic (name_of self i1) = false).
  { apply names_22_not_problematic; [exact Hmap|].
    rewrite <- Hlen. eapply rank_id_lt. exact Hi1. }
  pose proof (rank12_le_Qsum p i1 i2 c1 c2 Hp Hi1 Hc1 Hi2 Hc2) as Hle.
  assert (Ex : F32.round c1 == c1).
  { exact (getitem_nonneg p i1 c1 _ Hf Hc1). }
  destruct float32_thresholds as [E08 _].
  destruct (respond_reply r) as [b' [Hb' Hcase]].
  assert (b' = b) by congruence. subst b'. clear Hb'.
  assert (Hconf :
    (c1 < 0.6 /\ confidence r = round4 c1)
    \/ (0.6 <= c1 /\ c1 <= F32.round 0.8 /\ confidence r = round4 c1)
    \/ (F32.round 0.8 < c1
        /\ confidence r = round4 (dominance_mean c1 c2))).
  { destruct (Qlt_le_dec c1 0.6) as [Hlt|Hge].
    - left. split; [exact Hlt|].
      rewrite (rule_low self p i1 c1 Hi1 Hc1 Hlt) in Hr.
      inversion Hr. reflexivity.
    - right.
      rewrite (rule_after_known self p i1 i2 c1 c2 Hi1 Hc1 Hi2 Hc2 Hge
                 (or_introl Hflag)) in Hr.
      destruct (Qlt_le_dec (F32.round 0.8) c1) as [Hhi|Hmid].
      + right. split; [exact Hhi|].
        assert (Eg : dominance_gap c1 c2 = true)
          by (apply gap_of_probability; [exact Ex|exact Hhi|lra]).
        rewrite Eg in Hr. inversion Hr. reflexivity.
      + left. split; [exact Hge|]. split; [exact Hmid|].
        assert (Eg : dominance_gap c1 c2 = false).
        { unfold dominance_gap. apply Qltb_ge in Hmid. rewrite Hmid.
          reflexivity. }
        assert (Ec : Qltb 0.95 c1 = false).
        { apply Qltb_ge. rewrite E08 in Hmid. lra. }
        rewrite Eg, Ec in Hr. inversion Hr. reflexivity. }
  assert (Hmean : round4 (dominance_mean c1 c2) <= 0.5).
  { apply (Qle_trans _ (round4 0.5)); [|discriminate].
    apply round4_mono.
    apply (Qle_trans _ (1 # 2)); [apply mean_le_half; lra|discriminate]. }
  split.
  - intro Hhi.
    destruct Hconf as [[Hlt _]|[[_ [Hmid _]]|[_ Ec]]].
    { exfalso. rewrite E08 in Hhi. lra. }
    { exfalso. exact (Qlt_not_le _ _ Hhi Hmid). }
    assert (Hhalf : confidence r <= 0.5) by (rewrite Ec; exact Hmean).
    destruct (Qltb (confidence r) 0.45).
    + destruct Hcase as [_ [Hs [Hbc _]]]. rewrite Hbc. split; assumption.
    + destruct Hcase as [Hbc Hs].
      assert (E75 : Qle_bool 0.75 (confidence r) = false).
      { destruct (Qle_bool 0.75 (confidence r)) eqn:E; [|reflexivity].
        apply Qle_bool_iff in E. lra. }
      assert (E60 : Qle_bool 0.60 (confidence r) = false).
      { destruct (Qle_bool 0.60 (confidence r)) eqn:E; [|reflexivity].
        apply Qle_bool_iff in E. lra. }
      rewrite E75, E60 in Hs. split; [exact Hs|].
      rewrite Hbc, (apply_confidence_rounded self p r Hr). exact Hhalf.
  - intro Hsev.
    destruct (Qltb (confidence r) 0.45).
    { destruct Hcase as [_ [Hs _]]. rewrite Hs in Hsev. discriminate. }
    destruct Hcase as [_ Hs].
    destruct (Qle_bool 0.75 (confidence r)) eqn:E75.
    2:{ rewrite Hs in Hsev.
        destruct (Qle_bool 0.60 (confidence r)); discriminate. }
    apply Qle_bool_iff in E75.
    destruct Hconf as [[Hlt Ec]|[[Hge [Hmid Ec]]|[Hhi Ec]]].
    + exfalso. rewrite Ec in E75.
      assert (round4 c1 <= round4 0.6) by (apply round4_mono; lra).
      assert (round4 0.6 <= 0.6) by discriminate. lra.
    + split; [|exact Hmid].
      destruct (round4_near c1) as [_ Hup]. rewrite Ec in E75. lra.
    + exfalso. rewrite Ec in E75. lra.
Qed.

(** The witness is the vector whose rank-1 confidence is the float32 value
    of 0.8: the service answers "normal" with 0.8 and the endpoint reports
    severity "high", with a rank-1 confidence above 0.8. *)
Lemma endpoint_severity_bands_witness :
  exists r b,
    _apply_bias_mitigation service_22 vec_float_08 = Ok r
    /\ respond (Reply r) = Body b
    /\ severity b = "high"
    /\ 0.8 < 13421773 # 16777216
    /\ 13421773 # 16777216 <= F32.round 0.8.
Proof.
  assert (E : exists r b,
             _apply_bias_mitigation (sorter := stable_sorter)
               service_22 vec_float_08 = Ok r
             /\ respond (Reply r) = Body b
             /\ severity b = "high")
    by (do 2 eexists; split; [vm_compute; reflexivity|];
        split; [vm_compute; reflexivity|reflexivity]).
  destruct E as [r [b [Er [Eb Es]]]]. exists r, b.
  split; [exact Er|]. split; [exact Eb|]. split; [exact Es|].
  split; [reflexivity|].
  apply (proj2 (endpoint_severity_bands (sorter := stable_sorter)
                  service_22 vec_float_08 r b (13421773 # 16777216)
                  eq_refl eq_refl
                  ltac:(unfold Np.float32_array, vec_float_08;
                        repeat constructor; vm_compute; reflexivity)
                  ltac:(unfold nonneg, vec_float_08;
                        repeat constructor; discriminate)
                  ltac:(vm_compute; discriminate)
                  eq_refl Er Eb)).
  exact Es.
Defined.

(** ** Where the treatment text comes from *)

Lemma label_22_unmapped (i : nat) :
  (i < 22)%nat ->
  let s := name_of service_22 i in
  String.eqb s EmptyString = false
  /\ str_dict_get treatment_map (PyStr.lower (PyStr.strip s)) = None.
Proof.
  intro Hi.
  do 22 (destruct i as [|i]; [vm_compute; split; reflexivity|]). lia.
Qed.

Lemma dominance_label_22_unmapped (i1 i2 : nat) :
  (i1 < 22)%nat -> (i2 < 22)%nat ->
  let s := ("High Confidence with Uncertainty: Likely "
            ++ name_of service_22 i1 ++ " but consider "
            ++ name_of service_22 i2)%string in
  String.eqb s EmptyString = false
  /\ str_dict_get treatment_map (PyStr.lower (PyStr.strip s)) = None.
Proof.
  intros H1 H2.
  do 22 (destruct i1 as [|i1];
         [do 22 (destruct i2 as [|i2]; [vm_compute; split; reflexivity|]); lia
         |]).
  lia.
Qed.

Lemma name_of_22 (self : PestDetectionService) (i : nat) :
  disease_mapping self = disease_mapping_22 ->
  name_of self i = name_of service_22 i.
Proof.
  intro H. unfold name_of, raw_name_of. rewrite H. reflexivity.
Qed.

(** The endpoint's table [treatment_map] is never used for a result over
    the 22-class taxonomy: whatever the 22-entry vector, the treatment of
    POST / is the fallback text of the "Unknown" answer or the text that
    [suggest_basic_treatment] picks for the reported label. *)
Theorem treatment_map_unused `{sorter : Np.ArgSort}
    (self : PestDetectionService) (p : Np.ndarray) (r : prediction_result)
    (b : detection_body) :
  disease_mapping self = disease_mapping_22 ->
  List.length p = 22%nat ->
  _apply_bias_mitigation self p = Ok r ->
  respond (Reply r) = Body b ->
  (disease b = "Unknown"
   /\ treatment b = "Unable to identify. Please upload clearer image.")
  \/ treatment b = suggest_basic_treatment (disease b).
Proof.
  intros Hmap Hlen Hr Hb.
  assert (Hlabel : String.eqb (prediction r) EmptyString = false
                   /\ str_dict_get treatment_map
                        (PyStr.lower (PyStr.strip (prediction r))) = None).
  { destruct (apply_cases self p r Hr) as [i1 [c1 [Hi1 [Hc1 Hcase]]]].
    assert (Hlt1 : (i1 < 22)%nat).
    { rewrite <- Hlen. eapply rank_id_lt. exact Hi1. }
    pose proof (names_22_not_problematic self i1 Hmap Hlt1) as Hflag.
    destruct Hcase as [[_ E]|[[_ [Hf _]]|[_ [_ [i2 [c2 [Hi2 [Hc2 E]]]]]]]].
    - subst r. vm_compute. split; reflexivity.
    - rewrite Hflag in Hf. discriminate Hf.
    - assert (Hlt2 : (i2 < 22)%nat).
      { rewrite <- Hlen. eapply rank_id_lt. exact Hi2. }
      destruct (dominance_gap c1 c2).
      + inversion E; subst r. cbn [prediction].
        rewrite !(name_of_22 self _ Hmap).
        apply dominance_label_22_unmapped; assumption.
      + destruct (Qltb 0.95 c1); inversion E; subst r; cbn [prediction];
          rewrite (name_of_22 self _ Hmap);
          apply label_22_unmapped; assumption. }
  destruct Hlabel as [Hne Hget].
  unfold respond in Hb. rewrite Hne in Hb.
  destruct (Qltb (confidence r) 0.45).
  - inversion Hb; subst b. left. split; reflexivity.
  - rewrite Hget in Hb. inversion Hb; subst b. right. reflexivity.
Qed.

Lemma treatment_map_unused_witness :
  exists r b,
    _apply_bias_mitigation service_22 vec_peak = Ok r
    /\ respond (Reply r) = Body b
    /\ (disease b = "Unknown"
        /\ treatment b = "Unable to identify. Please upload clearer image."
        \/ treatment b = suggest_basic_treatment (disease b)).
Proof.
  assert (E : exists r b,
             _apply_bias_mitigation (sorter := stable_sorter)
               service_22 vec_peak = Ok r
             /\ respond (Reply r) = Body b)
    by (do 2 eexists; split; vm_compute; reflexivity).
  destruct E as [r [b [Er Eb]]]. exists r, b.
  split; [exact Er|]. split; [exact Eb|].
  exact (treatment_map_unused (sorter := stable_sorter) service_22 vec_peak
           r b eq_refl eq_refl Er Eb).
Defined.

(** ** What a cleaned label never contains *)

Lemma case_chars_no_underscore (a : ascii) :
  Ascii.eqb a "_" = false ->
  Ascii.eqb (PyStr.lower_char a) "_" = false
  /\ Ascii.eqb (PyStr.upper_char a) "_" = false.
Proof.
  destruct a as [[] [] [] [] [] [] [] []]; intro H;
    try discriminate H; split; reflexivity.
Qed.

Lemma lower_no_underscore (s : string) :
  str_has "_" s = false -> str_has "_" (PyStr.lower s) = false.
Proof.
  induction s as [|a t IH]; intro H; [reflexivity|].
  cbn [str_has PyStr.lower] in *.
  apply orb_false_iff in H. destruct H as [Ha Ht].
  destruct (case_chars_no_underscore a Ha) as [Hl _].
  rewrite Hl, (IH Ht). reflexivity.
Qed.

Lemma format_word_no_underscore (w : string) :
  str_has "_" w = false -> str_has "_" (format_word w) = false.
Proof.
  intro H. unfold format_word.
  destruct (PyStr.mem (PyStr.lower w)
              ["and"; "or"; "the"; "of"; "in"; "on"; "at"; "to"; "for"]).
  - apply lower_no_underscore. exact H.
  - destruct (PyStr.contains "(" w || PyStr.contains ")" w); [exact H|].
    destruct w as [|a t]; [reflexivity|].
    cbn [str_has PyStr.capitalize] in *.
    apply orb_false_iff in H. destruct H as [Ha Ht].
    destruct (case_chars_no_underscore a Ha) as [_ Hu].
    rewrite Hu, (lower_no_underscore t Ht). reflexivity.
Qed.

(** Replacing keeps a character out when neither the text nor the
    replacement has it. *)
Lemma replace_from_keeps_out (c : ascii) (old new s : string) (k : nat) :
  str_has c s = false -> str_has c new = false ->
  str_has c (PyStr.replace_from old new s k) = false.
Proof.
  intros Hs Hn. revert k. induction s as [|a t IH]; intro k; [reflexivity|].
  cbn [str_has] in Hs. apply orb_false_iff in Hs. destruct Hs as [Ha Ht].
  cbn [PyStr.replace_from]. destruct k as [|k]; [|apply IH; exact Ht].
  destruct (String.prefix old (String a t)).
  - rewrite str_has_append, Hn. apply IH. exact Ht.
  - cbn [str_has]. rewrite Ha. apply IH. exact Ht.
Qed.

(** Replacing every "_" by " " leaves no "_". *)
Lemma replace_underscore (s : string) :
  str_has "_" (PyStr.replace s "_" " ") = false.
Proof.
  unfold PyStr.replace. induction s as [|a t IH]; [reflexivity|].
  cbn [PyStr.replace_from String.prefix].
  destruct (ascii_dec "_" a) as [E|E].
  - assert (Hp : String.prefix EmptyString t = true) by (destruct t; reflexivity).
    rewrite Hp. cbn [String.length Nat.sub append str_has]. exact IH.
  - cbn [str_has]. rewrite IH, orb_false_r.
    destruct (Ascii.eqb a "_") eqn:Ea; [|reflexivity].
    apply Ascii.eqb_eq in Ea. subst a. contradiction E. reflexivity.
Qed.

Lemma split_keeps_out (c : ascii) (cur s : string) :
  str_has c cur = false -> str_has c s = false ->
  Forall (fun w => str_has c w = false) (PyStr.split_from cur s).
Proof.
  revert cur. induction s as [|a t IH]; intros cur Hc Hs.
  - cbn [PyStr.split_from]. destruct (String.eqb cur EmptyString);
      repeat constructor. exact Hc.
  - cbn [str_has] in Hs. apply orb_false_iff in Hs. destruct Hs as [Ha Ht].
    cbn [PyStr.split_from]. destruct (PyStr.is_space a).
    + destruct (String.eqb cur EmptyString).
      * apply IH; [reflexivity|exact Ht].
      * constructor; [exact Hc|]. apply IH; [reflexivity|exact Ht].
    + apply IH; [|exact Ht].
      rewrite str_has_append, Hc. cbn [str_has]. rewrite Ha. reflexivity.
Qed.

Lemma join_keeps_out (c : ascii) (l : list string) :
  Ascii.eqb " " c = false ->
  Forall (fun w => str_has c w = false) l ->
  str_has c (PyStr.join " " l) = false.
Proof.
  intros Hsp H. unfold PyStr.join.
  induction H as [|w t Hw Ht IH]; [reflexivity|].
  destruct t as [|w' t'].
  - simpl. exact Hw.
  - change (String.concat " " (w :: w' :: t'))
      with (w ++ " " ++ String.concat " " (w' :: t'))%string.
    rewrite !str_has_append, Hw, IH. cbn [str_has]. rewrite Hsp. reflexivity.
Qed.

Lemma lstrip_keeps_out (c : ascii) (s : string) :
  str_has c s = false -> str_has c (PyStr.lstrip s) = false.
Proof.
  induction s as [|a t IH]; intro H; [reflexivity|].
  cbn [PyStr.lstrip]. destruct (PyStr.is_space a); [|exact H].
  cbn [str_has] in H. apply orb_false_iff in H. apply IH. tauto.
Qed.

Lemma rev_string_has (c : ascii) (acc s : string) :
  str_has c (PyStr.rev_string acc s) = str_has c s || str_has c acc.
Proof.
  revert acc. induction s as [|a t IH]; intro acc; [reflexivity|].
  cbn [PyStr.rev_string str_has]. rewrite IH. cbn [str_has].
  destruct (Ascii.eqb a c), (str_has c t), (str_has c acc); reflexivity.
Qed.

Lemma strip_keeps_out (c : ascii) (s : string) :
  str_has c s = false -> str_has c (PyStr.strip s) = false.
Proof.
  intro H. unfold PyStr.strip, PyStr.rstrip.
  rewrite rev_string_has, orb_false_r.
  apply lstrip_keeps_out.
  rewrite rev_string_has, orb_false_r.
  apply lstrip_keeps_out. exact H.
Qed.

Lemma cleaned_has_no_underscore (raw_name : string) :
  str_has "_" (_clean_disease_name raw_name) = false.
Proof.
  unfold _clean_disease_name.
  apply strip_keeps_out.
  apply join_keeps_out; [reflexivity|].
  rewrite Forall_map.
  eapply Forall_impl;
    [intros w Hw; apply format_word_no_underscore; exact Hw|].
  apply split_keeps_out; [reflexivity|].
  unfold PyStr.replace at 1. apply replace_from_keeps_out; [|reflexivity].
  unfold PyStr.replace at 1. apply replace_from_keeps_out; [|reflexivity].
  apply replace_underscore.
Qed.

(** Whatever the raw name, also one outside the taxonomy, the cleaned label
    holds no underscore: every "_" and "___" of the raw name has become a
    blank or " - ", and no later step of the cleaning brings one back. *)
Theorem clean_name_no_underscore (raw_name : string) :
  str_has "_" (_clean_disease_name raw_name) = false.
Proof. apply cleaned_has_no_underscore. Qed.

(** ** The pipeline on a well-formed model output *)

(** When decoding succeeds and the loaded model yields a first vector of
    at least three entries, the pipeline answers with a result and never
    with the error dict; the result is the one that
    [_apply_bias_mitigation] computes for that vector. *)
Theorem pipeline_returns_result `{sorter : Np.ArgSort}
    (preprocess_image : PestDetectionService -> list Byte.byte
                        -> result Np.ndarray)
    (self : PestDetectionService) (m : keras_model)
    (image_data : list Byte.byte) (image_array p : Np.ndarray) :
  model self = Some m -> is_loaded self = true ->
  preprocess_image self image_data = Ok image_array ->
  nth_error (m image_array) 0 = Some p ->
  (3 <= List.length p)%nat ->
  exists r,
    _apply_bias_mitigation self p = Ok r
    /\ predict_disease self image_array = Ok r
    /\ predict_from_image_bytes preprocess_image self image_data = Reply r.
Proof.
  intros Hm Hl Hpre Hout Hlen.
  destruct (apply_returns self p Hlen) as [r Hr].
  exists r. split; [exact Hr|].
  exact (pipeline_reply preprocess_image self m image_data image_array p r
           Hm Hl Hpre Hout Hr).
Qed.

Lemma pipeline_returns_result_witness :
  exists r,
    predict_from_image_bytes preprocess_any
      {| model := Some (fun _ => [vec_short]); is_loaded := true;
         num_classes := 22; disease_mapping := disease_mapping_22 |}
      [Byte.x00]
    = Reply r.
Proof.
  destruct (pipeline_returns_result (sorter := stable_sorter) preprocess_any
              {| model := Some (fun _ => [vec_short]); is_loaded := true;
                 num_classes := 22; disease_mapping := disease_mapping_22 |}
              (fun _ => [vec_short]) [Byte.x00] [] vec_short
              eq_refl eq_refl eq_refl eq_refl (le_n 3))
    as [r [_ [_ H]]].
  exists r. exact H.
Defined.

(** ** Listed names and reported names *)

Section ListedNames.

Context `{sorter : Np.ArgSort}.

Lemma name_of_no_underscore (self : PestDetectionService) (i : nat) :
  str_has "_" (name_of self i) = false.
Proof. unfold name_of. apply cleaned_has_no_underscore. Qed.

(** No label that [_apply_bias_mitigation] reports holds an underscore. *)
Lemma prediction_no_underscore (self : PestDetectionService)
    (p : Np.ndarray) (r : prediction_result) :
  _apply_bias_mitigation self p = Ok r ->
  str_has "_" (prediction r) = false.
Proof.
  intro Hr.
  destruct (apply_cases self p r Hr) as [i1 [c1 [_ [_ Hcase]]]].
  destruct Hcase
    as [[_ E]|[[_ [_ [i2 [i3 [c2 [c3 [_ [_ [_ [_ E]]]]]]]]]]
              |[_ [_ [i2 [c2 [_ [_ E]]]]]]]].
  - subst r. reflexivity.
  - subst r. cbn [prediction].
    destruct (Qltb 0.9 c1);
      rewrite !str_has_append, !name_of_no_underscore; reflexivity.
  - destruct (dominance_gap c1 c2).
    + injection E as E. subst r. cbn [prediction].
      repeat (cbn [str_has];
              rewrite ?str_has_append, ?name_of_no_underscore).
      reflexivity.
    + destruct (Qltb 0.95 c1); injection E as E; subst r; cbn [prediction];
        apply name_of_no_underscore.
Qed.

End ListedNames.

(** GET /supported-diseases lists the 22 names as the mapping holds them,
    each with an underscore, and exactly the first is marked healthy; the
    detection result never reports a label with an underscore.  So no
    listed name is ever the "prediction" of a result, whatever the
    vector. *)
Theorem listed_names_never_reported `{sorter : Np.ArgSort}
    (self : PestDetectionService) (p : Np.ndarray) (r : prediction_result) :
  disease_mapping self = disease_mapping_22 ->
  _apply_bias_mitigation self p = Ok r ->
  total_diseases (supported_diseases_endpoint self) = 22%nat
  /\ map is_healthy (get_supported_diseases self)
     = true :: repeat false 21
  /\ str_has "_" (prediction r) = false
  /\ Forall (fun d => str_has "_" (disease_name d) = true
                      /\ disease_name d <> prediction r)
            (get_supported_diseases self).
Proof.
  intros Hmap Hr.
  pose proof (prediction_no_underscore self p r Hr) as Hpred.
  unfold supported_diseases_endpoint, get_supported_diseases.
  rewrite Hmap.
  split; [reflexivity|]. split; [reflexivity|]. split; [exact Hpred|].
  assert (Hall : Forall (fun d => str_has "_" (disease_name d) = true)
                   (map (fun kv =>
                           {| disease_id := fst kv;
                              disease_name := snd kv;
                              is_healthy :=
                                PyStr.contains "healthy"
                                  (PyStr.lower (snd kv)) |})
                        disease_mapping_22)).
  { repeat constructor. }
  eapply Forall_impl; [|exact Hall].
  intros d Hd. cbv beta in Hd. split; [exact Hd|].
  intro E. pose proof Hpred as H. rewrite <- E in H.
  rewrite H in Hd. discriminate Hd.
Qed.

Lemma listed_names_never_reported_witness :
  exists r,
    _apply_bias_mitigation service_22 vec_peak = Ok r
    /\ Forall (fun d => str_has "_" (disease_name d) = true
                        /\ disease_name d <> prediction r)
              (get_supported_diseases service_22).
Proof.
  assert (E : exists r,
             _apply_bias_mitigation (sorter := stable_sorter)
               service_22 vec_peak = Ok r)
    by (eexists; vm_compute; reflexivity).
  destruct E as [r E]. exists r. split; [exact E|].
  exact (proj2 (proj2 (proj2
           (listed_names_never_reported (sorter := stable_sorter)
              service_22 vec_peak r eq_refl E)))).
Defined.
